(** * IBP-AI: forecast ensemble, supply planner and scenario engine

    A shallow embedding of
    - [backend/app/ml/forecasting.py]      (stub forecast, validation metrics,
                                            model selection, orchestrator),
    - [backend/app/ml/inventory.py]        (demand summary, safety stock),
    - [backend/app/ml/supply_planning.py]  (purchase / production split),
    - [backend/app/ml/scenario.py]         (scenario KPI),
    - [backend/app/services/scenario_service.py] (base-plan resolution),
    followed by the properties stated for them.

    Conventions.
    - A Python [float] is read as an exact rational ([Q]); the only
      non-finite value the code creates on purpose, [np.inf] of the
      validation metrics, is kept as a constructor of [metric].  Statements
      about floats are therefore statements up to rounding, and equalities
      between quantities are [Qeq] ([==]).
    - A [datetime.date] is its proleptic Gregorian ordinal
      ([date.toordinal()]), a [Z]; a timedelta's [.days] is a difference.
    - A Python [dict] is an association list in insertion order.
    - What lies outside the code (numpy's [sin] and [pi], the fitted ARIMA,
      Prophet and XGBoost models, the loaded sales table) is a field of
      [Externals]. *)

From Stdlib Require Import String QArith Qminmax Qabs ZArith List Bool Lia Lqa.
From Stdlib Require Import Permutation.
Import ListNotations.
Open Scope Q_scope.

(* ================================================================== *)
(** * Python and numpy helpers *)

(** [float(n)] of a length or counter. *)
Definition Qnat (n : nat) : Q := inject_Z (Z.of_nat n).

Definition Qltb (x y : Q) : bool := negb (Qle_bool y x).

(** The builtin [sum] over floats: starts from [0], adds left to right. *)
Definition py_sum (l : list Q) : Q := fold_left Qplus l 0.

(** [np.mean] / [Series.mean] of a non-empty vector. *)
Definition np_mean (l : list Q) : Q := py_sum l / Qnat (length l).

(** Element-wise binary operation on two vectors of the same length. *)
Fixpoint zip_with {A B C : Type} (f : A -> B -> C) (l : list A) (l' : list B)
  : list C :=
  match l, l' with
  | a :: t, b :: t' => f a b :: zip_with f t t'
  | _, _ => []
  end.

(** [np.maximum(v, 0.0)]. *)
Definition np_maximum0 (v : list Q) : list Q := map (fun x => Qmax x 0) v.

(** [np.linspace(start, stop, num, endpoint=...)]: [num] samples
    [start + i * (stop - start) / div] with [div = num - 1] when the end
    point is included and [div = num] otherwise; with [div = 0] (one sample,
    end point included) the sample is [start].  numpy also overwrites the
    last sample by [stop] when the end point is included, which is the same
    rational. *)
Definition linspace (start stop : Q) (num : nat) (endpoint : bool) : list Q :=
  let div := if endpoint then (num - 1)%nat else num in
  let delta := stop - start in
  map (fun i => if (0 <? div)%nat
                then Qnat i * (delta / Qnat div) + start
                else Qnat i * delta + start)
      (seq 0 num).

(* ------------------------------------------------------------------ *)
(** ** Insertion-ordered dictionaries *)

Section Dict.
Context {V : Type}.

Definition dict := list (string * V).

Fixpoint dict_get (d : dict) (k : string) : option V :=
  match d with
  | [] => None
  | (k', v) :: d' => if String.eqb k' k then Some v else dict_get d' k
  end.

Definition dict_mem (d : dict) (k : string) : bool :=
  match dict_get d k with Some _ => true | None => false end.

(** [d[k] = v]: an existing key keeps its position, a new one goes last. *)
Fixpoint dict_set (d : dict) (k : string) (v : V) : dict :=
  match d with
  | [] => [(k, v)]
  | (k', v') :: d' =>
      if String.eqb k' k then (k', v) :: d' else (k', v') :: dict_set d' k v
  end.

Definition dict_values (d : dict) : list V := map snd d.
Definition dict_keys (d : dict) : list string := map fst d.
End Dict.
Arguments dict V : clear implicits.

(* ================================================================== *)
(** * models/forecast.py *)

Inductive TimeGranularity := day | week | month.

Record ForecastRequest := {
  sku_list : list string;
  start_date : Z;
  end_date : Z;
  granularity : TimeGranularity;
  location : option string;
  forced_model : option string
}.

Record ForecastPoint := {
  sku : string;
  date : Z;
  mean : Q;
  q10 : Q;
  q50 : Q;
  q90 : Q
}.

Record ForecastMetadata := {
  model_name : string;
  model_version : string;
  components : list string;
  notes : option string;
  per_sku_model : dict string
}.

(* ================================================================== *)
(** * ml/forecasting.py *)

(** A validation metric: a finite float or [np.inf]. *)
Inductive metric := Fin (q : Q) | Inf.

(** Python's [<] on two such floats. *)
Definition metric_ltb (a b : metric) : bool :=
  match a, b with
  | Fin x, Fin y => Qltb x y
  | Fin _, Inf => true
  | Inf, _ => false
  end.

Definition is_finite (m : metric) : bool :=
  match m with Fin _ => true | Inf => false end.

(** A [pd.Series] of daily quantities: (date, value) in index order. *)
Definition Series := list (Z * Q).

Definition series_values (s : Series) : list Q := map snd s.
Definition series_index (s : Series) : list Z := map fst s.

(** The libraries behind the code.
    - [arima_fit vs h]: [ARIMA(vs, order=(1,1,1)).fit().forecast(steps=h)];
      [None] when fitting or forecasting raises, otherwise the forecast as a
      function of the step, of which the code receives the first [h] values.
    - [prophet_fit s ds]: fitting Prophet on [s] and predicting at [ds];
      [None] when it raises, otherwise [yhat] as a function of the date.
    - [xgb_fit X y]: the fitted regressor, [None] when [fit] raises; a fitted
      model maps one lag value to a prediction, [None] when [predict] raises.
    - [sales_table]: the rows [load_sales_with_signals] returns (the
      columns the forecast reads). *)
Record SalesRow := {
  row_sku : string;
  row_location : string;
  row_date : Z;
  row_quantity : Q
}.

Record Externals := {
  np_sin : Q -> Q;
  np_pi : Q;
  arima_fit : list Q -> Z -> option (nat -> Q);
  prophet_fit : Series -> list Z -> option (Z -> Q);
  xgb_fit : list Q -> list Q -> option (Q -> option Q);
  sales_table : list SalesRow
}.

(** [df.groupby("date")["quantity"].sum().sort_index()]: one entry per
    date, ascending, the quantities of a date added in row order. *)
Fixpoint daily_add (d : Z) (q : Q) (s : Series) : Series :=
  match s with
  | [] => [(d, q)]
  | (d', q') :: s' =>
      if (d <? d')%Z then (d, q) :: s
      else if (d =? d')%Z then (d', q' + q) :: s'
      else (d', q') :: daily_add d q s'
  end.

Definition groupby_date_sum (rows : list SalesRow) : Series :=
  fold_left (fun s r => daily_add (row_date r) (row_quantity r) s) rows [].

Section Forecasting.
Variable E : Externals.

Definition _generate_stub_forecast (base : Q) (horizon : Z) : list Q :=
  if (horizon <=? 0)%Z then []
  else
    let n := Z.to_nat horizon in
    let steps := linspace 0 (2.5 * np_pi E) n false in
    let seasonal := map (fun s => 0.12 * np_sin E s) steps in
    let trend := linspace (-0.08) 0.08 n true in
    let raw := zip_with (fun s t => base * (1 + s + t)) seasonal trend in
    let noise := map (fun s => 0.05 * base * np_sin E (s * 1.7)) steps in
    let values := zip_with Qplus raw noise in
    np_maximum0 values.

(** The two metrics are called on a validation window and a forecast of the
    same length, and are modelled on that domain only (on vectors of
    different lengths numpy broadcasts or raises, which the definitions do
    not follow); [y_true[mask]] and [y_pred[mask]] are the pairs whose
    actual is positive. *)
Definition _compute_mape (y_true y_pred : list Q) : metric :=
  let masked := filter (fun tp => Qltb 0 (fst tp)) (combine y_true y_pred) in
  match masked with
  | [] => Inf
  | _ => Fin (np_mean (map (fun tp => Qabs ((fst tp - snd tp) / fst tp)) masked))
  end.

Definition _compute_mae (y_true y_pred : list Q) : metric :=
  match y_true, y_pred with
  | [], _ | _, [] => Inf
  | _, _ => Fin (np_mean (zip_with (fun t p => Qabs (t - p)) y_true y_pred))
  end.

Definition _prepare_history (sku_ : string) (location_ : option string)
  : Series :=
  let df := sales_table E in
  let df := filter (fun r => String.eqb (row_sku r) sku_) df in
  let df :=
    match location_ with
    | Some loc =>
        if existsb (fun r => String.eqb (row_location r) loc) df
        then filter (fun r => String.eqb (row_location r) loc) df
        else df
    | None => df
    end in
  match df with
  | [] => []
  | _ => groupby_date_sum df
  end.

Definition series_len (s : Series) : Z := Z.of_nat (length s).

Definition _forecast_arima (series : Series) (horizon : Z) : option (list Q) :=
  if (series_len series <? 4)%Z || (horizon <=? 0)%Z then None
  else
    match arima_fit E (series_values series) horizon with
    | Some fc => Some (np_maximum0 (map fc (seq 0 (Z.to_nat horizon))))
    | None => None
    end.

Definition _forecast_prophet (series : Series) (horizon_dates : list Z)
  : option (list Q) :=
  if (series_len series <? 4)%Z || (length horizon_dates =? 0)%nat then None
  else
    match prophet_fit E series horizon_dates with
    | Some yhat => Some (np_maximum0 (map yhat horizon_dates))
    | None => None
    end.

(** The recursive one-step rollout of [_forecast_xgb]. *)
Fixpoint xgb_rollout (model : Q -> option Q) (history : Q) (n : nat)
  : option (list Q) :=
  match n with
  | O => Some []
  | S n' =>
      match model history with
      | None => None
      | Some pred =>
          let pred := Qmax pred 0 in
          match xgb_rollout model pred n' with
          | Some forecasts => Some (pred :: forecasts)
          | None => None
          end
      end
  end.

Definition _forecast_xgb (series : Series) (horizon : Z) : option (list Q) :=
  if (series_len series <? 6)%Z || (horizon <=? 0)%Z then None
  else
    let values := series_values series in
    let X := removelast values in
    let y := tl values in
    match xgb_fit E X y with
    | Some model => xgb_rollout model (last values 0) (Z.to_nat horizon)
    | None => None
    end.

(** [float(series.mean()) if len(series) > 0 else 100.0]. *)
Definition stub_base (series : Series) : Q :=
  if (0 <? series_len series)%Z then np_mean (series_values series) else 100.

(** [min(d, key=d.get)]: the first key, in iteration order, whose value is
    not above any other. *)
Fixpoint py_min_from (best : string * metric) (rest : dict metric)
  : string :=
  match rest with
  | [] => fst best
  | kv :: rest' =>
      py_min_from (if metric_ltb (snd kv) (snd best) then kv else best) rest'
  end.

Definition py_min_key (d : dict metric) : option string :=
  match d with
  | [] => None
  | kv :: rest => Some (py_min_from kv rest)
  end.

(** [pd.date_range(start, periods, freq="D")]. *)
Definition date_range_periods (start : Z) (periods : nat) : list Z :=
  map (fun i => (start + Z.of_nat i)%Z) (seq 0 periods).

Definition known_models : list string :=
  ["arima"; "prophet"; "xgboost"; "stub"]%string.

Definition is_known_model (forced : option string) : bool :=
  match forced with
  | Some name => existsb (String.eqb name) known_models
  | None => false
  end.

Definition n_val_of (len : nat) : nat := Nat.min 3 (Nat.max 1 (len / 4)).

(** The holdout split: [train = series.iloc[:-n_val]] and
    [val_true = series.iloc[-n_val:].values]. *)
Definition train_of (series : Series) : Series :=
  firstn (length series - n_val_of (length series)) series.

Definition val_true_of (series : Series) : list Q :=
  series_values (skipn (length series - n_val_of (length series)) series).

(** The three validation forecasts [arima_val], [prophet_val], [xgb_val]. *)
Definition arima_val (series : Series) : option (list Q) :=
  _forecast_arima (train_of series) (Z.of_nat (n_val_of (length series))).

Definition prophet_val (series : Series) : option (list Q) :=
  let n_val := n_val_of (length series) in
  let train := train_of series in
  _forecast_prophet train
    (date_range_periods
       (nth (length train - n_val) (series_index train) 0%Z) n_val).

Definition xgb_val (series : Series) : option (list Q) :=
  _forecast_xgb (train_of series) (Z.of_nat (n_val_of (length series))).

(** The validation pass: the metrics dictionary after the three
    strategies were tried on the training prefix. *)
Definition validation_metrics (series : Series) : dict metric :=
  let val_true := val_true_of series in
  let metrics : dict metric := [] in
  let metrics :=
    match arima_val series with
    | Some fc =>
        dict_set (dict_set metrics "arima_mape" (_compute_mape val_true fc))
                 "arima_mae" (_compute_mae val_true fc)
    | None => metrics
    end in
  let metrics :=
    match prophet_val series with
    | Some fc =>
        dict_set (dict_set metrics "prophet_mape" (_compute_mape val_true fc))
                 "prophet_mae" (_compute_mae val_true fc)
    | None => metrics
    end in
  let metrics :=
    match xgb_val series with
    | Some fc =>
        dict_set (dict_set metrics "xgb_mape" (_compute_mape val_true fc))
                 "xgb_mae" (_compute_mae val_true fc)
    | None => metrics
    end in
  metrics.

Definition _forecast_with_name (series : Series) (horizon_dates : list Z)
           (name : string) : option (list Q) * string :=
  let horizon := Z.of_nat (length horizon_dates) in
  if String.eqb name "arima" then (_forecast_arima series horizon, "arima"%string)
  else if String.eqb name "prophet"
    then (_forecast_prophet series horizon_dates, "prophet"%string)
  else if String.eqb name "xgboost"
    then (_forecast_xgb series horizon, "xgboost"%string)
  else if String.eqb name "stub"
    then (Some (_generate_stub_forecast (stub_base series) horizon), "stub"%string)
  else (None, "stub"%string).

Definition score_candidates_of (metrics : dict metric) : dict metric :=
  let sc : dict metric := [] in
  let sc := match dict_get metrics "arima_mape" with
            | Some v => dict_set sc "arima" v | None => sc end in
  let sc := match dict_get metrics "prophet_mape" with
            | Some v => dict_set sc "prophet" v | None => sc end in
  let sc := match dict_get metrics "xgb_mape" with
            | Some v => dict_set sc "xgboost" v | None => sc end in
  sc.

Definition _select_model_and_forecast
           (series : Series) (horizon_dates : list Z)
           (forced : option string)
  : list Q * string * dict metric :=
  let horizon := Z.of_nat (length horizon_dates) in
  let stub := _generate_stub_forecast (stub_base series) horizon in
  if (series_len series <? 4)%Z || (horizon <=? 0)%Z then
    (stub, "stub"%string, [])
  else
    let metrics := validation_metrics series in
    if is_known_model forced then
      match forced with
      | Some name =>
          match _forecast_with_name series horizon_dates name with
          | (None, _) => (stub, "stub"%string, metrics)
          | (Some final_fc, chosen) => (final_fc, chosen, metrics)
          end
      | None => (stub, "stub"%string, metrics)
      end
    else
      match metrics with
      | [] => (stub, "stub"%string, [])
      | _ =>
          match py_min_key (score_candidates_of metrics) with
          | None => (stub, "stub"%string, metrics)
          | Some best_model =>
              match _forecast_with_name series horizon_dates best_model with
              | (None, _) => (stub, "stub"%string, metrics)
              | (Some final_fc, chosen) => (final_fc, chosen, metrics)
              end
          end
      end.
End Forecasting.

(* ------------------------------------------------------------------ *)
(** ** The forecast orchestrator *)

(** Day of the month of the date with ordinal [o] (proleptic Gregorian
    calendar, ordinal 1 = 0001-01-01), by the usual era / day-of-era
    decomposition with years starting on 1 March. *)
Definition day_of_month (o : Z) : Z :=
  let z := (o + 305)%Z in
  let era := (z / 146097)%Z in
  let doe := (z - era * 146097)%Z in
  let yoe := ((doe - doe / 1460 + doe / 36524 - doe / 146096) / 365)%Z in
  let doy := (doe - (365 * yoe + yoe / 4 - yoe / 100))%Z in
  let mp := ((5 * doy + 2) / 153)%Z in
  (doy - (153 * mp + 2) / 5 + 1)%Z.

Definition is_month_end (o : Z) : bool := (day_of_month (o + 1) =? 1)%Z.

(** Ordinal 1 is a Monday, so Sundays are the multiples of 7. *)
Definition is_sunday (o : Z) : bool := (o mod 7 =? 0)%Z.

(** [pd.date_range(start, end, freq)] for the three granularities: every
    day, every Sunday (["W"]), every month end (["M"]) of the closed range. *)
Definition date_range (start end_ : Z) (freq : TimeGranularity) : list Z :=
  let days := map (fun i => (start + Z.of_nat i)%Z)
                  (seq 0 (Z.to_nat (end_ - start + 1))) in
  match freq with
  | day => days
  | week => filter is_sunday days
  | month => filter is_month_end days
  end.

(** The point built from one forecast value (quantiles from the mean). *)
Definition make_point (sku_ : string) (ts : Z) (mean_ : Q) : ForecastPoint :=
  {| sku := sku_; date := ts; mean := mean_;
     q10 := mean_ * 0.8; q50 := mean_; q90 := mean_ * 1.2 |}.

Definition chosen_model_code (chosen : string) : Q :=
  match dict_get [("stub", 0); ("arima", 1); ("prophet", 2); ("xgboost", 3)]%string
                 chosen with
  | Some c => c
  | None => -1
  end.

Section Orchestrator.
Variable E : Externals.

(** State of the loop over [request.sku_list]. *)
Record EnsembleState := {
  points : list ForecastPoint;
  global_metrics : dict metric;
  st_per_sku_model : dict string
}.

(** The body of [for sku in request.sku_list]. *)
Definition forecast_sku (request : ForecastRequest) (date_index : list Z)
           (st : EnsembleState) (sku_ : string) : EnsembleState :=
  let history := _prepare_history E sku_ (location request) in
  let '(mean_values, chosen_model, metrics) :=
    match history with
    | [] => (_generate_stub_forecast E 100 (Z.of_nat (length date_index)),
             "stub"%string, [])
    | _ => _select_model_and_forecast E history date_index (forced_model request)
    end in
  let psm := dict_set (st_per_sku_model st) sku_ chosen_model in
  let gm := fold_left
              (fun g kv => dict_set g (sku_ ++ "." ++ fst kv)%string (snd kv))
              metrics (global_metrics st) in
  let pts := points st ++
             map (fun tm => make_point sku_ (fst tm) (snd tm))
                 (combine date_index mean_values) in
  let gm := dict_set gm (sku_ ++ ".chosen_model")%string
                     (Fin (chosen_model_code chosen_model)) in
  {| points := pts; global_metrics := gm; st_per_sku_model := psm |}.

Definition generate_ensemble_forecast (request : ForecastRequest)
  : list ForecastPoint * ForecastMetadata * dict metric :=
  let date_index := date_range (start_date request) (end_date request)
                               (granularity request) in
  let st := fold_left (forecast_sku request date_index) (sku_list request)
                      {| points := []; global_metrics := [];
                         st_per_sku_model := [] |} in
  let metadata :=
    {| model_name := "arima_prophet_xgb_ensemble";
       model_version := "1.0.0";
       components := ["arima"; "prophet"; "xgboost"]%string;
       notes := Some "Per-SKU model selection with ARIMA, Prophet, and XGBoost; quantiles approximated from mean."%string;
       per_sku_model := st_per_sku_model st |} in
  (points st, metadata, global_metrics st).
End Orchestrator.

(* ================================================================== *)
(** * models/plan.py *)

Record InventoryConstraints := {
  target_service_level : Q;
  max_days_of_cover : Z;
  min_days_of_cover : Z;
  lead_time_days : Z
}.

Record RecommendedOrder := {
  order_sku : string;
  order_location : option string;
  order_date : Z;
  order_quantity : Q;
  order_type : string
}.

Record ProductionRecommendation := {
  production_sku : string;
  line_id : option string;
  production_date : Z;
  production_quantity : Q
}.

Record PlanKPI := {
  kpi_name : string;
  kpi_value : Q;
  kpi_unit : option string
}.

Record PlanResponse := {
  plan_id : string;
  plan_forecast_id : string;
  orders : list RecommendedOrder;
  production : list ProductionRecommendation;
  kpis : list PlanKPI
}.

(* ================================================================== *)
(** * ml/inventory.py *)

(** [demand_by_sku[k] += m] on a [defaultdict(float)]. *)
Definition demand_add (d : dict Q) (k : string) (m : Q) : dict Q :=
  dict_set d k (match dict_get d k with Some v => v | None => 0 end + m).

(** The body of [for p in points]. *)
Definition summarize_step (st : dict Q * option Z * option Z) (p : ForecastPoint)
  : dict Q * option Z * option Z :=
  let '(demand_by_sku, min_date, max_date) := st in
  let demand_by_sku := demand_add demand_by_sku (sku p) (mean p) in
  let min_date := match min_date with
                  | None => Some (date p)
                  | Some m => if (date p <? m)%Z then Some (date p) else Some m
                  end in
  let max_date := match max_date with
                  | None => Some (date p)
                  | Some m => if (date p >? m)%Z then Some (date p) else Some m
                  end in
  (demand_by_sku, min_date, max_date).

Definition summarize_demand (pts : list ForecastPoint)
  : dict Q * option Z * option Z :=
  fold_left summarize_step pts ([], None, None).

Definition z_value_of (constraints : InventoryConstraints) : Q :=
  if Qle_bool 0.95 (target_service_level constraints) then 1.65 else 1.0.

Definition compute_safety_stock_for_sku
           (total_demand : Q) (horizon_days : Z)
           (constraints : InventoryConstraints) : Q :=
  if (horizon_days <=? 0)%Z then 0.0
  else
    let avg_daily := total_demand / inject_Z horizon_days in
    let z_value := z_value_of constraints in
    avg_daily * inject_Z (lead_time_days constraints) * z_value.

(* ================================================================== *)
(** * ml/supply_planning.py *)

(** State of the loop over [demand_by_sku.items()]. *)
Record PlanState := {
  st_orders : list RecommendedOrder;
  st_production : list ProductionRecommendation;
  total_volume : Q
}.

Definition total_required_of (total_demand : Q) (horizon_days : Z)
           (constraints : InventoryConstraints) : Q :=
  total_demand + compute_safety_stock_for_sku total_demand horizon_days constraints.

(** The body of [for sku, total_demand in demand_by_sku.items()]. *)
Definition plan_sku (constraints : InventoryConstraints)
           (location_ : option string) (min_date : Z) (horizon_days : Z)
           (st : PlanState) (item : string * Q) : PlanState :=
  let '(sku_, total_demand) := item in
  let total_required := total_required_of total_demand horizon_days constraints in
  let purchase_quantity := total_required * 0.4 in
  let production_quantity_ := total_required * 0.6 in
  let orders_ :=
    if Qltb 0.0 purchase_quantity
    then st_orders st ++
         [{| order_sku := sku_; order_location := location_;
             order_date := min_date; order_quantity := purchase_quantity;
             order_type := "purchase" |}]
    else st_orders st in
  let production_ :=
    if Qltb 0.0 production_quantity_
    then st_production st ++
         [{| production_sku := sku_; line_id := Some "LINE-1"%string;
             production_date := min_date;
             production_quantity := production_quantity_ |}]
    else st_production st in
  {| st_orders := orders_; st_production := production_;
     total_volume := total_volume st + total_required |}.

Definition generate_supply_plan
           (pts : list ForecastPoint) (constraints : InventoryConstraints)
           (location_ : option string)
  : list RecommendedOrder * list ProductionRecommendation * list PlanKPI :=
  match summarize_demand pts with
  | (demand_by_sku, Some min_date, Some max_date) =>
      let horizon_days := (max_date - min_date + 1)%Z in
      let st := fold_left (plan_sku constraints location_ min_date horizon_days)
                          demand_by_sku
                          {| st_orders := []; st_production := [];
                             total_volume := 0.0 |} in
      (st_orders st, st_production st,
       [ {| kpi_name := "Total Volume"; kpi_value := total_volume st;
            kpi_unit := Some "units"%string |};
         {| kpi_name := "Target Service Level";
            kpi_value := target_service_level constraints;
            kpi_unit := Some ""%string |} ])
  | _ => ([], [], [])
  end.

(* ================================================================== *)
(** * models/scenario.py *)

Inductive ScenarioShockType := demand | supply | capacity | price.

Definition shock_type_eqb (a b : ScenarioShockType) : bool :=
  match a, b with
  | demand, demand | supply, supply | capacity, capacity | price, price => true
  | _, _ => false
  end.

Record ScenarioShock := {
  shock_type : ScenarioShockType;
  shock_sku : option string;
  shock_location : option string;
  shock_start_date : Z;
  shock_end_date : Z;
  factor : Q;
  delta : Q
}.

Record ScenarioRequest := {
  req_forecast_id : string;
  req_plan_id : option string;
  req_name : option string;
  shocks : list ScenarioShock
}.

Record ScenarioKPI := {
  skpi_name : string;
  skpi_base : Q;
  skpi_scenario : Q;
  skpi_delta : Q;
  skpi_unit : option string
}.

(* ================================================================== *)
(** * ml/scenario.py *)

Definition demand_factors_of (request : ScenarioRequest) : list Q :=
  map factor
      (filter (fun shock => shock_type_eqb (shock_type shock) demand)
              (shocks request)).

Definition average_demand_factor (request : ScenarioRequest) : Q :=
  match demand_factors_of request with
  | [] => 1.0
  | fs => py_sum fs / Qnat (length fs)
  end.

Definition base_volume_of (plan : PlanResponse) : Q :=
  py_sum (map order_quantity (orders plan))
  + py_sum (map production_quantity (production plan)).

Definition compute_scenario_kpis (plan : PlanResponse) (request : ScenarioRequest)
  : list ScenarioKPI :=
  let base_volume := base_volume_of plan in
  let demand_factor := average_demand_factor request in
  let scenario_volume := base_volume * demand_factor in
  let delta_volume := scenario_volume - base_volume in
  [ {| skpi_name := "Total Volume"; skpi_base := base_volume;
       skpi_scenario := scenario_volume; skpi_delta := delta_volume;
       skpi_unit := Some "units"%string |} ].

(* ================================================================== *)
(** * services/store.py and services/scenario_service.py *)

(** What the narrative sentences say, before they are formatted. *)
Inductive Direction := increase | decrease | no_change.

Inductive NarrativePart :=
| TotalVolumeSentence (direction : Direction) (base scenario pct_change : Q)
| DemandFactorSentence (avg_demand_factor : Q).

Record ScenarioResponse := {
  scenario_id : string;
  resp_forecast_id : string;
  resp_plan_id : option string;
  resp_name : option string;
  resp_kpis : list ScenarioKPI;
  narrative : option (string * list NarrativePart)
}.

Record InMemoryStore := {
  plans : dict PlanResponse;
  scenarios : dict ScenarioResponse
}.

Inductive HTTPException :=
| HTTP_404_NOT_FOUND (detail : string)
| HTTP_400_BAD_REQUEST (detail : string).

Inductive result (A : Type) :=
| Return (a : A)
| Raise (e : HTTPException).
Arguments Return {A} a.
Arguments Raise {A} e.

(** Truth value of an [Optional[str]]: [None] and the empty string are
    false. *)
Definition truthy (s : option string) : bool :=
  match s with
  | Some s' => negb (String.eqb s' "")
  | None => false
  end.

(** The first plan of [store.plans.values()] made from [forecast_id]. *)
Definition first_plan_for (ps : dict PlanResponse) (forecast_id : string)
  : option PlanResponse :=
  find (fun candidate => String.eqb (plan_forecast_id candidate) forecast_id)
       (dict_values ps).

Definition narrative_of (payload : ScenarioRequest) (kpis_ : list ScenarioKPI)
  : option (string * list NarrativePart) :=
  let avg_demand_factor := average_demand_factor payload in
  let total_kpi := find (fun k => String.eqb (skpi_name k) "Total Volume") kpis_ in
  let parts :=
    match total_kpi with
    | Some k =>
        let pct_change :=
          if Qeq_bool (skpi_base k) 0 then 0.0
          else skpi_delta k / skpi_base k * 100.0 in
        let direction :=
          if Qltb 0 (skpi_delta k) then increase
          else if Qltb (skpi_delta k) 0 then decrease
          else no_change in
        [TotalVolumeSentence direction (skpi_base k) (skpi_scenario k) pct_change]
    | None => []
    end in
  let parts :=
    if Qeq_bool avg_demand_factor 1.0 then parts
    else parts ++ [DemandFactorSentence avg_demand_factor] in
  match parts with
  | [] => None
  | _ => Some (match req_name payload with
               | Some n => if String.eqb n "" then "Scenario"%string else n
               | None => "Scenario"%string
               end, parts)
  end.

(** [ScenarioService.run_scenario]; [uuid4] is the identifier drawn for the
    new scenario.  The store is returned as the call leaves it. *)
Definition run_scenario (store : InMemoryStore) (uuid4 : string)
           (payload : ScenarioRequest)
  : result ScenarioResponse * InMemoryStore :=
  let found : result (option PlanResponse) :=
    if truthy (req_plan_id payload) then
      match dict_get (plans store)
                     (match req_plan_id payload with Some i => i | None => ""%string end) with
      | None => Raise (HTTP_404_NOT_FOUND "Plan not found")
      | Some plan => Return (Some plan)
      end
    else Return (first_plan_for (plans store) (req_forecast_id payload)) in
  match found with
  | Raise e => (Raise e, store)
  | Return None =>
      (Raise (HTTP_400_BAD_REQUEST "No base plan available for scenario"), store)
  | Return (Some plan) =>
      let kpis_ := compute_scenario_kpis plan payload in
      let response :=
        {| scenario_id := uuid4;
           resp_forecast_id := req_forecast_id payload;
           resp_plan_id := Some (plan_id plan);
           resp_name := req_name payload;
           resp_kpis := kpis_;
           narrative := narrative_of payload kpis_ |} in
      (Return response,
       {| plans := plans store;
          scenarios := dict_set (scenarios store) uuid4 response |})
  end.

(* ================================================================== *)
(** * Specification-side definitions

    The formulas of the design document, written as it words them, to be
    compared with what the code computes. *)

Section StubFormula.
Variable E : Externals.

(** [phase = i/n * 2.5 * pi]. *)
Definition spec_phase (i n : nat) : Q := Qnat i / Qnat n * 2.5 * np_pi E.

(** The trend term, interpolated linearly from [-0.08] (first step) to
    [+0.08] (last step); a one-step horizon has the first value only. *)
Definition spec_trend (i n : nat) : Q :=
  if (n =? 1)%nat then -0.08
  else -0.08 + (0.08 - -0.08) * (Qnat i / Qnat (n - 1)).

Definition spec_stub_value (base : Q) (i n : nat) : Q :=
  Qmax 0 (base * (1 + 0.12 * np_sin E (spec_phase i n) + spec_trend i n)
          + 0.05 * base * np_sin E (1.7 * spec_phase i n)).
End StubFormula.

(** The unweighted mean of a list of factors. *)
Definition unweighted_mean (l : list Q) : Q :=
  fold_right Qplus 0 l / Qnat (length l).

(** The z-score of the planner: two levels. *)
Definition spec_z (service_level : Q) : Q :=
  if Qle_bool 0.95 service_level then 1.65 else 1.

(** Position of a strategy in the tie-break order. *)
Definition strategy_priority (name : string) : nat :=
  if String.eqb name "arima" then 0
  else if String.eqb name "prophet" then 1
  else if String.eqb name "xgboost" then 2
  else 3.

(** The entry a strategy contributes to the candidates: its validation MAPE
    when it produced a validation forecast. *)
Definition candidate_entry (name : string) (val_true : list Q)
           (val_fc : option (list Q)) : dict metric :=
  match val_fc with
  | Some fc => [(name, _compute_mape val_true fc)]
  | None => []
  end.

(** Number of points of a forecast for a given SKU and date. *)
Definition count_points (pts : list ForecastPoint) (sku_ : string) (d : Z) : nat :=
  length (filter (fun p => String.eqb (sku p) sku_ && (date p =? d)%Z) pts).

(* ================================================================== *)
(** * Concrete inputs

    Small closed instances on which the definitions are evaluated. *)

(** Externals with a concrete [sin] (a parabola arc) and no fitted model. *)
Definition stub_demo_externals : Externals :=
  {| np_sin := fun x => x * (1 - x / 8);
     np_pi := 3.14;
     arima_fit := fun _ _ => None;
     prophet_fit := fun _ _ => None;
     xgb_fit := fun _ _ => None;
     sales_table := [] |}.



(** The candidates of the auto-selection: the strategies that produced a
    validation forecast, in the order arima, prophet, xgboost, each with its
    validation MAPE. *)
Definition candidates (E : Externals) (series : Series) : dict metric :=
  candidate_entry "arima" (val_true_of series) (arima_val E series)
  ++ candidate_entry "prophet" (val_true_of series) (prophet_val E series)
  ++ candidate_entry "xgboost" (val_true_of series) (xgb_val E series).

(** The result of falling back to the stub. *)
Definition stub_result (E : Externals) (series : Series) (horizon_dates : list Z)
           (metrics : dict metric) : list Q * string * dict metric :=
  (_generate_stub_forecast E (stub_base series) (Z.of_nat (length horizon_dates)),
   "stub"%string, metrics).

(** A five-day history whose last day (the validation window) sold nothing,
    and one whose last day sold two units. *)
Definition history_zero_tail : Series :=
  [(1%Z, 3); (2%Z, 5); (3%Z, 4); (4%Z, 6); (5%Z, 0)].

Definition history_five : Series :=
  [(1%Z, 3); (2%Z, 5); (3%Z, 4); (4%Z, 6); (5%Z, 2)].

(** ARIMA always fits and forecasts [1]; the other two always raise. *)
Definition arima_only_externals : Externals :=
  {| np_sin := fun x => x * (1 - x / 8);
     np_pi := 3.14;
     arima_fit := fun _ _ => Some (fun _ => 1);
     prophet_fit := fun _ _ => None;
     xgb_fit := fun _ _ => None;
     sales_table := [] |}.

(** A request for one day that names the same SKU twice. *)
Definition request_repeated_sku : ForecastRequest :=
  {| sku_list := ["SKU-001"; "SKU-001"]%string;
     start_date := 739252;
     end_date := 739252;
     granularity := day;
     location := None;
     forced_model := None |}.

(** A seven-day daily request for two SKUs. *)
Definition request_two_skus : ForecastRequest :=
  {| sku_list := ["SKU-001"; "SKU-002"]%string;
     start_date := 739252;
     end_date := 739258;
     granularity := day;
     location := None;
     forced_model := None |}.

(** What every forecast point satisfies: a non-negative mean and the fixed
    band around it. *)
Definition point_well_formed (p : ForecastPoint) : Prop :=
  0 <= mean p /\ q50 p == mean p /\ q10 p == 0.8 * mean p /\
  q90 p == 1.2 * mean p /\ q10 p <= q50 p /\ q50 p <= q90 p.

(** The (sku, date) pair a point stands for. *)
Definition point_key (p : ForecastPoint) : string * Z := (sku p, date p).

(** The demand of one SKU in a list of points: its means added up. *)
Definition sku_demand (pts : list ForecastPoint) (s : string) : Q :=
  py_sum (map mean (filter (fun p => String.eqb (sku p) s) pts)).

(** What one pass of the planner's loop appends to the orders and to the
    production recommendations. *)
Definition order_entry (constraints : InventoryConstraints)
           (location_ : option string) (min_date horizon_days : Z)
           (item : string * Q) : list RecommendedOrder :=
  let total_required := total_required_of (snd item) horizon_days constraints in
  if Qltb 0.0 (total_required * 0.4)
  then [{| order_sku := fst item; order_location := location_;
           order_date := min_date; order_quantity := total_required * 0.4;
           order_type := "purchase" |}]
  else [].

Definition production_entry (constraints : InventoryConstraints)
           (min_date horizon_days : Z)
           (item : string * Q) : list ProductionRecommendation :=
  let total_required := total_required_of (snd item) horizon_days constraints in
  if Qltb 0.0 (total_required * 0.6)
  then [{| production_sku := fst item; line_id := Some "LINE-1"%string;
           production_date := min_date;
           production_quantity := total_required * 0.6 |}]
  else [].

(** The plan response a planning call stores for a supply plan. *)
Definition plan_response_of (plan_id_ forecast_id_ : string)
           (out : list RecommendedOrder * list ProductionRecommendation * list PlanKPI)
  : PlanResponse :=
  {| plan_id := plan_id_; plan_forecast_id := forecast_id_;
     orders := fst (fst out); production := snd (fst out); kpis := snd out |}.

(** Three points for two SKUs over three days, the default constraints. *)
Definition demo_points : list ForecastPoint :=
  [make_point "SKU-001" 739252 5; make_point "SKU-002" 739252 0;
   make_point "SKU-001" 739254 7].

Definition demo_constraints : InventoryConstraints :=
  {| target_service_level := 0.95; max_days_of_cover := 90;
     min_days_of_cover := 0; lead_time_days := 10 |}.

(** A stored plan made from forecast "f1", and a scenario request that
    carries the empty string as its plan id. *)
Definition demo_plan : PlanResponse :=
  plan_response_of "p1" "f1" (generate_supply_plan demo_points demo_constraints None).

Definition demo_store : InMemoryStore :=
  {| plans := [("p1"%string, demo_plan)]; scenarios := [] |}.

Definition demand_shock (f : Q) : ScenarioShock :=
  {| shock_type := demand; shock_sku := None; shock_location := None;
     shock_start_date := 739252; shock_end_date := 739258;
     factor := f; delta := 0.0 |}.

Definition request_empty_plan_id : ScenarioRequest :=
  {| req_forecast_id := "f1"; req_plan_id := Some ""%string;
     req_name := Some "Demand x1.2"%string; shocks := [demand_shock 1.2] |}.

Definition request_plan_p1 : ScenarioRequest :=
  {| req_forecast_id := "f1"; req_plan_id := Some "p1"%string;
     req_name := Some "Demand x1.2"%string; shocks := [demand_shock 1.2] |}.

(** The shocks of a request that are of type demand. *)
Definition demand_shocks (request : ScenarioRequest) : list ScenarioShock :=
  filter (fun shock => shock_type_eqb (shock_type shock) demand) (shocks request).

(* ================================================================== *)
(** * The remaining service layer

    [services/planning_service.py], the read side of
    [services/scenario_service.py] and [core/security.py], with the record
    [services/forecasting_service.py] stores. *)

Record ForecastResponse := {
  forecast_id : string;
  fr_points : list ForecastPoint;
  fr_metadata : ForecastMetadata;
  fr_metrics : option (dict metric)
}.

Inductive PlanObjective := service_level | margin | cost.

Record PlanGenerateRequest := {
  pg_forecast_id : string;
  pg_objective : PlanObjective;
  pg_constraints : InventoryConstraints;
  pg_location : option string
}.

Record ScenarioSummary := {
  sum_scenario_id : string;
  sum_forecast_id : string;
  sum_plan_id : option string;
  sum_name : option string
}.

(** The whole [InMemoryStore]: the forecasts beside the plans and the
    scenarios. *)
Record StoreState := {
  forecasts : dict ForecastResponse;
  artifacts : InMemoryStore
}.

(** [PlanningService.generate_plan]. *)
Definition generate_plan (st : StoreState) (uuid4 : string)
           (payload : PlanGenerateRequest) : result PlanResponse * StoreState :=
  match dict_get (forecasts st) (pg_forecast_id payload) with
  | None => (Raise (HTTP_404_NOT_FOUND "Forecast not found"), st)
  | Some forecast =>
      let '(orders_, production_, kpis_) :=
        generate_supply_plan (fr_points forecast) (pg_constraints payload)
                             (pg_location payload) in
      let response :=
        {| plan_id := uuid4; plan_forecast_id := pg_forecast_id payload;
           orders := orders_; production := production_; kpis := kpis_ |} in
      (Return response,
       {| forecasts := forecasts st;
          artifacts :=
            {| plans := dict_set (plans (artifacts st)) uuid4 response;
               scenarios := scenarios (artifacts st) |} |})
  end.

(** [ScenarioService.get_scenario]. *)
Definition get_scenario (store : InMemoryStore) (scenario_id_ : string)
  : result ScenarioResponse :=
  match dict_get (scenarios store) scenario_id_ with
  | None => Raise (HTTP_404_NOT_FOUND "Scenario not found")
  | Some scenario => Return scenario
  end.

Definition option_string_eqb (a b : option string) : bool :=
  match a, b with
  | Some x, Some y => String.eqb x y
  | None, None => true
  | _, _ => false
  end.

(** The test of [list_scenarios] on one stored scenario: false when a given
    filter differs from the scenario's field. *)
Definition scenario_matches (forecast_id_ plan_id_ : option string)
           (scenario : ScenarioResponse) : bool :=
  match forecast_id_ with
  | Some f => String.eqb (resp_forecast_id scenario) f
  | None => true
  end
  && match plan_id_ with
     | Some p => option_string_eqb (resp_plan_id scenario) (Some p)
     | None => true
     end.

(** [ScenarioService.list_scenarios]. *)
Definition list_scenarios (store : InMemoryStore)
           (forecast_id_ plan_id_ : option string) : list ScenarioSummary :=
  map (fun scenario =>
         {| sum_scenario_id := scenario_id scenario;
            sum_forecast_id := resp_forecast_id scenario;
            sum_plan_id := resp_plan_id scenario;
            sum_name := resp_name scenario |})
      (filter (scenario_matches forecast_id_ plan_id_)
              (dict_values (scenarios store))).

(** ** core/security.py *)

(** The settings the security layer reads. *)
Record Settings := {
  api_key : string;
  allowed_roles : list string;
  default_role : string
}.

(** The values [core/config.py] gives them (without an environment
    override of the key). *)
Definition default_settings : Settings :=
  {| api_key := "dev-api-key-change-me";
     allowed_roles := ["admin"; "planner"; "viewer"]%string;
     default_role := "planner" |}.

Record UserContext := {
  user_api_key : string;
  role : string
}.

Inductive auth_result :=
| Authenticated (user : UserContext)
| HTTP_401_UNAUTHORIZED (detail : string)
| HTTP_403_FORBIDDEN (detail : string).

Definition string_in (s : string) (l : list string) : bool :=
  existsb (String.eqb s) l.

(** [get_current_user] on the two request headers. *)
Definition get_current_user (settings : Settings)
           (x_api_key x_role : option string) : auth_result :=
  match x_api_key with
  | None => HTTP_401_UNAUTHORIZED "Invalid or missing API key"
  | Some key =>
      if negb (String.eqb key (api_key settings))
      then HTTP_401_UNAUTHORIZED "Invalid or missing API key"
      else
        let role_ := if truthy x_role
                     then match x_role with Some r => r | None => ""%string end
                     else default_role settings in
        if negb (string_in role_ (allowed_roles settings))
        then HTTP_403_FORBIDDEN "Role not allowed"
        else Authenticated {| user_api_key := key; role := role_ |}
  end.

(** [require_role(required_roles)] as a dependency of a route. *)
Definition require_role (required_roles : list string) (settings : Settings)
           (x_api_key x_role : option string) : auth_result :=
  match get_current_user settings x_api_key x_role with
  | Authenticated user =>
      if negb (string_in (role user) required_roles)
      then HTTP_403_FORBIDDEN "Insufficient permissions"
      else Authenticated user
  | failure => failure
  end.

(** The roles the routes of [api/v1] ask for. *)
Definition roles_to_write : list string := ["planner"; "admin"]%string.
Definition roles_to_read : list string := ["planner"; "admin"; "viewer"]%string.

(* ================================================================== *)
(** * Further specification-side definitions *)

(** A list of dates that increases strictly. *)
Fixpoint strictly_increasing (l : list Z) : Prop :=
  match l with
  | [] => True
  | x :: l' => match l' with
               | [] => True
               | y :: _ => (x < y)%Z
               end /\ strictly_increasing l'
  end.

(** The rows [_prepare_history] keeps for a SKU and an optional location. *)
Definition selected_rows (E : Externals) (sku_ : string) (location_ : option string)
  : list SalesRow :=
  let df := filter (fun r => String.eqb (row_sku r) sku_) (sales_table E) in
  match location_ with
  | Some loc =>
      if existsb (fun r => String.eqb (row_location r) loc) df
      then filter (fun r => String.eqb (row_location r) loc) df
      else df
  | None => df
  end.

(** The model the selector's loop body reports for a SKU. *)
Definition chosen_model_of (E : Externals) (request : ForecastRequest) (sku_ : string)
  : string :=
  match _prepare_history E sku_ (location request) with
  | [] => "stub"%string
  | history =>
      snd (fst (_select_model_and_forecast
                  E history
                  (date_range (start_date request) (end_date request)
                              (granularity request))
                  (forced_model request)))
  end.

(** A request for the same dates and options with another SKU list. *)
Definition with_skus (request : ForecastRequest) (skus : list string)
  : ForecastRequest :=
  {| sku_list := skus; start_date := start_date request;
     end_date := end_date request; granularity := granularity request;
     location := location request; forced_model := forced_model request |}.

(** A sales table with two SKUs. *)
Definition demo_sales : list SalesRow :=
  [ {| row_sku := "SKU-001"; row_location := "WH-1"; row_date := 739250; row_quantity := 4 |};
    {| row_sku := "SKU-002"; row_location := "WH-1"; row_date := 739250; row_quantity := 9 |};
    {| row_sku := "SKU-001"; row_location := "WH-2"; row_date := 739249; row_quantity := 3 |};
    {| row_sku := "SKU-001"; row_location := "WH-1"; row_date := 739249; row_quantity := 2 |};
    {| row_sku := "SKU-001"; row_location := "WH-2"; row_date := 739250; row_quantity := 1 |} ].

Definition demo_sales_externals : Externals :=
  {| np_sin := fun x => x * (1 - x / 8);
     np_pi := 3.14;
     arima_fit := fun _ _ => Some (fun _ => 1);
     prophet_fit := fun _ _ => None;
     xgb_fit := fun _ _ => Some (fun x => Some (x / 2));
     sales_table := demo_sales |}.

(** A seven-day history. *)
Definition history_seven : Series :=
  [(1%Z, 3); (2%Z, 5); (3%Z, 4); (4%Z, 6); (5%Z, 2); (6%Z, 8); (7%Z, 4)].

Definition demo_store_state : StoreState :=
  {| forecasts := []; artifacts := {| plans := []; scenarios := [] |} |}.

(** The quantity of a list of rows on one date, added in row order. *)
Definition daily_total (rows : list SalesRow) (d : Z) : Q :=
  py_sum (map row_quantity (filter (fun r => (row_date r =? d)%Z) rows)).

(** The keys the validation pass can write. *)
Definition metric_keys : list string :=
  ["arima_mape"; "arima_mae"; "prophet_mape"; "prophet_mae";
   "xgb_mape"; "xgb_mae"]%string.

(** The value the XGBoost rollout feeds to the model at step [i]: the last
    observation first, the previous forecast afterwards. *)
Definition rollout_input (values fc : list Q) (i : nat) : Q :=
  match i with
  | O => last values 0
  | S j => nth j fc 0
  end.

(** The loop state before the first SKU. *)
Definition empty_ensemble_state : EnsembleState :=
  {| points := []; global_metrics := []; st_per_sku_model := [] |}.

(** The points one pass of the orchestrator's loop makes for a SKU. *)
Definition sku_points (E : Externals) (request : ForecastRequest)
           (date_index : list Z) (sku_ : string) : list ForecastPoint :=
  points (forecast_sku E request date_index empty_ensemble_state sku_).

(** The distinct elements of a list in the order of their first occurrence
    (the key order of a dictionary filled from the list). *)
Fixpoint first_seen (l : list string) : list string :=
  match l with
  | [] => []
  | x :: l' => x :: filter (fun y => negb (String.eqb y x)) (first_seen l')
  end.

(** The summary [list_scenarios] makes of a stored scenario. *)
Definition summary_of (scenario : ScenarioResponse) : ScenarioSummary :=
  {| sum_scenario_id := scenario_id scenario;
     sum_forecast_id := resp_forecast_id scenario;
     sum_plan_id := resp_plan_id scenario;
     sum_name := resp_name scenario |}.

(** The name a narrative starts with. *)
Definition narrative_name (payload : ScenarioRequest) : string :=
  match req_name payload with
  | Some n => if String.eqb n "" then "Scenario"%string else n
  | None => "Scenario"%string
  end.

(** A plan request for a forecast, with the default objective. *)
Definition plan_request (forecast_id_ : string) (constraints : InventoryConstraints)
           (location_ : option string) : PlanGenerateRequest :=
  {| pg_forecast_id := forecast_id_; pg_objective := service_level;
     pg_constraints := constraints; pg_location := location_ |}.


(** A stored forecast of the three demo points, and a store holding it. *)
Definition demo_forecast : ForecastResponse :=
  {| forecast_id := "f1"; fr_points := demo_points;
     fr_metadata := {| model_name := "arima_prophet_xgb_ensemble";
                       model_version := "1.0.0";
                       components := ["arima"; "prophet"; "xgboost"]%string;
                       notes := None; per_sku_model := [] |};
     fr_metrics := None |}.

Definition demo_forecast_store : StoreState :=
  {| forecasts := [("f1"%string, demo_forecast)];
     artifacts := {| plans := []; scenarios := [] |} |}.

(* ================================================================== *)
(** * Properties *)

(** ** Rationals, lists *)

Lemma Qltb_lt (x y : Q) : Qltb x y = true <-> x < y.
Proof.
  unfold Qltb. rewrite negb_true_iff. split.
  - intro H. apply Qnot_le_lt. intro Hle.
    apply Qle_bool_iff in Hle. congruence.
  - intro H. destruct (Qle_bool y x) eqn:Hb; auto.
    apply Qle_bool_iff in Hb. apply Qlt_not_le in H. contradiction.
Qed.

Lemma Qltb_ge (x y : Q) : Qltb x y = false <-> y <= x.
Proof.
  unfold Qltb. rewrite negb_false_iff. apply Qle_bool_iff.
Qed.

Lemma Qmax0_nonneg (x : Q) : 0 <= Qmax x 0.
Proof. apply Q.le_max_r. Qed.

Lemma Qnat_pos (n : nat) : (0 < n)%nat -> 0 < Qnat n.
Proof.
  intro H. unfold Qnat, Qlt. simpl. lia.
Qed.

Lemma Qnat_nonneg (n : nat) : 0 <= Qnat n.
Proof.
  unfold Qnat, Qle. simpl. lia.
Qed.

Lemma inject_Z_pos (z : Z) : (0 < z)%Z -> 0 < inject_Z z.
Proof.
  intro H. unfold Qlt. simpl. lia.
Qed.

Lemma zip_with_length {A B C : Type} (f : A -> B -> C) (l : list A) (l' : list B) :
  length (zip_with f l l') = Nat.min (length l) (length l').
Proof.
  revert l'. induction l as [|a l IH]; intros [|b l']; simpl; auto.
Qed.

Lemma nth_zip_with {A B C : Type} (f : A -> B -> C) (l : list A) (l' : list B)
      (i : nat) (da : A) (db : B) (dc : C) :
  (i < length l)%nat -> (i < length l')%nat ->
  nth i (zip_with f l l') dc = f (nth i l da) (nth i l' db).
Proof.
  revert l' i. induction l as [|a l IH]; intros [|b l'] [|i]; simpl;
    intros H1 H2; try lia; auto.
  apply IH; lia.
Qed.

Lemma nth_map_lt {A B : Type} (f : A -> B) (l : list A) (i : nat) (da : A) (db : B) :
  (i < length l)%nat -> nth i (map f l) db = f (nth i l da).
Proof.
  revert i. induction l as [|a l IH]; intros [|i]; simpl; intro H; try lia; auto.
  apply IH; lia.
Qed.

Lemma linspace_length (a b : Q) (n : nat) (e : bool) : length (linspace a b n e) = n.
Proof.
  unfold linspace. rewrite length_map, length_seq. reflexivity.
Qed.

Lemma nth_linspace (a b : Q) (n : nat) (e : bool) (i : nat) :
  (i < n)%nat ->
  nth i (linspace a b n e) 0 =
  let div := if e then (n - 1)%nat else n in
  if (0 <? div)%nat then Qnat i * ((b - a) / Qnat div) + a
  else Qnat i * (b - a) + a.
Proof.
  intro H. unfold linspace.
  rewrite (nth_map_lt _ _ _ 0%nat) by (rewrite length_seq; exact H).
  rewrite seq_nth by exact H. reflexivity.
Qed.

(** ** The stub forecast *)

Section StubProps.
Variable E : Externals.

Lemma stub_length (base : Q) (horizon : Z) :
  length (_generate_stub_forecast E base horizon) = Z.to_nat horizon.
Proof.
  unfold _generate_stub_forecast.
  destruct (horizon <=? 0)%Z eqn:Hh.
  - apply Z.leb_le in Hh. simpl. lia.
  - unfold np_maximum0.
    rewrite length_map, !zip_with_length, !length_map, !linspace_length.
    lia.
Qed.

Lemma stub_nonneg (base : Q) (horizon : Z) (v : Q) :
  In v (_generate_stub_forecast E base horizon) -> 0 <= v.
Proof.
  unfold _generate_stub_forecast.
  destruct (horizon <=? 0)%Z; [intros [] |].
  unfold np_maximum0. rewrite in_map_iff.
  intros (x & <- & _). apply Qmax0_nonneg.
Qed.

Lemma stub_nth (base : Q) (horizon : Z) (i : nat) :
  (i < Z.to_nat horizon)%nat ->
  let n := Z.to_nat horizon in
  let step := nth i (linspace 0 (2.5 * np_pi E) n false) 0 in
  nth i (_generate_stub_forecast E base horizon) 0 =
  Qmax (base * (1 + 0.12 * np_sin E step + nth i (linspace (-0.08) 0.08 n true) 0)
        + 0.05 * base * np_sin E (step * 1.7)) 0.
Proof.
  intros Hi n step. unfold _generate_stub_forecast.
  destruct (horizon <=? 0)%Z eqn:Hh; [apply Z.leb_le in Hh; lia |].
  fold n. unfold np_maximum0.
  rewrite (nth_map_lt _ _ _ 0).
  2:{ rewrite !zip_with_length, !length_map, !linspace_length. lia. }
  rewrite (nth_zip_with _ _ _ _ 0 0).
  2:{ rewrite !zip_with_length, !length_map, !linspace_length. lia. }
  2:{ rewrite !length_map, !linspace_length. lia. }
  rewrite (nth_zip_with _ _ _ _ 0 0).
  2:{ rewrite !length_map, !linspace_length. lia. }
  2:{ rewrite !linspace_length. lia. }
  rewrite !(nth_map_lt _ _ _ 0) by (rewrite linspace_length; lia).
  reflexivity.
Qed.
End StubProps.

(** C6.  The stub forecast is a pure function of [(base, horizon)]: it is
    empty for [horizon <= 0]; for a horizon [n >= 1] it has [n] values, and
    the value of step [i] is
    [max(0, base*(1 + 0.12*sin(phase) + trend_i) + 0.05*base*sin(1.7*phase))]
    with [phase = i/n*2.5*pi] and [trend_i] interpolated linearly from
    [-0.08] to [+0.08]; every value is non-negative; equal arguments give
    equal output.  ([sin] is taken to depend on the value of its argument
    only, not on the fraction that represents it.) *)
Theorem stub_forecast_formula (E : Externals) (base : Q) (horizon : Z)
        (sin_ext : forall x y, x == y -> np_sin E x == np_sin E y) :
  ((horizon <= 0)%Z -> _generate_stub_forecast E base horizon = []) /\
  length (_generate_stub_forecast E base horizon) = Z.to_nat horizon /\
  (forall i, (i < Z.to_nat horizon)%nat ->
             nth i (_generate_stub_forecast E base horizon) 0
             == spec_stub_value E base i (Z.to_nat horizon)) /\
  (forall v, In v (_generate_stub_forecast E base horizon) -> 0 <= v) /\
  (forall base' horizon',
      (base', horizon') = (base, horizon) ->
      _generate_stub_forecast E base' horizon'
      = _generate_stub_forecast E base horizon).
Proof.
  split; [| split; [| split; [| split]]].
  - intro H. unfold _generate_stub_forecast.
    apply Z.leb_le in H. rewrite H. reflexivity.
  - apply stub_length.
  - intros i Hi. rewrite stub_nth by exact Hi. cbv zeta.
    rewrite !nth_linspace by exact Hi. cbv zeta.
    set (n := Z.to_nat horizon) in *.
    assert (Hn : (0 < n)%nat) by lia.
    apply Nat.ltb_lt in Hn. rewrite Hn. apply Nat.ltb_lt in Hn.
    assert (Hq : ~ Qnat n == 0).
    { intro Hz. pose proof (Qnat_pos n Hn) as Hp. rewrite Hz in Hp.
      revert Hp. apply Qlt_irrefl. }
    unfold spec_stub_value. rewrite Q.max_comm.
    assert (Hphase : Qnat i * ((2.5 * np_pi E - 0) / Qnat n) + 0
                     == spec_phase E i n).
    { unfold spec_phase. field. exact Hq. }
    assert (Hphase' : (Qnat i * ((2.5 * np_pi E - 0) / Qnat n) + 0) * 1.7
                      == 1.7 * spec_phase E i n).
    { rewrite Hphase. ring. }
    rewrite (sin_ext _ _ Hphase), (sin_ext _ _ Hphase').
    assert (Htrend :
              (if (0 <? n - 1)%nat
               then Qnat i * ((0.08 - -0.08) / Qnat (n - 1)) + -0.08
               else Qnat i * (0.08 - -0.08) + -0.08)
              == spec_trend i n).
    { unfold spec_trend. destruct (n =? 1)%nat eqn:H1.
      - apply Nat.eqb_eq in H1. rewrite H1. simpl.
        assert (i = 0)%nat as -> by lia. reflexivity.
      - apply Nat.eqb_neq in H1.
        assert (H2 : (0 < n - 1)%nat) by lia.
        apply Nat.ltb_lt in H2. rewrite H2. apply Nat.ltb_lt in H2.
        assert (Hq1 : ~ Qnat (n - 1) == 0).
        { intro Hz. pose proof (Qnat_pos _ H2) as Hp. rewrite Hz in Hp.
          revert Hp. apply Qlt_irrefl. }
        field. exact Hq1. }
    rewrite Htrend. reflexivity.
  - apply stub_nonneg.
  - intros base' horizon' Heq. inversion Heq. reflexivity.
Qed.

Lemma stub_forecast_formula_witness :
  length (_generate_stub_forecast stub_demo_externals 100 3) = 3%nat /\
  nth 1 (_generate_stub_forecast stub_demo_externals 100 3) 0
  == spec_stub_value stub_demo_externals 100 1 3.
Proof.
  assert (Hext : forall x y, x == y ->
                   np_sin stub_demo_externals x == np_sin stub_demo_externals y).
  { intros x y Hxy. simpl. rewrite Hxy. reflexivity. }
  destruct (stub_forecast_formula stub_demo_externals 100 3 Hext)
    as (_ & Hlen & Hnth & _).
  split.
  - exact Hlen.
  - apply (Hnth 1%nat). simpl. lia.
Defined.

(** ** The order on validation metrics and Python's [min] *)

Lemma metric_ltb_trans (a b c : metric) :
  metric_ltb a b = true -> metric_ltb b c = true -> metric_ltb a c = true.
Proof.
  destruct a as [x|], b as [y|], c as [z|]; simpl; try congruence.
  rewrite !Qltb_lt. apply Qlt_trans.
Qed.

Lemma metric_ltb_below (a b c : metric) :
  metric_ltb a b = true -> metric_ltb c b = false -> metric_ltb a c = true.
Proof.
  destruct a as [x|], b as [y|], c as [z|]; simpl; try congruence.
  rewrite !Qltb_lt, Qltb_ge. intros H1 H2. eapply Qlt_le_trans; eauto.
Qed.

Lemma metric_ltb_asym (a b : metric) :
  metric_ltb a b = true -> metric_ltb b a = false.
Proof.
  destruct a as [x|], b as [y|]; simpl; try congruence.
  rewrite Qltb_lt, Qltb_ge. apply Qlt_le_weak.
Qed.

(** [py_min_from] returns the first entry of minimal value: the entries
    before it are strictly above, the entries after it are not below. *)
Lemma py_min_from_first_min (rest pre mid : dict metric) (best : string * metric) :
  (forall x, In x pre -> metric_ltb (snd best) (snd x) = true) ->
  (forall x, In x mid -> metric_ltb (snd x) (snd best) = false) ->
  exists pre' k v post,
    pre ++ best :: mid ++ rest = pre' ++ (k, v) :: post /\
    py_min_from best rest = k /\
    (forall x, In x pre' -> metric_ltb v (snd x) = true) /\
    (forall x, In x post -> metric_ltb (snd x) v = false).
Proof.
  revert pre mid best.
  induction rest as [|kv rest IH]; intros pre mid best Hpre Hmid.
  - exists pre, (fst best), (snd best), mid. rewrite app_nil_r.
    destruct best; simpl. auto.
  - simpl. destruct (metric_ltb (snd kv) (snd best)) eqn:Hlt.
    + destruct (IH (pre ++ best :: mid) [] kv) as (pre' & k & v & post & H1 & H2 & H3 & H4).
      * intros x Hx. apply in_app_or in Hx. destruct Hx as [Hx | [<- | Hx]].
        -- eapply metric_ltb_trans; eauto.
        -- exact Hlt.
        -- eapply metric_ltb_below; eauto.
      * intros x [].
      * exists pre', k, v, post. split; [| auto].
        rewrite <- H1. rewrite <- app_assoc. reflexivity.
    + destruct (IH pre (mid ++ [kv]) best) as (pre' & k & v & post & H1 & H2 & H3 & H4).
      * exact Hpre.
      * intros x Hx. apply in_app_or in Hx. destruct Hx as [Hx | [<- | []]]; auto.
      * exists pre', k, v, post. split; [| auto].
        rewrite <- H1. rewrite <- app_assoc. reflexivity.
Qed.

Lemma py_min_key_first_min (d : dict metric) :
  d <> [] ->
  exists pre k v post,
    d = pre ++ (k, v) :: post /\
    py_min_key d = Some k /\
    (forall x, In x pre -> metric_ltb v (snd x) = true) /\
    (forall x, In x post -> metric_ltb (snd x) v = false).
Proof.
  destruct d as [|kv rest]; [congruence | intros _].
  destruct (py_min_from_first_min rest [] [] kv) as (pre & k & v & post & H1 & H2 & H3 & H4).
  - intros x [].
  - intros x [].
  - exists pre, k, v, post. simpl in H1. simpl. rewrite H2. auto.
Qed.

(** ** The model selector *)

Section SelectorProps.
Variable E : Externals.

Lemma score_candidates_validation (series : Series) :
  score_candidates_of (validation_metrics E series) = candidates E series.
Proof.
  unfold validation_metrics, candidates, candidate_entry.
  destruct (arima_val E series), (prophet_val E series), (xgb_val E series);
    reflexivity.
Qed.

Lemma candidates_names (series : Series) (name : string) (v : metric) :
  In (name, v) (candidates E series) ->
  name = "arima"%string \/ name = "prophet"%string \/ name = "xgboost"%string.
Proof.
  unfold candidates, candidate_entry.
  destruct (arima_val E series), (prophet_val E series), (xgb_val E series);
    simpl; intros H;
    repeat (destruct H as [H | H]; [inversion H; auto |]); contradiction.
Qed.

Lemma forecast_with_name_chosen (series : Series) (dates : list Z) (name : string) :
  name = "arima"%string \/ name = "prophet"%string \/ name = "xgboost"%string ->
  snd (_forecast_with_name E series dates name) = name.
Proof.
  intros [-> | [-> | ->]]; reflexivity.
Qed.

(** Past the length and horizon gate and without a known forced model,
    the selector is Python's [min] over the candidates followed by the
    run on the full series. *)
Lemma select_auto_eq (series : Series) (dates : list Z) (forced : option string) :
  is_known_model forced = false ->
  (4 <= series_len series)%Z ->
  (1 <= Z.of_nat (length dates))%Z ->
  _select_model_and_forecast E series dates forced =
  match py_min_key (candidates E series) with
  | None => stub_result E series dates (validation_metrics E series)
  | Some best =>
      match _forecast_with_name E series dates best with
      | (None, _) => stub_result E series dates (validation_metrics E series)
      | (Some fc, chosen) => (fc, chosen, validation_metrics E series)
      end
  end.
Proof.
  intros Hk Hlen Hh. unfold _select_model_and_forecast.
  assert (G1 : (series_len series <? 4)%Z = false) by (apply Z.ltb_ge; lia).
  assert (G2 : (Z.of_nat (length dates) <=? 0)%Z = false) by (apply Z.leb_gt; lia).
  rewrite G1, G2, Hk. simpl orb. cbv iota.
  rewrite <- score_candidates_validation.
  destruct (validation_metrics E series) eqn:Hm; reflexivity.
Qed.

(** Whenever a known model is forced past the gate, the result is that
    model's run on the full series, or the stub when it gives none. *)
Lemma select_forced_eq (series : Series) (dates : list Z) (name : string) :
  In name known_models ->
  (4 <= series_len series)%Z ->
  (1 <= Z.of_nat (length dates))%Z ->
  _select_model_and_forecast E series dates (Some name) =
  match _forecast_with_name E series dates name with
  | (None, _) => stub_result E series dates (validation_metrics E series)
  | (Some fc, chosen) => (fc, chosen, validation_metrics E series)
  end.
Proof.
  intros Hk Hlen Hh. unfold _select_model_and_forecast.
  assert (G1 : (series_len series <? 4)%Z = false) by (apply Z.ltb_ge; lia).
  assert (G2 : (Z.of_nat (length dates) <=? 0)%Z = false) by (apply Z.leb_gt; lia).
  rewrite G1, G2. simpl orb. cbv iota.
  assert (Hkn : is_known_model (Some name) = true).
  { simpl in Hk. destruct Hk as [<- | [<- | [<- | [<- | []]]]]; reflexivity. }
  rewrite Hkn. reflexivity.
Qed.



End SelectorProps.

(** C1, as stated, does not hold: a validation window without a positive
    actual gives every strategy that ran the MAPE [inf]; no strategy has a
    finite validation MAPE, and the selector still returns the first
    candidate (here ARIMA) instead of the stub. *)
Lemma auto_selection_infinite_mape_counterexample :
  is_known_model None = false /\
  (4 <= series_len history_zero_tail)%Z /\
  filter (fun kv => is_finite (snd kv))
         (candidates arima_only_externals history_zero_tail) = [] /\
  dict_get (validation_metrics arima_only_externals history_zero_tail)
           "arima_mape" = Some Inf /\
  snd (fst (_select_model_and_forecast arima_only_externals history_zero_tail
                                       [10; 11]%Z None)) = "arima"%string /\
  snd (fst (_select_model_and_forecast arima_only_externals history_zero_tail
                                       [10; 11]%Z None)) <> "stub"%string.
Proof.
  repeat split; try reflexivity.
  - vm_compute. discriminate.
  - vm_compute. discriminate.
Qed.

(** C1 (amended).  In auto-selection mode (no known forced model, at least
    four observations, a horizon of at least one date) the candidates are
    the strategies that produced a validation forecast, in the order arima,
    prophet, xgboost, each with its validation MAPE, finite or not.  Without
    a candidate the selector returns the stub.  Otherwise it picks the first
    candidate of minimal MAPE (every earlier candidate is strictly worse, no
    later one is better) and returns that strategy's forecast on the full
    history under its name, or the stub when that run gives no forecast;
    the validation metrics are reported in both cases. *)
Theorem auto_selection_min_mape
        (E : Externals) (series : Series) (dates : list Z) (forced : option string) :
  is_known_model forced = false ->
  (4 <= series_len series)%Z ->
  (1 <= Z.of_nat (length dates))%Z ->
  (candidates E series = [] ->
   _select_model_and_forecast E series dates forced
   = stub_result E series dates (validation_metrics E series)) /\
  (candidates E series <> [] ->
   exists pre best v post,
     candidates E series = pre ++ (best, v) :: post /\
     (forall x, In x pre -> metric_ltb v (snd x) = true) /\
     (forall x, In x post -> metric_ltb (snd x) v = false) /\
     (forall x, In x pre -> (strategy_priority (fst x) < strategy_priority best)%nat) /\
     (forall x, In x post -> (strategy_priority best < strategy_priority (fst x))%nat) /\
     _select_model_and_forecast E series dates forced
     = match fst (_forecast_with_name E series dates best) with
       | Some fc => (fc, best, validation_metrics E series)
       | None => stub_result E series dates (validation_metrics E series)
       end).
Proof.
  intros Hk Hlen Hh. rewrite (select_auto_eq E series dates forced Hk Hlen Hh).
  split.
  - intros ->. reflexivity.
  - intro Hne.
    destruct (py_min_key_first_min _ Hne) as (pre & best & v & post & H1 & H2 & H3 & H4).
    exists pre, best, v, post.
    split; [exact H1 |]. split; [exact H3 |]. split; [exact H4 |].
    rewrite H2.
    assert (Hname : best = "arima"%string \/ best = "prophet"%string
                    \/ best = "xgboost"%string).
    { apply (candidates_names E series best v). rewrite H1.
      apply in_or_app. right. left. reflexivity. }
    pose proof (forecast_with_name_chosen E series dates best Hname) as Hc.
    split; [| split].
    + revert H1. unfold candidates, candidate_entry.
      destruct (arima_val E series), (prophet_val E series), (xgb_val E series);
        destruct pre as [|p1 [|p2 [|p3 pre]]]; simpl; intros Heq x Hx;
        inversion Heq; subst; simpl in Hx;
        repeat (destruct Hx as [<- | Hx]; [simpl; auto with arith |]);
        try contradiction;
        try (exfalso; eapply app_cons_not_nil; eassumption);
        try (exfalso; eapply app_cons_not_nil; symmetry; eassumption).
    + revert H1. unfold candidates, candidate_entry.
      destruct (arima_val E series), (prophet_val E series), (xgb_val E series);
        destruct pre as [|p1 [|p2 [|p3 pre]]]; simpl; intros Heq x Hx;
        inversion Heq; subst; simpl in Hx;
        repeat (destruct Hx as [<- | Hx]; [simpl; auto with arith |]);
        try contradiction;
        try (exfalso; eapply app_cons_not_nil; eassumption);
        try (exfalso; eapply app_cons_not_nil; symmetry; eassumption).
    + destruct (_forecast_with_name E series dates best) as [[fc|] chosen];
        simpl in *; subst; reflexivity.
Qed.

Lemma auto_selection_min_mape_witness :
  (candidates arima_only_externals history_five = [] ->
   _select_model_and_forecast arima_only_externals history_five [10; 11]%Z None
   = stub_result arima_only_externals history_five [10; 11]%Z
                 (validation_metrics arima_only_externals history_five)) /\
  (candidates arima_only_externals history_five <> [] ->
   exists pre best v post,
     candidates arima_only_externals history_five = pre ++ (best, v) :: post /\
     (forall x, In x pre -> metric_ltb v (snd x) = true) /\
     (forall x, In x post -> metric_ltb (snd x) v = false) /\
     (forall x, In x pre -> (strategy_priority (fst x) < strategy_priority best)%nat) /\
     (forall x, In x post -> (strategy_priority best < strategy_priority (fst x))%nat) /\
     _select_model_and_forecast arima_only_externals history_five [10; 11]%Z None
     = match fst (_forecast_with_name arima_only_externals history_five
                                      [10; 11]%Z best) with
       | Some fc => (fc, best, validation_metrics arima_only_externals history_five)
       | None => stub_result arima_only_externals history_five [10; 11]%Z
                             (validation_metrics arima_only_externals history_five)
       end).
Proof.
  apply (auto_selection_min_mape arima_only_externals history_five [10; 11]%Z None).
  - reflexivity.
  - vm_compute. discriminate.
  - simpl. lia.
Defined.



(** ** Length and sign of the selected forecast *)

Section ForecastShape.
Variable E : Externals.

Lemma xgb_rollout_shape (model : Q -> option Q) (n : nat) :
  forall history fc,
    xgb_rollout model history n = Some fc ->
    length fc = n /\ (forall v, In v fc -> 0 <= v).
Proof.
  induction n as [|n IH]; simpl; intros history fc H.
  - inversion H. split; [reflexivity | intros v []].
  - destruct (model history) as [pred|]; [| discriminate].
    destruct (xgb_rollout model (Qmax pred 0) n) as [rest|] eqn:Hr; [| discriminate].
    inversion H; subst. destruct (IH _ _ Hr) as [Hl Hn].
    split; [simpl; congruence |].
    intros v [<- | Hv]; [apply Qmax0_nonneg | auto].
Qed.

Lemma np_maximum0_nonneg (l : list Q) (v : Q) : In v (np_maximum0 l) -> 0 <= v.
Proof.
  unfold np_maximum0. rewrite in_map_iff. intros (x & <- & _).
  apply Qmax0_nonneg.
Qed.

Lemma forecast_with_name_shape (series : Series) (dates : list Z)
      (name : string) (fc : list Q) :
  fst (_forecast_with_name E series dates name) = Some fc ->
  length fc = length dates /\ (forall v, In v fc -> 0 <= v).
Proof.
  unfold _forecast_with_name.
  destruct (String.eqb name "arima"); [| destruct (String.eqb name "prophet");
    [| destruct (String.eqb name "xgboost"); [| destruct (String.eqb name "stub")]]];
    simpl.
  - unfold _forecast_arima.
    destruct (_ || _); [discriminate |].
    destruct (arima_fit E _ _); [| discriminate].
    intro H; inversion H; subst. split.
    + unfold np_maximum0. rewrite !length_map, length_seq. lia.
    + apply np_maximum0_nonneg.
  - unfold _forecast_prophet.
    destruct (_ || _); [discriminate |].
    destruct (prophet_fit E _ _); [| discriminate].
    intro H; inversion H; subst. split.
    + unfold np_maximum0. rewrite !length_map. reflexivity.
    + apply np_maximum0_nonneg.
  - unfold _forecast_xgb.
    destruct (_ || _); [discriminate |].
    destruct (xgb_fit E _ _); [| discriminate].
    intro H. apply xgb_rollout_shape in H. destruct H as [Hl Hn].
    split; [lia | exact Hn].
  - intro H; inversion H; subst. split.
    + rewrite stub_length. lia.
    + apply stub_nonneg.
  - discriminate.
Qed.

Lemma stub_result_shape (series : Series) (dates : list Z) (m : dict metric) :
  length (fst (fst (stub_result E series dates m))) = length dates /\
  (forall v, In v (fst (fst (stub_result E series dates m))) -> 0 <= v).
Proof.
  unfold stub_result. simpl. split.
  - rewrite stub_length. lia.
  - apply stub_nonneg.
Qed.

Lemma select_shape (series : Series) (dates : list Z) (forced : option string) :
  length (fst (fst (_select_model_and_forecast E series dates forced)))
  = length dates /\
  (forall v, In v (fst (fst (_select_model_and_forecast E series dates forced)))
             -> 0 <= v).
Proof.
  unfold _select_model_and_forecast.
  fold (stub_result E series dates []).
  fold (stub_result E series dates (validation_metrics E series)).
  destruct (_ || _); [apply stub_result_shape |].
  destruct (is_known_model forced).
  - destruct forced as [name|]; [| apply stub_result_shape].
    destruct (_forecast_with_name E series dates name) as [[fc|] chosen] eqn:Hf;
      [| apply stub_result_shape].
    simpl. apply (forecast_with_name_shape series dates name).
    rewrite Hf. reflexivity.
  - destruct (validation_metrics E series); [apply stub_result_shape |].
    destruct (py_min_key _) as [best|];
      [| apply (stub_result_shape series dates (p :: d))].
    destruct (_forecast_with_name E series dates best) as [[fc|] chosen] eqn:Hf;
      [| apply (stub_result_shape series dates (p :: d))].
    simpl. apply (forecast_with_name_shape series dates best).
    rewrite Hf. reflexivity.
Qed.

(** One pass of the orchestrator's loop appends one point per date of the
    index, for that SKU, with non-negative means. *)
Lemma forecast_sku_points (request : ForecastRequest) (dates : list Z)
      (st : EnsembleState) (sku_ : string) :
  exists vals,
    length vals = length dates /\
    (forall v, In v vals -> 0 <= v) /\
    points (forecast_sku E request dates st sku_)
    = points st ++ map (fun tm => make_point sku_ (fst tm) (snd tm))
                       (combine dates vals).
Proof.
  unfold forecast_sku.
  destruct (_prepare_history E sku_ (location request)) as [|h hs] eqn:Hh.
  - exists (_generate_stub_forecast E 100 (Z.of_nat (length dates))).
    split; [rewrite stub_length; lia |].
    split; [apply stub_nonneg | reflexivity].
  - destruct (select_shape (h :: hs) dates (forced_model request)) as [Hl Hn].
    destruct (_select_model_and_forecast E (h :: hs) dates (forced_model request))
      as [[vals chosen] metrics].
    exists vals. simpl in *. auto.
Qed.
End ForecastShape.

(** ** The orchestrator *)

Lemma map_fst_combine_pair {A B : Type} (a : A) (l : list Z) (l' : list B) :
  length l' = length l ->
  map (fun tm => (a, fst tm)) (combine l l') = map (pair a) l.
Proof.
  revert l'. induction l as [|x l IH]; intros [|y l'] H; simpl in *;
    try discriminate; auto.
  f_equal. apply IH. lia.
Qed.

Lemma make_point_well_formed (sku_ : string) (ts : Z) (m : Q) :
  0 <= m -> point_well_formed (make_point sku_ ts m).
Proof.
  intro H. unfold point_well_formed, make_point. simpl.
  repeat split; try reflexivity; try ring; lra.
Qed.

Lemma count_pair_map (s a : string) (d : Z) (l : list Z) :
  length (filter (fun k => String.eqb (fst k) s && (snd k =? d)%Z) (map (pair a) l))
  = if String.eqb a s then length (filter (fun x => (x =? d)%Z) l) else 0%nat.
Proof.
  induction l as [|x l IH]; simpl.
  - destruct (String.eqb a s); reflexivity.
  - destruct (String.eqb a s) eqn:Has; simpl.
    + destruct (x =? d)%Z; simpl; rewrite IH; reflexivity.
    + exact IH.
Qed.

Lemma count_list_prod (s : string) (d : Z) (l : list string) (l' : list Z) :
  length (filter (fun k => String.eqb (fst k) s && (snd k =? d)%Z) (list_prod l l'))
  = (count_occ string_dec l s * length (filter (fun x => (x =? d)%Z) l'))%nat.
Proof.
  induction l as [|a l IH]; simpl; [reflexivity |].
  rewrite filter_app, length_app, IH, count_pair_map.
  destruct (string_dec a s) as [-> | Hne].
  - rewrite String.eqb_refl. lia.
  - apply String.eqb_neq in Hne. rewrite Hne. lia.
Qed.

Lemma count_NoDup_Z (d : Z) (l : list Z) :
  NoDup l -> In d l -> length (filter (fun x => (x =? d)%Z) l) = 1%nat.
Proof.
  induction 1 as [|x l Hnin Hnd IH]; simpl; [intros [] |].
  intros [-> | Hin].
  - rewrite Z.eqb_refl. simpl. f_equal.
    clear IH Hnd. induction l as [|y l IHl]; simpl; [reflexivity |].
    destruct (y =? d)%Z eqn:Hy.
    + apply Z.eqb_eq in Hy. subst. exfalso. apply Hnin. left. reflexivity.
    + apply IHl. intro H. apply Hnin. right. exact H.
  - destruct (x =? d)%Z eqn:Hx.
    + apply Z.eqb_eq in Hx. subst. contradiction.
    + apply IH. exact Hin.
Qed.

Lemma date_range_day_iff (start end_ d : Z) :
  In d (date_range start end_ day) <-> (start <= d <= end_)%Z.
Proof.
  unfold date_range. rewrite in_map_iff. split.
  - intros (i & <- & Hi). apply in_seq in Hi. lia.
  - intro H. exists (Z.to_nat (d - start)). split; [lia |].
    apply in_seq. lia.
Qed.

Lemma date_range_NoDup (start end_ : Z) (freq : TimeGranularity) :
  NoDup (date_range start end_ freq).
Proof.
  assert (H : NoDup (map (fun i => (start + Z.of_nat i)%Z)
                         (seq 0 (Z.to_nat (end_ - start + 1))))).
  { apply NoDup_map_NoDup_ForallPairs; [| apply seq_NoDup].
    intros x y _ _ Hxy. lia. }
  unfold date_range. destruct freq; [exact H | |]; apply NoDup_filter; exact H.
Qed.

Lemma count_points_keys (pts : list ForecastPoint) (s : string) (d : Z) :
  count_points pts s d
  = length (filter (fun k => String.eqb (fst k) s && (snd k =? d)%Z)
                   (map point_key pts)).
Proof.
  unfold count_points. induction pts as [|p pts IH]; simpl; [reflexivity |].
  destruct (String.eqb (sku p) s && (date p =? d)%Z); simpl; rewrite IH; reflexivity.
Qed.

Section OrchestratorProps.
Variable E : Externals.

Lemma forecast_loop_points (request : ForecastRequest) (dates : list Z)
      (skus : list string) :
  forall st,
    map point_key (points (fold_left (forecast_sku E request dates) skus st))
    = map point_key (points st) ++ list_prod skus dates /\
    (Forall point_well_formed (points st) ->
     Forall point_well_formed
            (points (fold_left (forecast_sku E request dates) skus st))).
Proof.
  induction skus as [|s skus IH]; intro st; simpl.
  - rewrite app_nil_r. auto.
  - destruct (IH (forecast_sku E request dates st s)) as [IH1 IH2].
    destruct (forecast_sku_points E request dates st s) as (vals & Hl & Hn & Hp).
    split.
    + rewrite IH1, Hp, map_app, map_map, <- app_assoc. f_equal. f_equal.
      apply (map_fst_combine_pair s dates vals Hl).
    + intro Hst. apply IH2. rewrite Hp. apply Forall_app. split; [exact Hst |].
      apply Forall_forall. intros p Hin. apply in_map_iff in Hin.
      destruct Hin as ([ts m] & <- & Hin). simpl.
      apply make_point_well_formed. apply Hn.
      apply in_combine_r in Hin. exact Hin.
Qed.
End OrchestratorProps.

(** C2, as stated, does not hold: a request that names a SKU twice gets two
    points for that SKU on the one day of its range. *)
Lemma forecast_points_repeated_sku_counterexample :
  sku_list request_repeated_sku <> [] /\
  (start_date request_repeated_sku <= end_date request_repeated_sku)%Z /\
  In "SKU-001"%string (sku_list request_repeated_sku) /\
  count_points
    (fst (fst (generate_ensemble_forecast stub_demo_externals request_repeated_sku)))
    "SKU-001" 739252 = 2%nat.
Proof.
  repeat split.
  - discriminate.
  - vm_compute. discriminate.
  - simpl. auto.
Qed.

(** C2 (amended).  The points of a forecast stand, in order, for the pairs
    of a requested SKU and a date of the request's date index: each SKU has
    as many points on each such date as the SKU list names it, hence exactly
    one when the list has no repetition.  With daily granularity the date
    index is every day from [start_date] to [end_date].  Every point has
    [mean >= 0], [q50 = mean], [q10 = 0.8*mean], [q90 = 1.2*mean] and so
    [q10 <= q50 <= q90]. *)
Theorem forecast_points_per_sku_and_date (E : Externals) (request : ForecastRequest) :
  let pts := fst (fst (generate_ensemble_forecast E request)) in
  let date_index := date_range (start_date request) (end_date request)
                               (granularity request) in
  map point_key pts = list_prod (sku_list request) date_index /\
  (forall s d, In d date_index ->
               count_points pts s d = count_occ string_dec (sku_list request) s) /\
  (NoDup (sku_list request) ->
   forall s d, In s (sku_list request) -> In d date_index ->
               count_points pts s d = 1%nat) /\
  (forall d, In d (date_range (start_date request) (end_date request) day)
             <-> (start_date request <= d <= end_date request)%Z) /\
  (forall p, In p pts -> point_well_formed p).
Proof.
  intros pts date_index.
  destruct (forecast_loop_points E request date_index (sku_list request)
              {| points := []; global_metrics := []; st_per_sku_model := [] |})
    as [Hkeys Hwf].
  simpl in Hkeys.
  assert (Hk : map point_key pts = list_prod (sku_list request) date_index)
    by exact Hkeys.
  assert (Hcount : forall s d, In d date_index ->
             count_points pts s d = count_occ string_dec (sku_list request) s).
  { intros s d Hd. rewrite count_points_keys, Hk, count_list_prod.
    rewrite (count_NoDup_Z d date_index); [lia | apply date_range_NoDup | exact Hd]. }
  split; [exact Hk |]. split; [exact Hcount |]. split; [| split].
  - intros Hnd s d Hs Hd. rewrite (Hcount s d Hd).
    apply NoDup_count_occ'; assumption.
  - intro d. apply date_range_day_iff.
  - apply Forall_forall. apply Hwf. constructor.
Qed.

Lemma forecast_points_per_sku_and_date_witness :
  count_points
    (fst (fst (generate_ensemble_forecast stub_demo_externals request_two_skus)))
    "SKU-002" 739255 = 1%nat.
Proof.
  destruct (forecast_points_per_sku_and_date stub_demo_externals request_two_skus)
    as (_ & _ & H & _).
  apply H.
  - simpl. repeat constructor; simpl; intuition discriminate.
  - simpl. auto.
  - apply date_range_day_iff. simpl. lia.
Defined.

(** ** Sums *)

Lemma fold_left_Qplus_acc (l : list Q) (a : Q) :
  fold_left Qplus l a == a + py_sum l.
Proof.
  unfold py_sum. revert a. induction l as [|x l IH]; intro a; simpl.
  - ring.
  - rewrite IH, (IH (0 + x)). ring.
Qed.

Lemma py_sum_cons (x : Q) (l : list Q) : py_sum (x :: l) == x + py_sum l.
Proof.
  unfold py_sum at 1. simpl. rewrite fold_left_Qplus_acc. ring.
Qed.

Lemma py_sum_nil : py_sum [] == 0.
Proof. reflexivity. Qed.

Lemma py_sum_single (x : Q) : py_sum [x] == x.
Proof. unfold py_sum. simpl. ring. Qed.

Lemma py_sum_app (l l' : list Q) : py_sum (l ++ l') == py_sum l + py_sum l'.
Proof.
  induction l as [|x l IH]; simpl.
  - unfold py_sum at 2. simpl. ring.
  - rewrite !py_sum_cons, IH. ring.
Qed.

Lemma py_sum_fold_right (l : list Q) : py_sum l == fold_right Qplus 0 l.
Proof.
  induction l as [|x l IH]; simpl.
  - reflexivity.
  - rewrite py_sum_cons, IH. reflexivity.
Qed.

Lemma py_sum_nonneg (l : list Q) : (forall x, In x l -> 0 <= x) -> 0 <= py_sum l.
Proof.
  induction l as [|x l IH]; intro H.
  - unfold py_sum. simpl. lra.
  - rewrite py_sum_cons.
    assert (0 <= x) by (apply H; left; reflexivity).
    assert (0 <= py_sum l) by (apply IH; intros y Hy; apply H; right; exact Hy).
    lra.
Qed.

(** ** Dictionaries *)

Lemma dict_get_set {V : Type} (d : dict V) (k k' : string) (v : V) :
  dict_get (dict_set d k v) k' = if String.eqb k k' then Some v else dict_get d k'.
Proof.
  induction d as [|[k0 v0] d IH]; simpl.
  - destruct (String.eqb k k'); reflexivity.
  - destruct (String.eqb k0 k) eqn:H0; simpl.
    + apply String.eqb_eq in H0. subst k0.
      destruct (String.eqb k k'); reflexivity.
    + destruct (String.eqb k0 k') eqn:H1.
      * apply String.eqb_eq in H1. subst k0.
        rewrite String.eqb_sym, H0. reflexivity.
      * exact IH.
Qed.

Lemma dict_set_in {V : Type} (d : dict V) (k : string) (v : V) (x : string * V) :
  In x (dict_set d k v) -> In x d \/ x = (k, v).
Proof.
  induction d as [|[k0 v0] d IH]; simpl.
  - intros [<- | []]. auto.
  - destruct (String.eqb k0 k) eqn:H0; simpl.
    + apply String.eqb_eq in H0. subst k0. intros [<- | H]; auto.
    + intros [<- | H]; auto. destruct (IH H); auto.
Qed.

Lemma dict_get_in {V : Type} (d : dict V) (k : string) (v : V) :
  dict_get d k = Some v -> In (k, v) d.
Proof.
  induction d as [|[k0 v0] d IH]; simpl; [discriminate |].
  destruct (String.eqb k0 k) eqn:H0.
  - apply String.eqb_eq in H0. subst k0. intro H; inversion H. auto.
  - auto.
Qed.

Lemma dict_set_keys {V : Type} (d : dict V) (k : string) (v : V) :
  dict_keys (dict_set d k v)
  = if dict_mem d k then dict_keys d else dict_keys d ++ [k].
Proof.
  unfold dict_mem, dict_keys. induction d as [|[k0 v0] d IH]; simpl; [reflexivity |].
  destruct (String.eqb k0 k) eqn:H0; simpl; [reflexivity |].
  rewrite IH. destruct (dict_get d k); reflexivity.
Qed.

Lemma dict_get_none_keys {V : Type} (d : dict V) (k : string) :
  dict_get d k = None <-> ~ In k (dict_keys d).
Proof.
  unfold dict_keys. induction d as [|[k0 v0] d IH]; simpl.
  - tauto.
  - destruct (String.eqb k0 k) eqn:H0.
    + apply String.eqb_eq in H0. split; [discriminate | intro H; exfalso; auto].
    + apply String.eqb_neq in H0. rewrite IH. tauto.
Qed.

Lemma dict_in_get {V : Type} (d : dict V) (k : string) (v : V) :
  NoDup (dict_keys d) -> In (k, v) d -> dict_get d k = Some v.
Proof.
  unfold dict_keys. induction d as [|[k0 v0] d IH]; simpl; [intros _ [] |].
  intros Hnd [Heq | Hin].
  - inversion Heq; subst. rewrite String.eqb_refl. reflexivity.
  - inversion Hnd; subst. destruct (String.eqb k0 k) eqn:H0.
    + apply String.eqb_eq in H0. subst k0. exfalso. apply H1.
      apply in_map_iff. exists (k, v). auto.
    + auto.
Qed.

(** ** The demand summary *)

Lemma summarize_demand_snoc (pts : list ForecastPoint) (p : ForecastPoint) :
  summarize_demand (pts ++ [p]) = summarize_step (summarize_demand pts) p.
Proof.
  unfold summarize_demand. rewrite fold_left_app. reflexivity.
Qed.

(** [min_date] and [max_date] are absent exactly for no points, and are
    otherwise the least and the greatest date among the points. *)
Lemma summarize_dates (pts : list ForecastPoint) :
  (pts = [] ->
   snd (fst (summarize_demand pts)) = None /\ snd (summarize_demand pts) = None) /\
  (pts <> [] ->
   exists m M,
     snd (fst (summarize_demand pts)) = Some m /\
     snd (summarize_demand pts) = Some M /\
     In m (map date pts) /\ In M (map date pts) /\
     forall p, In p pts -> (m <= date p <= M)%Z).
Proof.
  induction pts as [|p pts IH] using rev_ind.
  - split; [intros _; split; reflexivity | congruence].
  - split; [intro H; destruct pts; discriminate | intros _].
    rewrite summarize_demand_snoc.
    destruct (summarize_demand pts) as [[dem mn] mx]. simpl in IH.
    destruct IH as [IH0 IH1]. destruct pts as [|p0 pts].
    + destruct IH0 as [-> ->]; [reflexivity |]. simpl.
      exists (date p), (date p). repeat split; auto.
      * destruct H as [<- | []]. lia.
      * destruct H as [<- | []]. lia.
    + destruct IH1 as (m & M & -> & -> & Hm & HM & Hb); [discriminate |].
      simpl summarize_step. cbv beta iota. simpl fst. simpl snd.
      rewrite map_app.
      exists (if (date p <? m)%Z then date p else m),
             (if (date p >? M)%Z then date p else M).
      split; [destruct (date p <? m)%Z; reflexivity |].
      split; [destruct (date p >? M)%Z; reflexivity |].
      split; [| split].
      * apply in_or_app. destruct (date p <? m)%Z; [right; simpl; auto | left; exact Hm].
      * apply in_or_app. destruct (date p >? M)%Z; [right; simpl; auto | left; exact HM].
      * intros q Hq. apply in_app_or in Hq.
        destruct (Z.ltb_spec (date p) m), (Z.gtb_spec (date p) M);
          destruct Hq as [Hq | [<- | []]];
          try (specialize (Hb q Hq)); lia.
Qed.

Lemma sku_demand_snoc (pts : list ForecastPoint) (p : ForecastPoint) (s : string) :
  sku_demand (pts ++ [p]) s
  == sku_demand pts s + (if String.eqb (sku p) s then mean p else 0).
Proof.
  unfold sku_demand. rewrite filter_app, map_app, py_sum_app. simpl.
  destruct (String.eqb (sku p) s); simpl.
  - rewrite py_sum_single. reflexivity.
  - rewrite py_sum_nil. reflexivity.
Qed.

Lemma sku_demand_absent (pts : list ForecastPoint) (s : string) :
  (forall p, In p pts -> sku p <> s) -> sku_demand pts s == 0.
Proof.
  intro H. unfold sku_demand.
  replace (filter (fun p => String.eqb (sku p) s) pts) with (@nil ForecastPoint).
  - reflexivity.
  - symmetry. induction pts as [|p pts IH]; simpl; [reflexivity |].
    destruct (String.eqb (sku p) s) eqn:Hp.
    + apply String.eqb_eq in Hp. exfalso. apply (H p); simpl; auto.
    + apply IH. intros q Hq. apply H. right. exact Hq.
Qed.

(** [demand_by_sku] has one key per SKU that occurs among the points, and
    the value of a key is that SKU's demand. *)
Lemma summarize_demand_dict (pts : list ForecastPoint) :
  NoDup (dict_keys (fst (fst (summarize_demand pts)))) /\
  (forall s, In s (dict_keys (fst (fst (summarize_demand pts))))
             <-> exists p, In p pts /\ sku p = s) /\
  (forall s v, dict_get (fst (fst (summarize_demand pts))) s = Some v ->
               v == sku_demand pts s).
Proof.
  induction pts as [|p pts IH] using rev_ind.
  - simpl. split; [constructor |]. split.
    + intro s. split; [intros [] | intros (p & [] & _)].
    + discriminate.
  - rewrite summarize_demand_snoc.
    destruct (summarize_demand pts) as [[dem mn] mx]. simpl in IH.
    destruct IH as (Hnd & Hkeys & Hval).
    simpl summarize_step. cbv beta iota. simpl fst.
    unfold demand_add.
    assert (Hk' : forall s,
               In s (dict_keys (dict_set dem (sku p)
                       (match dict_get dem (sku p) with Some v => v | None => 0 end
                        + mean p)))
               <-> In s (dict_keys dem) \/ s = sku p).
    { intro s. rewrite dict_set_keys. unfold dict_mem.
      destruct (dict_get dem (sku p)) as [v0|] eqn:Hg.
      - split; [auto |]. intros [H | ->]; [exact H |].
        apply dict_get_in in Hg. unfold dict_keys.
        apply in_map_iff. exists (sku p, v0). auto.
      - rewrite in_app_iff. simpl. intuition. }
    split; [| split].
    + rewrite dict_set_keys. unfold dict_mem.
      destruct (dict_get dem (sku p)) eqn:Hg; [exact Hnd |].
      apply dict_get_none_keys in Hg.
      apply NoDup_app; [exact Hnd | repeat constructor; intros [] |].
      intros a Ha [<- | []]. contradiction.
    + intro s. rewrite Hk', Hkeys. split.
      * intros [(q & Hq & Hs) | ->].
        -- exists q. split; [apply in_or_app; auto | exact Hs].
        -- exists p. split; [apply in_or_app; simpl; auto | reflexivity].
      * intros (q & Hq & Hs). apply in_app_or in Hq.
        destruct Hq as [Hq | [<- | []]]; [left; exists q; auto | right; auto].
    + intros s v. rewrite dict_get_set, sku_demand_snoc.
      destruct (String.eqb (sku p) s) eqn:Hp.
      * apply String.eqb_eq in Hp. subst s. intro H. inversion H; subst v.
        destruct (dict_get dem (sku p)) as [v0|] eqn:Hg.
        -- rewrite (Hval _ _ Hg). reflexivity.
        -- rewrite sku_demand_absent; [reflexivity |].
           intros q Hq Hs. apply dict_get_none_keys in Hg. apply Hg.
           apply Hkeys. exists q. auto.
      * intro H. rewrite (Hval _ _ H). ring.
Qed.

Lemma summarize_demand_in (pts : list ForecastPoint) (s : string) (td : Q) :
  In (s, td) (fst (fst (summarize_demand pts))) ->
  td == sku_demand pts s /\ exists p, In p pts /\ sku p = s.
Proof.
  intro Hin. destruct (summarize_demand_dict pts) as (Hnd & Hkeys & Hval).
  split.
  - apply Hval. apply dict_in_get; assumption.
  - apply Hkeys. unfold dict_keys. apply in_map_iff. exists (s, td). auto.
Qed.

Lemma sku_demand_nonneg (pts : list ForecastPoint) (s : string) :
  (forall p, In p pts -> 0 <= mean p) -> 0 <= sku_demand pts s.
Proof.
  intro H. unfold sku_demand. apply py_sum_nonneg.
  intros x Hx. apply in_map_iff in Hx. destruct Hx as (p & <- & Hp).
  apply filter_In in Hp. apply H. tauto.
Qed.

(** ** The supply planner *)

Lemma spec_z_levels (service_level : Q) :
  (0.95 <= service_level -> spec_z service_level = 1.65) /\
  (service_level < 0.95 -> spec_z service_level = 1).
Proof.
  unfold spec_z. split; intro H.
  - apply Qle_bool_iff in H. rewrite H. reflexivity.
  - destruct (Qle_bool 0.95 service_level) eqn:Hb; [| reflexivity].
    apply Qle_bool_iff in Hb. apply Qlt_not_le in H. contradiction.
Qed.

Lemma safety_stock_formula (total_demand : Q) (horizon_days : Z)
      (constraints : InventoryConstraints) :
  (1 <= horizon_days)%Z ->
  compute_safety_stock_for_sku total_demand horizon_days constraints
  == total_demand / inject_Z horizon_days
     * inject_Z (lead_time_days constraints)
     * spec_z (target_service_level constraints).
Proof.
  intro H. unfold compute_safety_stock_for_sku, z_value_of, spec_z.
  assert (G : (horizon_days <=? 0)%Z = false) by (apply Z.leb_gt; lia).
  rewrite G. destruct (Qle_bool 0.95 (target_service_level constraints)).
  - reflexivity.
  - assert (H1 : 1.0 == 1) by reflexivity. rewrite H1. reflexivity.
Qed.

Lemma spec_z_pos (service_level : Q) : 0 < spec_z service_level.
Proof.
  unfold spec_z. destruct (Qle_bool 0.95 service_level); reflexivity.
Qed.

Lemma total_required_nonneg (total_demand : Q) (horizon_days : Z)
      (constraints : InventoryConstraints) :
  (1 <= horizon_days)%Z -> (0 <= lead_time_days constraints)%Z ->
  0 <= total_demand ->
  0 <= total_required_of total_demand horizon_days constraints.
Proof.
  intros Hh Hl Ht. unfold total_required_of.
  rewrite safety_stock_formula by exact Hh.
  assert (H1 : 0 < inject_Z horizon_days) by (apply inject_Z_pos; lia).
  assert (H2 : 0 <= inject_Z (lead_time_days constraints)).
  { unfold Qle. simpl. lia. }
  pose proof (spec_z_pos (target_service_level constraints)) as H3.
  assert (H4 : 0 <= total_demand / inject_Z horizon_days).
  { apply Qle_shift_div_l; [exact H1 | lra]. }
  assert (H5 : 0 <= total_demand / inject_Z horizon_days
                    * inject_Z (lead_time_days constraints)).
  { apply Qmult_le_0_compat; assumption. }
  assert (H6 : 0 <= total_demand / inject_Z horizon_days
                    * inject_Z (lead_time_days constraints)
                    * spec_z (target_service_level constraints)).
  { apply Qmult_le_0_compat; [exact H5 | apply Qlt_le_weak; exact H3]. }
  lra.
Qed.

(** The planner's loop, pass by pass. *)
Lemma plan_loop (constraints : InventoryConstraints) (location_ : option string)
      (min_date horizon_days : Z) (items : dict Q) :
  forall st,
    st_orders (fold_left (plan_sku constraints location_ min_date horizon_days) items st)
    = st_orders st
      ++ flat_map (order_entry constraints location_ min_date horizon_days) items /\
    st_production (fold_left (plan_sku constraints location_ min_date horizon_days) items st)
    = st_production st
      ++ flat_map (production_entry constraints min_date horizon_days) items /\
    total_volume (fold_left (plan_sku constraints location_ min_date horizon_days) items st)
    = fold_left Qplus
                (map (fun it => total_required_of (snd it) horizon_days constraints) items)
                (total_volume st).
Proof.
  induction items as [|[s td] items IH]; intro st.
  - simpl. rewrite !app_nil_r. auto.
  - cbn [fold_left flat_map map].
    destruct (IH (plan_sku constraints location_ min_date horizon_days st (s, td)))
      as (H1 & H2 & H3).
    rewrite H1, H2, H3. unfold plan_sku, order_entry, production_entry.
    cbn [fst snd st_orders st_production total_volume].
    repeat split.
    + destruct (Qltb 0.0 _); [rewrite <- app_assoc |]; reflexivity.
    + destruct (Qltb 0.0 (_ * 0.6)); [rewrite <- app_assoc |]; reflexivity.
Qed.

Lemma generate_supply_plan_eq (pts : list ForecastPoint)
      (constraints : InventoryConstraints) (location_ : option string)
      (dem : dict Q) (m M : Z) :
  summarize_demand pts = (dem, Some m, Some M) ->
  generate_supply_plan pts constraints location_ =
  (flat_map (order_entry constraints location_ m (M - m + 1)) dem,
   flat_map (production_entry constraints m (M - m + 1)) dem,
   [ {| kpi_name := "Total Volume";
        kpi_value :=
          fold_left Qplus
            (map (fun it => total_required_of (snd it) (M - m + 1) constraints) dem)
            0.0;
        kpi_unit := Some "units"%string |};
     {| kpi_name := "Target Service Level";
        kpi_value := target_service_level constraints;
        kpi_unit := Some ""%string |} ]).
Proof.
  intro Hs. unfold generate_supply_plan. rewrite Hs.
  destruct (plan_loop constraints location_ m (M - m + 1) dem
              {| st_orders := []; st_production := []; total_volume := 0.0 |})
    as (H1 & H2 & H3).
  rewrite H1, H2, H3. reflexivity.
Qed.

Lemma generate_supply_plan_nil (constraints : InventoryConstraints)
      (location_ : option string) :
  generate_supply_plan [] constraints location_ = ([], [], []).
Proof. reflexivity. Qed.

(** The summary of a non-empty list of points, with its date bounds. *)
Lemma summarize_nonempty (pts : list ForecastPoint) :
  pts <> [] ->
  exists dem m M,
    summarize_demand pts = (dem, Some m, Some M) /\
    In m (map date pts) /\ In M (map date pts) /\
    (forall p, In p pts -> (m <= date p <= M)%Z) /\
    (1 <= M - m + 1)%Z.
Proof.
  intro Hne. destruct (summarize_dates pts) as [_ H].
  destruct (H Hne) as (m & M & Hm & HM & Him & HiM & Hb).
  destruct (summarize_demand pts) as [[dem mn] mx]. simpl in *. subst.
  exists dem, m, M. repeat split; auto; try (apply Hb; assumption).
  destruct pts as [|p pts]; [congruence |].
  specialize (Hb p (or_introl eq_refl)). lia.
Qed.

Lemma order_entry_in (constraints : InventoryConstraints) (location_ : option string)
      (m h : Z) (items : dict Q) (o : RecommendedOrder) :
  In o (flat_map (order_entry constraints location_ m h) items) ->
  exists s td,
    In (s, td) items /\ 0 < total_required_of td h constraints * 0.4 /\
    o = {| order_sku := s; order_location := location_; order_date := m;
           order_quantity := total_required_of td h constraints * 0.4;
           order_type := "purchase" |}.
Proof.
  rewrite in_flat_map. intros ([s td] & Hin & Ho).
  unfold order_entry in Ho. simpl in Ho.
  destruct (Qltb 0.0 _) eqn:Hq; [| contradiction].
  destruct Ho as [<- | []]. exists s, td. apply Qltb_lt in Hq.
  repeat split; [exact Hin | lra].
Qed.

Lemma production_entry_in (constraints : InventoryConstraints)
      (m h : Z) (items : dict Q) (r : ProductionRecommendation) :
  In r (flat_map (production_entry constraints m h) items) ->
  exists s td,
    In (s, td) items /\ 0 < total_required_of td h constraints * 0.6 /\
    r = {| production_sku := s; line_id := Some "LINE-1"%string;
           production_date := m;
           production_quantity := total_required_of td h constraints * 0.6 |}.
Proof.
  rewrite in_flat_map. intros ([s td] & Hin & Hr).
  unfold production_entry in Hr. simpl in Hr.
  destruct (Qltb 0.0 _) eqn:Hq; [| contradiction].
  destruct Hr as [<- | []]. exists s, td. apply Qltb_lt in Hq.
  repeat split; [exact Hin | lra].
Qed.

Lemma entries_sum (constraints : InventoryConstraints) (location_ : option string)
      (m h : Z) (items : dict Q) :
  (forall it, In it items -> 0 <= total_required_of (snd it) h constraints) ->
  py_sum (map order_quantity (flat_map (order_entry constraints location_ m h) items))
  + py_sum (map production_quantity (flat_map (production_entry constraints m h) items))
  == py_sum (map (fun it => total_required_of (snd it) h constraints) items).
Proof.
  induction items as [|it items IH]; intro Hnn.
  - simpl. rewrite py_sum_nil. reflexivity.
  - simpl. rewrite !map_app, !py_sum_app, py_sum_cons.
    rewrite <- IH by (intros x Hx; apply Hnn; right; exact Hx).
    assert (H0 : 0 <= total_required_of (snd it) h constraints)
      by (apply Hnn; left; reflexivity).
    unfold order_entry, production_entry. cbv zeta.
    destruct (Qltb 0.0 (_ * 0.4)) eqn:H4;
      destruct (Qltb 0.0 (_ * 0.6)) eqn:H6; simpl;
      rewrite ?py_sum_single, ?py_sum_nil;
      try apply Qltb_lt in H4; try apply Qltb_ge in H4;
      try apply Qltb_lt in H6; try apply Qltb_ge in H6; lra.
Qed.

Lemma order_entry_present (constraints : InventoryConstraints)
      (location_ : option string) (m h : Z) (items : dict Q) (s : string) (td : Q) :
  In (s, td) items -> 0 < total_required_of td h constraints ->
  In {| order_sku := s; order_location := location_; order_date := m;
        order_quantity := total_required_of td h constraints * 0.4;
        order_type := "purchase" |}
     (flat_map (order_entry constraints location_ m h) items).
Proof.
  intros Hin Hpos. apply in_flat_map. exists (s, td). split; [exact Hin |].
  unfold order_entry. simpl.
  assert (Hq : Qltb 0.0 (total_required_of td h constraints * 0.4) = true)
    by (apply Qltb_lt; lra).
  rewrite Hq. left. reflexivity.
Qed.

Lemma production_entry_present (constraints : InventoryConstraints)
      (m h : Z) (items : dict Q) (s : string) (td : Q) :
  In (s, td) items -> 0 < total_required_of td h constraints ->
  In {| production_sku := s; line_id := Some "LINE-1"%string;
        production_date := m;
        production_quantity := total_required_of td h constraints * 0.6 |}
     (flat_map (production_entry constraints m h) items).
Proof.
  intros Hin Hpos. apply in_flat_map. exists (s, td). split; [exact Hin |].
  unfold production_entry. simpl.
  assert (Hq : Qltb 0.0 (total_required_of td h constraints * 0.6) = true)
    by (apply Qltb_lt; lra).
  rewrite Hq. left. reflexivity.
Qed.

(** C3.  For a non-empty forecast artifact, with [horizon_days = (max_date -
    min_date) + 1], every SKU of the artifact has an entry in the demand
    summary, its total demand, and for every such entry
    [safety_stock = (total_demand / horizon_days) * lead_time_days * z] with
    [z = 1.65] for a target service level of at least 0.95 and [z = 1]
    otherwise, and [total_required = total_demand + safety_stock]; when
    [total_required > 0] the plan holds the SKU's purchase order of
    [0.4 * total_required] and production recommendation of
    [0.6 * total_required], which add up to [total_required] and stand in
    the ratio 2/3. *)
Theorem supply_plan_quantities
        (pts : list ForecastPoint) (constraints : InventoryConstraints)
        (location_ : option string) :
  pts <> [] ->
  ((0.95 <= target_service_level constraints ->
    spec_z (target_service_level constraints) = 1.65) /\
   (target_service_level constraints < 0.95 ->
    spec_z (target_service_level constraints) = 1)) /\
  exists dem min_date max_date,
    summarize_demand pts = (dem, Some min_date, Some max_date) /\
    In min_date (map date pts) /\ In max_date (map date pts) /\
    (forall p, In p pts -> (min_date <= date p <= max_date)%Z) /\
    (forall p, In p pts -> exists td, In (sku p, td) dem) /\
    forall s total_demand,
      In (s, total_demand) dem ->
      let horizon_days := (max_date - min_date + 1)%Z in
      let average_daily_demand := total_demand / inject_Z horizon_days in
      let safety_stock :=
        average_daily_demand * inject_Z (lead_time_days constraints)
        * spec_z (target_service_level constraints) in
      let total_required := total_demand + safety_stock in
      total_demand == sku_demand pts s /\
      compute_safety_stock_for_sku total_demand horizon_days constraints
      == safety_stock /\
      total_required_of total_demand horizon_days constraints == total_required /\
      (0 < total_required ->
       exists o r,
         In o (fst (fst (generate_supply_plan pts constraints location_))) /\
         In r (snd (fst (generate_supply_plan pts constraints location_))) /\
         order_sku o = s /\ production_sku r = s /\
         order_quantity o == 0.4 * total_required /\
         production_quantity r == 0.6 * total_required /\
         order_quantity o + production_quantity r == total_required /\
         order_quantity o / production_quantity r == 2 # 3).
Proof.
  intro Hne. split; [apply spec_z_levels |].
  destruct (summarize_nonempty pts Hne) as (dem & m & M & Hs & Hm & HM & Hb & Hh).
  exists dem, m, M.
  split; [exact Hs |]. split; [exact Hm |]. split; [exact HM |].
  split; [exact Hb |]. split.
  - intros p Hp. destruct (summarize_demand_dict pts) as (_ & Hkeys & _).
    rewrite Hs in Hkeys. simpl in Hkeys.
    assert (Hk : In (sku p) (dict_keys dem)) by (apply Hkeys; exists p; auto).
    unfold dict_keys in Hk. apply in_map_iff in Hk.
    destruct Hk as ([s td] & Hfst & Hin). simpl in Hfst. subst s.
    exists td. exact Hin.
  - intros s td Hin. cbv zeta.
    pose proof (safety_stock_formula td (M - m + 1) constraints Hh) as Hss.
    assert (Htr : total_required_of td (M - m + 1) constraints
                  == td + td / inject_Z (M - m + 1)
                          * inject_Z (lead_time_days constraints)
                          * spec_z (target_service_level constraints)).
    { unfold total_required_of. rewrite Hss. reflexivity. }
    split.
    { apply (summarize_demand_in pts s td). rewrite Hs. exact Hin. }
    split; [exact Hss |]. split; [exact Htr |].
    intro Hpos. rewrite <- Htr in Hpos.
    rewrite (generate_supply_plan_eq pts constraints location_ dem m M Hs).
    cbn [fst snd].
    eexists. eexists.
    split; [apply (order_entry_present constraints location_ m _ dem s td Hin Hpos) |].
    split; [apply (production_entry_present constraints m _ dem s td Hin Hpos) |].
    cbn [order_sku production_sku order_quantity production_quantity].
    rewrite <- Htr.
    split; [reflexivity |]. split; [reflexivity |].
    split; [ring |]. split; [ring |]. split; [ring |].
    field. intro H0. rewrite H0 in Hpos. revert Hpos. apply Qlt_irrefl.
Qed.

Lemma supply_plan_quantities_witness :
  exists dem min_date max_date,
    summarize_demand demo_points = (dem, Some min_date, Some max_date) /\
    In min_date (map date demo_points) /\ In max_date (map date demo_points).
Proof.
  destruct (supply_plan_quantities demo_points demo_constraints None)
    as (_ & dem & m & M & H1 & H2 & H3 & _).
  - discriminate.
  - exists dem, m, M. auto.
Defined.

(** C9.  For a non-empty forecast artifact there is one date, the least date
    among its points, that is the [order_date] of every purchase order and
    the [production_date] of every production recommendation, whatever the
    constraints (so whatever [lead_time_days]) and the location label. *)
Theorem plan_dates_are_min_date (pts : list ForecastPoint) :
  pts <> [] ->
  exists min_date,
    In min_date (map date pts) /\
    (forall p, In p pts -> (min_date <= date p)%Z) /\
    forall constraints location_,
      (forall o, In o (fst (fst (generate_supply_plan pts constraints location_))) ->
                 order_date o = min_date) /\
      (forall r, In r (snd (fst (generate_supply_plan pts constraints location_))) ->
                 production_date r = min_date).
Proof.
  intro Hne.
  destruct (summarize_nonempty pts Hne) as (dem & m & M & Hs & Hm & _ & Hb & _).
  exists m. split; [exact Hm |]. split; [intros p Hp; apply Hb; exact Hp |].
  intros constraints location_.
  rewrite (generate_supply_plan_eq pts constraints location_ dem m M Hs).
  cbn [fst snd]. split.
  - intros o Ho. apply order_entry_in in Ho.
    destruct Ho as (s & td & _ & _ & ->). reflexivity.
  - intros r Hr. apply production_entry_in in Hr.
    destruct Hr as (s & td & _ & _ & ->). reflexivity.
Qed.

Lemma plan_dates_are_min_date_witness :
  exists min_date,
    In min_date (map date demo_points) /\
    (forall o, In o (fst (fst (generate_supply_plan demo_points demo_constraints None))) ->
               order_date o = min_date).
Proof.
  destruct (plan_dates_are_min_date demo_points) as (m & Hm & _ & H).
  - discriminate.
  - exists m. split; [exact Hm |].
    apply (H demo_constraints None).
Defined.

(** C10.  For points with non-negative means and a non-negative lead time,
    a "Total Volume" KPI of the plan has as value the sum of the plan's
    order quantities plus its production quantities, which is the base
    volume the scenario engine computes for that plan; a plan made from at
    least one point has that KPI. *)
Theorem plan_total_volume_is_base_volume
        (pts : list ForecastPoint) (constraints : InventoryConstraints)
        (location_ : option string) :
  (forall p, In p pts -> 0 <= mean p) ->
  (0 <= lead_time_days constraints)%Z ->
  let out := generate_supply_plan pts constraints location_ in
  (pts <> [] -> exists k, In k (snd out) /\ kpi_name k = "Total Volume"%string) /\
  forall k,
    In k (snd out) -> kpi_name k = "Total Volume"%string ->
    kpi_value k == py_sum (map order_quantity (fst (fst out)))
                   + py_sum (map production_quantity (snd (fst out))) /\
    forall plan_id_ forecast_id_ request sk,
      In sk (compute_scenario_kpis (plan_response_of plan_id_ forecast_id_ out) request) ->
      skpi_base sk == kpi_value k.
Proof.
  intros Hmean Hlead out. subst out.
  destruct pts as [|p0 pts0].
  - split; [congruence |]. intros k [].
  - set (pts := p0 :: pts0) in *.
    assert (Hne : pts <> []) by discriminate.
    destruct (summarize_nonempty pts Hne) as (dem & m & M & Hs & _ & _ & _ & Hh).
    rewrite (generate_supply_plan_eq pts constraints location_ dem m M Hs).
    cbn [fst snd]. split.
    + intros _. eexists. split; [left; reflexivity | reflexivity].
    + intros k Hk Hname.
      assert (Hsum :
                kpi_value k
                == py_sum (map order_quantity
                               (flat_map (order_entry constraints location_ m (M - m + 1)) dem))
                   + py_sum (map production_quantity
                                 (flat_map (production_entry constraints m (M - m + 1)) dem))).
      { destruct Hk as [<- | [<- | []]]; [| simpl in Hname; discriminate].
        cbn [kpi_value]. rewrite fold_left_Qplus_acc, entries_sum; [ring |].
        intros [s td] Hin. simpl snd.
        apply total_required_nonneg; [exact Hh | exact Hlead |].
        destruct (summarize_demand_in pts s td) as [Htd _];
          [rewrite Hs; exact Hin |].
        rewrite Htd. apply sku_demand_nonneg. exact Hmean. }
      split; [exact Hsum |].
      intros pid fid request sk Hsk.
      unfold compute_scenario_kpis in Hsk. destruct Hsk as [<- | []].
      cbn [skpi_base]. unfold base_volume_of, plan_response_of.
      cbn [orders production fst snd]. rewrite Hsum. reflexivity.
Qed.

Lemma plan_total_volume_is_base_volume_witness :
  exists k,
    In k (kpis demo_plan) /\ kpi_name k = "Total Volume"%string /\
    kpi_value k == base_volume_of demo_plan.
Proof.
  assert (Hm : forall p, In p demo_points -> 0 <= mean p).
  { intros p [<- | [<- | [<- | []]]]; simpl; lra. }
  assert (Hl : (0 <= lead_time_days demo_constraints)%Z) by (simpl; lia).
  destruct (plan_total_volume_is_base_volume demo_points demo_constraints None Hm Hl)
    as [Hex Hall].
  destruct Hex as (k & Hk & Hn); [discriminate |].
  exists k. split; [exact Hk |]. split; [exact Hn |].
  apply (Hall k Hk Hn).
Defined.

(** ** The scenario engine *)

Lemma average_demand_factor_mean (request : ScenarioRequest) :
  average_demand_factor request
  == match demand_shocks request with
     | [] => 1
     | _ => unweighted_mean (map factor (demand_shocks request))
     end.
Proof.
  unfold average_demand_factor, demand_factors_of, demand_shocks, unweighted_mean.
  destruct (filter _ (shocks request)) as [|s l] eqn:Hf.
  - reflexivity.
  - cbn [map]. rewrite py_sum_fold_right. reflexivity.
Qed.

(** C4.  The scenario KPI has [scenario = base * f] and
    [delta = scenario - base], where [base] is the plan's base volume and
    [f] is the unweighted mean of the factors of the demand shocks, or [1]
    without a demand shock; two requests with the same demand shocks give
    the same KPI, whatever their other shocks; without a demand shock
    [scenario = base] and [delta = 0]. *)
Theorem scenario_volume_from_demand_shocks
        (plan : PlanResponse) (request : ScenarioRequest) :
  (exists k,
      compute_scenario_kpis plan request = [k] /\
      skpi_base k = base_volume_of plan /\
      skpi_scenario k
      == base_volume_of plan
         * match demand_shocks request with
           | [] => 1
           | _ => unweighted_mean (map factor (demand_shocks request))
           end /\
      skpi_delta k == skpi_scenario k - skpi_base k /\
      (demand_shocks request = [] ->
       skpi_scenario k == skpi_base k /\ skpi_delta k == 0)) /\
  (forall request',
      demand_shocks request' = demand_shocks request ->
      compute_scenario_kpis plan request' = compute_scenario_kpis plan request).
Proof.
  split.
  - eexists. split; [reflexivity |]. cbn [skpi_base skpi_scenario skpi_delta].
    split; [reflexivity |].
    split; [rewrite average_demand_factor_mean; reflexivity |].
    split; [reflexivity |].
    intro Hnone. rewrite average_demand_factor_mean, Hnone. split; ring.
  - intros request' Heq. unfold compute_scenario_kpis, average_demand_factor,
      demand_factors_of. unfold demand_shocks in Heq. rewrite Heq. reflexivity.
Qed.

Lemma scenario_volume_from_demand_shocks_witness :
  exists k,
    compute_scenario_kpis demo_plan
      {| req_forecast_id := "f1"; req_plan_id := None; req_name := None;
         shocks := [{| shock_type := supply; shock_sku := None;
                       shock_location := None; shock_start_date := 739252;
                       shock_end_date := 739258; factor := 3; delta := 5 |}] |}
    = [k] /\
    skpi_scenario k == skpi_base k /\ skpi_delta k == 0.
Proof.
  destruct (scenario_volume_from_demand_shocks demo_plan
      {| req_forecast_id := "f1"; req_plan_id := None; req_name := None;
         shocks := [{| shock_type := supply; shock_sku := None;
                       shock_location := None; shock_start_date := 739252;
                       shock_end_date := 739258; factor := 3; delta := 5 |}] |})
    as [(k & Hk & _ & _ & _ & Hnone) _].
  exists k. split; [exact Hk |]. apply Hnone. reflexivity.
Defined.

(** ** Base-plan resolution of a scenario *)

Lemma first_plan_for_none (ps : dict PlanResponse) (forecast_id : string) :
  (forall kp, In kp ps -> plan_forecast_id (snd kp) <> forecast_id) ->
  first_plan_for ps forecast_id = None.
Proof.
  unfold first_plan_for, dict_values. induction ps as [|[k p] ps IH]; intro H.
  - reflexivity.
  - simpl. destruct (String.eqb (plan_forecast_id p) forecast_id) eqn:Hp.
    + apply String.eqb_eq in Hp. exfalso.
      apply (H (k, p)); [left; reflexivity | exact Hp].
    + apply IH. intros kp Hkp. apply H. right. exact Hkp.
Qed.

Lemma first_plan_for_first (pre post : dict PlanResponse) (k : string)
      (plan : PlanResponse) (forecast_id : string) :
  plan_forecast_id plan = forecast_id ->
  (forall kp, In kp pre -> plan_forecast_id (snd kp) <> forecast_id) ->
  first_plan_for (pre ++ (k, plan) :: post) forecast_id = Some plan.
Proof.
  intros Hp. unfold first_plan_for, dict_values.
  induction pre as [|[k0 p0] pre IH]; intro H; simpl.
  - subst forecast_id. rewrite String.eqb_refl. reflexivity.
  - destruct (String.eqb (plan_forecast_id p0) forecast_id) eqn:H0.
    + apply String.eqb_eq in H0. exfalso.
      apply (H (k0, p0)); [left; reflexivity | exact H0].
    + apply IH. intros kp Hkp. apply H. right. exact Hkp.
Qed.

Lemma truthy_some (pid : string) : pid <> ""%string -> truthy (Some pid) = true.
Proof.
  intro H. simpl. apply negb_true_iff. apply String.eqb_neq. exact H.
Qed.

(** C8, as stated, does not hold: a request whose plan id is the empty
    string carries a plan id under which no plan is stored, and the call
    does not fail with 404: the empty string counts as no plan id, and the
    first plan of the forecast is used. *)
Lemma run_scenario_empty_plan_id_counterexample :
  req_plan_id request_empty_plan_id = Some ""%string /\
  dict_get (plans demo_store) "" = None /\
  exists response,
    fst (run_scenario demo_store "s1" request_empty_plan_id) = Return response /\
    resp_plan_id response = Some "p1"%string.
Proof.
  split; [reflexivity |]. split; [reflexivity |].
  eexists. split; reflexivity.
Qed.

(** C8 (amended).  With a plan id other than the empty string the scenario
    runs on the plan stored under that id, and fails with 404 "Plan not
    found" when there is none.  Without a plan id, or with the empty string
    for one, it runs on the first stored plan, in insertion order, whose
    forecast id is the request's, and fails with 400 "No base plan available
    for scenario" when no stored plan has that forecast id.  A failed call
    leaves the store as it was. *)
Theorem run_scenario_base_plan
        (store : InMemoryStore) (uuid4 : string) (payload : ScenarioRequest) :
  (forall pid,
      req_plan_id payload = Some pid -> pid <> ""%string ->
      (dict_get (plans store) pid = None ->
       run_scenario store uuid4 payload
       = (Raise (HTTP_404_NOT_FOUND "Plan not found"), store)) /\
      (forall plan,
          dict_get (plans store) pid = Some plan ->
          exists response,
            fst (run_scenario store uuid4 payload) = Return response /\
            resp_plan_id response = Some (plan_id plan) /\
            resp_kpis response = compute_scenario_kpis plan payload)) /\
  (req_plan_id payload = None \/ req_plan_id payload = Some ""%string ->
   ((forall kp, In kp (plans store) ->
                plan_forecast_id (snd kp) <> req_forecast_id payload) ->
    run_scenario store uuid4 payload
    = (Raise (HTTP_400_BAD_REQUEST "No base plan available for scenario"), store)) /\
   (forall pre k plan post,
       plans store = pre ++ (k, plan) :: post ->
       plan_forecast_id plan = req_forecast_id payload ->
       (forall kp, In kp pre -> plan_forecast_id (snd kp) <> req_forecast_id payload) ->
       exists response,
         fst (run_scenario store uuid4 payload) = Return response /\
         resp_plan_id response = Some (plan_id plan) /\
         resp_kpis response = compute_scenario_kpis plan payload)).
Proof.
  split.
  - intros pid Hpid Hne. unfold run_scenario. rewrite Hpid.
    rewrite (truthy_some pid Hne). split.
    + intros ->. reflexivity.
    + intros plan ->. eexists. cbn [fst]. repeat split.
  - intro Habsent.
    assert (Hf : truthy (req_plan_id payload) = false)
      by (destruct Habsent as [-> | ->]; reflexivity).
    unfold run_scenario. rewrite Hf. split.
    + intro Hnone. rewrite (first_plan_for_none _ _ Hnone). reflexivity.
    + intros pre k plan post Hsplit Hfid Hpre.
      rewrite Hsplit, (first_plan_for_first pre post k plan _ Hfid Hpre).
      eexists. cbn [fst]. repeat split.
Qed.

Lemma run_scenario_base_plan_witness :
  exists response,
    fst (run_scenario demo_store "s1" request_plan_p1) = Return response /\
    resp_plan_id response = Some "p1"%string.
Proof.
  destruct (run_scenario_base_plan demo_store "s1" request_plan_p1) as [H _].
  destruct (H "p1"%string eq_refl) as [_ Hsome]; [discriminate |].
  destruct (Hsome demo_plan eq_refl) as (response & Hr & Hp & _).
  exists response. split; [exact Hr | exact Hp].
Defined.

(* ================================================================== *)
(** * Further properties of the code *)

(** ** Validation metrics *)

Lemma np_mean_nonneg (l : list Q) : (forall x, In x l -> 0 <= x) -> 0 <= np_mean l.
Proof.
  intro H. unfold np_mean. destruct l as [|x l].
  - unfold py_sum, Qdiv. simpl. lra.
  - apply Qle_shift_div_l.
    + apply Qnat_pos. simpl. lia.
    + rewrite Qmult_0_l. apply py_sum_nonneg. exact H.
Qed.

Lemma np_mean_zero (l : list Q) : (forall x, In x l -> x == 0) -> np_mean l == 0.
Proof.
  intro H. unfold np_mean.
  assert (Hs : py_sum l == 0).
  { induction l as [|x l IH]; [reflexivity |].
    rewrite py_sum_cons, (H x (or_introl eq_refl)), IH; [ring |].
    intros y Hy. apply H. right. exact Hy. }
  rewrite Hs. unfold Qdiv. ring.
Qed.

Lemma masked_nil_iff (y_true y_pred : list Q) :
  length y_true = length y_pred ->
  (filter (fun tp => Qltb 0 (fst tp)) (combine y_true y_pred) = []
   <-> forall t, In t y_true -> t <= 0).
Proof.
  revert y_pred. induction y_true as [|t ts IH]; intros [|p ps] Hlen;
    simpl in *; try discriminate.
  - split; [intros _ x [] | reflexivity].
  - destruct (Qltb 0 t) eqn:Ht.
    + split; [discriminate |]. intro H. apply Qltb_lt in Ht.
      specialize (H t (or_introl eq_refl)). lra.
    + apply Qltb_ge in Ht. rewrite (IH ps) by lia. split.
      * intros H x [<- | Hx]; auto.
      * intros H x Hx. apply H. right. exact Hx.
Qed.

(** X1.  On an actual and a predicted vector of the same length, the MAPE
    is [inf] exactly when no actual is positive (whatever was predicted);
    a finite MAPE is non-negative, and the MAPE of a forecast that equals
    the actuals is zero. *)
Theorem compute_mape_values (y_true y_pred : list Q) :
  length y_true = length y_pred ->
  (_compute_mape y_true y_pred = Inf <-> forall t, In t y_true -> t <= 0) /\
  (forall v, _compute_mape y_true y_pred = Fin v -> 0 <= v) /\
  (forall v, _compute_mape y_true y_true = Fin v -> v == 0).
Proof.
  intro Hlen. split; [| split].
  - rewrite <- (masked_nil_iff y_true y_pred Hlen). unfold _compute_mape.
    destruct (filter _ (combine y_true y_pred)); split; congruence.
  - intros v. unfold _compute_mape.
    destruct (filter _ (combine y_true y_pred)) as [|tp l]; [discriminate |].
    intro H. apply (f_equal (fun m => match m with Fin q => q | Inf => 0 end)) in H.
    cbv beta iota in H. subst v. apply np_mean_nonneg.
    intros x Hx. apply in_map_iff in Hx. destruct Hx as (q & <- & _).
    apply Qabs_nonneg.
  - intros v. unfold _compute_mape.
    destruct (filter _ (combine y_true y_true)) as [|tp l] eqn:Hf; [discriminate |].
    intro H. apply (f_equal (fun m => match m with Fin q => q | Inf => 0 end)) in H.
    cbv beta iota in H. subst v. apply np_mean_zero.
    intros x Hx. apply in_map_iff in Hx. destruct Hx as ([t p] & <- & Hin).
    rewrite <- Hf in Hin. apply filter_In in Hin. destruct Hin as [Hin Hpos].
    cbn [fst snd] in *. apply Qltb_lt in Hpos.
    assert (Heq : t = p).
    { clear - Hin. induction y_true as [|a l IH]; simpl in Hin; [contradiction |].
      destruct Hin as [H | H]; [inversion H; reflexivity | auto]. }
    subst p.
    assert (Hz : (t - t) / t == 0) by (field; lra).
    rewrite Hz. reflexivity.
Qed.

Lemma compute_mape_values_witness :
  _compute_mape [0; 0] [3; 4] = Inf.
Proof.
  destruct (compute_mape_values [0; 0] [3; 4] eq_refl) as [H _].
  apply H. intros t [<- | [<- | []]]; lra.
Defined.

Lemma abs_errors_nonneg (l l' : list Q) (x : Q) :
  In x (zip_with (fun t p => Qabs (t - p)) l l') -> 0 <= x.
Proof.
  revert l'. induction l as [|a l IH]; intros [|b l']; cbn [zip_with In];
    try contradiction.
  intros [<- | Hx]; [apply Qabs_nonneg | eauto].
Qed.

Lemma abs_errors_self (l : list Q) (x : Q) :
  In x (zip_with (fun t p => Qabs (t - p)) l l) -> x == 0.
Proof.
  induction l as [|a l IH]; cbn [zip_with In]; [contradiction |].
  intros [<- | Hx]; [| auto].
  assert (Hz : a - a == 0) by ring. rewrite Hz. reflexivity.
Qed.

(** X2.  On an actual and a predicted vector of the same length, the MAE
    is [inf] exactly when the vectors are empty; otherwise it is finite and
    non-negative, and it is zero when the forecast equals the actuals. *)
Theorem compute_mae_values (y_true y_pred : list Q) :
  length y_true = length y_pred ->
  (_compute_mae y_true y_pred = Inf <-> y_true = [] /\ y_pred = []) /\
  (y_true <> [] -> exists v, _compute_mae y_true y_pred = Fin v /\ 0 <= v) /\
  (forall v, _compute_mae y_true y_true = Fin v -> v == 0).
Proof.
  intro Hlen. split; [| split].
  - unfold _compute_mae. destruct y_true, y_pred; simpl in Hlen; try discriminate;
      split; intro H; auto; try discriminate; destruct H; discriminate.
  - intro Hne. unfold _compute_mae.
    destruct y_true as [|t ts], y_pred as [|p ps]; simpl in Hlen;
      try discriminate; [congruence |].
    eexists. split; [reflexivity |]. apply np_mean_nonneg.
    apply abs_errors_nonneg.
  - intros v. unfold _compute_mae. destruct y_true as [|t ts]; [discriminate |].
    intro H. apply (f_equal (fun m => match m with Fin q => q | Inf => 0 end)) in H.
    cbv beta iota in H. subst v. apply np_mean_zero.
    apply abs_errors_self.
Qed.

Lemma compute_mae_values_witness :
  exists v, _compute_mae [1; 2] [1; 2] = Fin v /\ v == 0.
Proof.
  destruct (compute_mae_values [1; 2] [1; 2] eq_refl) as (_ & _ & H).
  eexists. split; [reflexivity |]. apply H. reflexivity.
Defined.

(** ** The history of a SKU *)

Lemma daily_add_index (d : Z) (q : Q) (s : Series) (d' : Z) :
  In d' (series_index (daily_add d q s)) <-> d' = d \/ In d' (series_index s).
Proof.
  unfold series_index. induction s as [|[d0 q0] s IH]; simpl.
  - intuition.
  - destruct (Z.ltb_spec d d0); [simpl; intuition |].
    destruct (Z.eqb_spec d d0); simpl.
    + subst. intuition.
    + rewrite IH. intuition.
Qed.

Lemma strictly_increasing_cons (x : Z) (l : list Z) :
  strictly_increasing (x :: l)
  <-> (forall y, In y l -> (x < y)%Z) /\ strictly_increasing l.
Proof.
  revert x. induction l as [|y l IH]; intro x.
  - simpl. intuition.
  - change (strictly_increasing (x :: y :: l))
      with ((x < y)%Z /\ strictly_increasing (y :: l)).
    rewrite (IH y). split.
    + intros (Hxy & Hy & Hl). split; [| split; assumption].
      intros z [<- | Hz]; [exact Hxy |]. specialize (Hy z Hz). lia.
    + intros (Hx & Hy & Hl). split; [apply Hx; left; reflexivity |].
      split; assumption.
Qed.

Lemma daily_add_sorted (d : Z) (q : Q) (s : Series) :
  strictly_increasing (series_index s) ->
  strictly_increasing (series_index (daily_add d q s)).
Proof.
  induction s as [|[d0 q0] s IH]; intro Hs.
  - simpl. auto.
  - cbn [daily_add]. destruct (Z.ltb_spec d d0).
    + change (series_index ((d, q) :: (d0, q0) :: s))
        with (d :: series_index ((d0, q0) :: s)).
      apply strictly_increasing_cons. split; [| exact Hs].
      change (series_index ((d0, q0) :: s)) with (d0 :: series_index s) in *.
      apply strictly_increasing_cons in Hs. destruct Hs as [Hlt _].
      intros y [<- | Hy]; [exact H |]. specialize (Hlt y Hy). lia.
    + destruct (Z.eqb_spec d d0).
      * exact Hs.
      * change (series_index ((d0, q0) :: daily_add d q s))
          with (d0 :: series_index (daily_add d q s)).
        change (series_index ((d0, q0) :: s)) with (d0 :: series_index s) in Hs.
        apply strictly_increasing_cons in Hs. destruct Hs as [Hlt Hs].
        apply strictly_increasing_cons. split; [| apply IH; exact Hs].
        intros y Hy. apply daily_add_index in Hy.
        destruct Hy as [-> | Hy]; [lia | apply Hlt; exact Hy].
Qed.

(** An entry of the series after [daily_add]: an old entry of another date,
    the old entry of that date increased, or a new entry. *)
Lemma daily_add_entry (d : Z) (q : Q) (s : Series) (d' : Z) (q' : Q) :
  strictly_increasing (series_index s) ->
  In (d', q') (daily_add d q s) ->
  (d' <> d /\ In (d', q') s) \/
  (d' = d /\ exists q0, In (d, q0) s /\ q' = q0 + q) \/
  (d' = d /\ ~ In d (series_index s) /\ q' = q).
Proof.
  induction s as [|[d0 q0] s IH]; intros Hs Hin.
  - simpl in Hin. destruct Hin as [Heq | []]. inversion Heq; subst.
    right. right. simpl. auto.
  - change (series_index ((d0, q0) :: s)) with (d0 :: series_index s) in *.
    apply strictly_increasing_cons in Hs. destruct Hs as [Hlt Hs].
    cbn [daily_add] in Hin. destruct (Z.ltb_spec d d0).
    + destruct Hin as [Heq | Hin].
      * inversion Heq; subst. right. right. split; [reflexivity |].
        split; [| reflexivity].
        intros [Hd0 | Hd]; [lia | apply Hlt in Hd; lia].
      * left. split; [| exact Hin].
        destruct Hin as [Heq | Hin]; [inversion Heq; subst; lia |].
        assert (Hd : In d' (series_index s)).
        { unfold series_index. apply in_map_iff. exists (d', q'). auto. }
        specialize (Hlt d' Hd). lia.
    + destruct (Z.eqb_spec d d0).
      * subst d0. destruct Hin as [Heq | Hin].
        -- inversion Heq; subst. right. left. split; [reflexivity |].
           exists q0. split; [left; reflexivity | reflexivity].
        -- left. split; [| right; exact Hin].
           assert (Hd : In d' (series_index s)).
           { unfold series_index. apply in_map_iff. exists (d', q'). auto. }
           specialize (Hlt d' Hd). lia.
      * destruct Hin as [Heq | Hin].
        -- inversion Heq; subst. left. split; [lia | left; reflexivity].
        -- destruct (IH Hs Hin) as [[Hne Hold] | [[-> (q1 & Hq1 & ->)] | [-> [Hnin ->]]]].
           ++ left. split; [exact Hne | right; exact Hold].
           ++ right. left. split; [reflexivity |].
              exists q1. split; [right; exact Hq1 | reflexivity].
           ++ right. right. split; [reflexivity |]. split; [| reflexivity].
              intros [Hd | Hd]; [lia | contradiction].
Qed.

Lemma daily_total_snoc (rows : list SalesRow) (r : SalesRow) (d : Z) :
  daily_total (rows ++ [r]) d
  == daily_total rows d + (if (row_date r =? d)%Z then row_quantity r else 0).
Proof.
  unfold daily_total. rewrite filter_app, map_app, py_sum_app. simpl.
  destruct (row_date r =? d)%Z; simpl.
  - rewrite py_sum_single. reflexivity.
  - rewrite py_sum_nil. reflexivity.
Qed.

Lemma daily_total_absent (rows : list SalesRow) (d : Z) :
  (forall r, In r rows -> row_date r <> d) -> daily_total rows d == 0.
Proof.
  intro H. unfold daily_total.
  replace (filter (fun r => (row_date r =? d)%Z) rows) with (@nil SalesRow).
  - reflexivity.
  - symmetry. induction rows as [|r rows IH]; simpl; [reflexivity |].
    destruct (Z.eqb_spec (row_date r) d) as [Heq | Hne].
    + exfalso. apply (H r); simpl; auto.
    + apply IH. intros x Hx. apply H. right. exact Hx.
Qed.

Lemma groupby_date_sum_snoc (rows : list SalesRow) (r : SalesRow) :
  groupby_date_sum (rows ++ [r])
  = daily_add (row_date r) (row_quantity r) (groupby_date_sum rows).
Proof.
  unfold groupby_date_sum. rewrite fold_left_app. reflexivity.
Qed.

Lemma groupby_date_sum_spec (rows : list SalesRow) :
  strictly_increasing (series_index (groupby_date_sum rows)) /\
  (forall d, In d (series_index (groupby_date_sum rows))
             <-> exists r, In r rows /\ row_date r = d) /\
  (forall d q, In (d, q) (groupby_date_sum rows) -> q == daily_total rows d).
Proof.
  induction rows as [|r rows IH] using rev_ind.
  - simpl. split; [exact I |]. split.
    + intro d. split; [intros [] | intros (r & [] & _)].
    + intros d q [].
  - destruct IH as (Hs & Hidx & Hval). rewrite groupby_date_sum_snoc.
    split; [apply daily_add_sorted; exact Hs |]. split.
    + intro d. rewrite daily_add_index, Hidx. split.
      * intros [-> | (x & Hx & Hd)].
        -- exists r. split; [apply in_or_app; simpl; auto | reflexivity].
        -- exists x. split; [apply in_or_app; auto | exact Hd].
      * intros (x & Hx & Hd). apply in_app_or in Hx.
        destruct Hx as [Hx | [<- | []]]; [right; exists x; auto | left; auto].
    + intros d q Hin. rewrite daily_total_snoc.
      destruct (daily_add_entry _ _ _ _ _ Hs Hin)
        as [[Hne Hold] | [[-> (q1 & Hq1 & ->)] | [-> [Hnin ->]]]].
      * destruct (Z.eqb_spec (row_date r) d) as [Heq | _]; [congruence |].
        rewrite (Hval d q Hold). ring.
      * rewrite Z.eqb_refl, (Hval _ _ Hq1). reflexivity.
      * rewrite Z.eqb_refl, daily_total_absent; [ring |].
        intros x Hx Hd. apply Hnin. apply Hidx. exists x. auto.
Qed.

Lemma groupby_date_sum_nil_iff (rows : list SalesRow) :
  groupby_date_sum rows = [] <-> rows = [].
Proof.
  split; [| intros ->; reflexivity].
  destruct rows as [|r rows] using rev_ind; [reflexivity |].
  rewrite groupby_date_sum_snoc. intro H. exfalso.
  destruct (groupby_date_sum rows) as [|[d0 q0] s]; simpl in H; [discriminate |].
  destruct (row_date r <? d0)%Z; [discriminate |].
  destruct (row_date r =? d0)%Z; discriminate.
Qed.

Lemma prepare_history_groupby (E : Externals) (sku_ : string) (location_ : option string) :
  _prepare_history E sku_ location_ = groupby_date_sum (selected_rows E sku_ location_).
Proof.
  unfold _prepare_history, selected_rows.
  destruct location_ as [loc|].
  - destruct (existsb _ _); destruct (filter _ _); reflexivity.
  - destruct (filter _ _); reflexivity.
Qed.

(** X3.  The history of a SKU has strictly increasing dates (so no date
    twice), has a date exactly when a selected sales row has it, and gives
    each date the sum of the quantities of the selected rows of that date. *)
Theorem prepare_history_daily_sums (E : Externals) (sku_ : string)
        (location_ : option string) :
  strictly_increasing (series_index (_prepare_history E sku_ location_)) /\
  (forall d, In d (series_index (_prepare_history E sku_ location_))
             <-> exists r, In r (selected_rows E sku_ location_) /\ row_date r = d) /\
  (forall d q, In (d, q) (_prepare_history E sku_ location_) ->
               q == daily_total (selected_rows E sku_ location_) d).
Proof.
  rewrite prepare_history_groupby. apply groupby_date_sum_spec.
Qed.

(** X4.  The selected rows are the rows of the SKU, narrowed to the given
    location only when some row of the SKU has that location: a location
    no row of the SKU has gives the history of all locations, and the
    history is empty exactly when the table has no row of the SKU. *)
Theorem prepare_history_location_fallback (E : Externals) (sku_ : string) :
  (forall loc,
      (forall r, In r (sales_table E) -> row_sku r = sku_ -> row_location r <> loc) ->
      _prepare_history E sku_ (Some loc) = _prepare_history E sku_ None) /\
  (forall loc r,
      In r (sales_table E) -> row_sku r = sku_ -> row_location r = loc ->
      forall x, In x (selected_rows E sku_ (Some loc))
                <-> In x (sales_table E) /\ row_sku x = sku_ /\ row_location x = loc) /\
  (forall location_,
      _prepare_history E sku_ location_ = []
      <-> forall r, In r (sales_table E) -> row_sku r <> sku_).
Proof.
  split; [| split].
  - intros loc Hno. unfold _prepare_history.
    assert (Hex : existsb (fun r => String.eqb (row_location r) loc)
                          (filter (fun r => String.eqb (row_sku r) sku_) (sales_table E))
                  = false).
    { apply not_true_is_false. intro Hex. apply existsb_exists in Hex.
      destruct Hex as (r & Hin & Hloc). apply filter_In in Hin.
      destruct Hin as [Hin Hsku]. apply String.eqb_eq in Hsku, Hloc.
      exact (Hno r Hin Hsku Hloc). }
    rewrite Hex. reflexivity.
  - intros loc r Hin Hsku Hloc x. unfold selected_rows.
    assert (Hex : existsb (fun r => String.eqb (row_location r) loc)
                          (filter (fun r => String.eqb (row_sku r) sku_) (sales_table E))
                  = true).
    { apply existsb_exists. exists r. split.
      - apply filter_In. split; [exact Hin | apply String.eqb_eq; exact Hsku].
      - apply String.eqb_eq. exact Hloc. }
    rewrite Hex, !filter_In, !String.eqb_eq. tauto.
  - intro location_. rewrite prepare_history_groupby, groupby_date_sum_nil_iff.
    set (df := filter (fun r => String.eqb (row_sku r) sku_) (sales_table E)).
    assert (Hdf : df = [] <-> forall r, In r (sales_table E) -> row_sku r <> sku_).
    { split.
      - intros Hnil r Hin Hsku.
        assert (Hr : In r df)
          by (apply filter_In; split; [exact Hin | apply String.eqb_eq; exact Hsku]).
        rewrite Hnil in Hr. exact Hr.
      - intro Hno. destruct df as [|r l] eqn:Hd; [reflexivity |]. exfalso.
        assert (Hr : In r df) by (rewrite Hd; left; reflexivity).
        apply filter_In in Hr. destruct Hr as [Hin Hsku].
        apply String.eqb_eq in Hsku. exact (Hno r Hin Hsku). }
    rewrite <- Hdf. unfold selected_rows. fold df.
    destruct location_ as [loc|]; [| tauto].
    destruct (existsb _ df) eqn:Hex; [| tauto].
    split.
    + intro Hnil. apply existsb_exists in Hex. destruct Hex as (r & Hin & Hloc).
      assert (Hr : In r (filter (fun r => String.eqb (row_location r) loc) df))
        by (apply filter_In; auto).
      rewrite Hnil in Hr. contradiction.
    + intros ->. reflexivity.
Qed.

Lemma prepare_history_location_fallback_witness :
  _prepare_history demo_sales_externals "SKU-002" (Some "WH-9"%string)
  = _prepare_history demo_sales_externals "SKU-002" None.
Proof.
  destruct (prepare_history_location_fallback demo_sales_externals "SKU-002")
    as [H _].
  apply H. intros r Hin Hsku Hloc. simpl in Hin.
  repeat (destruct Hin as [<- | Hin]; [simpl in *; discriminate |]).
  contradiction.
Defined.

(** ** The forecast strategies *)

(** X5.  Each strategy declines below its guard (fewer than four
    observations, six for XGBoost, or an empty horizon), and a forecast it
    returns has exactly as many values as the horizon asks for, none of them
    negative. *)
Theorem strategies_contract (E : Externals) (series : Series)
        (horizon_dates : list Z) (horizon : Z) :
  ((series_len series < 4)%Z \/ (horizon <= 0)%Z ->
   _forecast_arima E series horizon = None) /\
  ((series_len series < 4)%Z \/ horizon_dates = [] ->
   _forecast_prophet E series horizon_dates = None) /\
  ((series_len series < 6)%Z \/ (horizon <= 0)%Z ->
   _forecast_xgb E series horizon = None) /\
  (forall fc, _forecast_arima E series horizon = Some fc ->
              length fc = Z.to_nat horizon /\ forall v, In v fc -> 0 <= v) /\
  (forall fc, _forecast_prophet E series horizon_dates = Some fc ->
              length fc = length horizon_dates /\ forall v, In v fc -> 0 <= v) /\
  (forall fc, _forecast_xgb E series horizon = Some fc ->
              length fc = Z.to_nat horizon /\ forall v, In v fc -> 0 <= v).
Proof.
  repeat split.
  - intro H. unfold _forecast_arima.
    assert (G : (series_len series <? 4)%Z || (horizon <=? 0)%Z = true).
    { apply orb_true_iff. destruct H; [left; apply Z.ltb_lt | right; apply Z.leb_le];
        assumption. }
    rewrite G. reflexivity.
  - intro H. unfold _forecast_prophet.
    assert (G : (series_len series <? 4)%Z || (length horizon_dates =? 0)%nat = true).
    { apply orb_true_iff. destruct H as [H | ->];
        [left; apply Z.ltb_lt; exact H | right; reflexivity]. }
    rewrite G. reflexivity.
  - intro H. unfold _forecast_xgb.
    assert (G : (series_len series <? 6)%Z || (horizon <=? 0)%Z = true).
    { apply orb_true_iff. destruct H; [left; apply Z.ltb_lt | right; apply Z.leb_le];
        assumption. }
    rewrite G. reflexivity.
  - revert H. unfold _forecast_arima. destruct (_ || _); [discriminate |].
    destruct (arima_fit E _ _); [| discriminate].
    intro H. injection H as <-. unfold np_maximum0.
    rewrite !length_map, length_seq. reflexivity.
  - revert H. unfold _forecast_arima. destruct (_ || _); [discriminate |].
    destruct (arima_fit E _ _); [| discriminate].
    intro H. injection H as <-. apply np_maximum0_nonneg.
  - revert H. unfold _forecast_prophet. destruct (_ || _); [discriminate |].
    destruct (prophet_fit E _ _); [| discriminate].
    intro H. injection H as <-. unfold np_maximum0. rewrite !length_map. reflexivity.
  - revert H. unfold _forecast_prophet. destruct (_ || _); [discriminate |].
    destruct (prophet_fit E _ _); [| discriminate].
    intro H. injection H as <-. apply np_maximum0_nonneg.
  - revert H. unfold _forecast_xgb. destruct (_ || _); [discriminate |].
    destruct (xgb_fit E _ _); [| discriminate].
    intro H. apply xgb_rollout_shape in H. tauto.
  - revert H. unfold _forecast_xgb. destruct (_ || _); [discriminate |].
    destruct (xgb_fit E _ _); [| discriminate].
    intro H. apply xgb_rollout_shape in H. tauto.
Qed.

Lemma strategies_contract_witness :
  _forecast_xgb demo_sales_externals history_five 3 = None.
Proof.
  destruct (strategies_contract demo_sales_externals history_five [] 3)
    as (_ & _ & H & _).
  apply H. left. vm_compute. reflexivity.
Defined.

Lemma xgb_rollout_steps (model : Q -> option Q) (n : nat) :
  forall history fc,
    xgb_rollout model history n = Some fc ->
    forall i, (i < n)%nat ->
      exists pred,
        model (match i with O => history | S j => nth j fc 0 end) = Some pred /\
        nth i fc 0 = Qmax pred 0.
Proof.
  induction n as [|n IH]; intros history fc H i Hi; [lia |].
  cbn [xgb_rollout] in H.
  destruct (model history) as [pred|] eqn:Hm; [| discriminate].
  destruct (xgb_rollout model (Qmax pred 0) n) as [rest|] eqn:Hr; [| discriminate].
  injection H as <-. destruct i as [|i].
  - exists pred. split; [exact Hm | reflexivity].
  - destruct (IH _ _ Hr i) as (p & Hp & Hn); [lia |].
    exists p. split; [| exact Hn].
    destruct i as [|i]; exact Hp.
Qed.

Lemma removelast_nth (l : list Q) (i : nat) :
  (S i < length l)%nat -> nth i (removelast l) 0 = nth i l 0.
Proof.
  revert i. induction l as [|a l IH]; intros i Hi; [simpl in Hi; lia |].
  destruct l as [|b l]; [simpl in Hi; lia |].
  change (removelast (a :: b :: l)) with (a :: removelast (b :: l)).
  destruct i as [|i]; [reflexivity |].
  cbn [nth]. apply IH. simpl in *. lia.
Qed.

Lemma removelast_length (l : list Q) : length (removelast l) = (length l - 1)%nat.
Proof.
  induction l as [|a l IH]; [reflexivity |].
  destruct l as [|b l]; [reflexivity |].
  change (removelast (a :: b :: l)) with (a :: removelast (b :: l)).
  cbn [length] in *. lia.
Qed.

(** X6.  A forecast of the XGBoost strategy comes from a regressor fitted
    on all consecutive pairs (previous value, next value) of the history,
    and is a recursive one-step rollout: the first value is the model's
    prediction from the last observation, every later value its prediction
    from the previous forecast value, each floored at zero. *)
Theorem xgb_forecast_is_rollout (E : Externals) (series : Series) (horizon : Z)
        (fc : list Q) :
  _forecast_xgb E series horizon = Some fc ->
  let values := series_values series in
  exists X y model,
    xgb_fit E X y = Some model /\
    length X = (length values - 1)%nat /\ length y = (length values - 1)%nat /\
    (forall i, (S i < length values)%nat ->
               nth i X 0 = nth i values 0 /\ nth i y 0 = nth (S i) values 0) /\
    forall i, (i < length fc)%nat ->
      exists pred,
        model (rollout_input values fc i) = Some pred /\
        nth i fc 0 = Qmax pred 0.
Proof.
  intros H values. unfold _forecast_xgb in H.
  destruct (_ || _); [discriminate |]. fold values in H.
  destruct (xgb_fit E (removelast values) (tl values)) as [model|] eqn:Hfit;
    [| discriminate].
  exists (removelast values), (tl values), model.
  split; [exact Hfit |]. split; [apply removelast_length |].
  split; [destruct values; simpl; lia |]. split.
  - intros i Hi. split; [apply removelast_nth; exact Hi |].
    destruct values; [simpl in Hi; lia | reflexivity].
  - intros i Hi. destruct (xgb_rollout_shape _ _ _ _ H) as [Hlen _].
    apply (xgb_rollout_steps _ _ _ _ H). lia.
Qed.

Lemma xgb_forecast_is_rollout_witness :
  exists fc,
    _forecast_xgb demo_sales_externals history_seven 2 = Some fc /\
    nth 1 fc 0 = Qmax (nth 0 fc 0 / 2) 0.
Proof.
  eexists. split; [reflexivity |].
  destruct (xgb_forecast_is_rollout demo_sales_externals history_seven 2 _ eq_refl)
    as (X & y & model & Hfit & _ & _ & _ & Hsteps).
  destruct (Hsteps 1%nat) as (pred & Hp & Hn); [simpl; lia |].
  assert (Hmodel : model = fun x => Some (x / 2)).
  { vm_compute in Hfit. injection Hfit as <-. reflexivity. }
  rewrite Hn. subst model. injection Hp as <-. reflexivity.
Defined.

(** ** The holdout split *)

Lemma n_val_bounds (len : nat) :
  (1 <= n_val_of len <= 3)%nat /\ (n_val_of len = 3%nat <-> (12 <= len)%nat) /\
  ((len < 8)%nat -> n_val_of len = 1%nat).
Proof.
  unfold n_val_of.
  assert (H4 : (len / 4 <= 2 <-> len < 12)%nat).
  { split; intro H.
    - destruct (Nat.lt_ge_cases len 12) as [Hl | Hl]; [exact Hl |].
      pose proof (Nat.Div0.div_le_mono 12 len 4 Hl) as Hd.
      change (12 / 4)%nat with 3%nat in Hd. lia.
    - assert (Hd : (len / 4 < 3)%nat) by (apply Nat.Div0.div_lt_upper_bound; lia).
      lia. }
  assert (H8 : (len < 8 -> len / 4 <= 1)%nat).
  { intro H. assert (Hd : (len / 4 < 2)%nat)
      by (apply Nat.Div0.div_lt_upper_bound; lia). lia. }
  lia.
Qed.

(** X7.  For a history of at least four observations the validation window
    is its last [n_val] observations and the training prefix the rest, with
    [1 <= n_val <= 3], at least three training observations, and
    [n_val = 3] exactly from twelve observations on. *)
Theorem holdout_split (series : Series) :
  (4 <= length series)%nat ->
  let n_val := n_val_of (length series) in
  (1 <= n_val <= 3)%nat /\
  (n_val = 3%nat <-> (12 <= length series)%nat) /\
  exists validation,
    series = train_of series ++ validation /\
    val_true_of series = series_values validation /\
    length validation = n_val /\
    length (train_of series) = (length series - n_val)%nat /\
    (3 <= length (train_of series))%nat.
Proof.
  intros Hlen n_val.
  destruct (n_val_bounds (length series)) as (Hb & H3 & H8).
  fold n_val in Hb, H3, H8.
  split; [exact Hb |]. split; [exact H3 |].
  exists (skipn (length series - n_val) series).
  unfold train_of, val_true_of. fold n_val.
  split; [symmetry; apply firstn_skipn |]. split; [reflexivity |].
  rewrite length_skipn, length_firstn. lia.
Qed.

Lemma holdout_split_witness :
  n_val_of (length history_five) = 1%nat /\
  length (train_of history_five) = 4%nat.
Proof.
  assert (Hlen : (4 <= length history_five)%nat) by (simpl; lia).
  destruct (holdout_split history_five Hlen) as (_ & _ & v & _ & _ & _ & Ht & _).
  split; [reflexivity | exact Ht].
Defined.

(** ** More on the model selector *)

Lemma forecast_with_name_known (E : Externals) (series : Series) (dates : list Z)
      (name : string) :
  In (snd (_forecast_with_name E series dates name)) known_models.
Proof.
  unfold _forecast_with_name, known_models.
  destruct (String.eqb name "arima"); [simpl; auto |].
  destruct (String.eqb name "prophet"); [simpl; auto |].
  destruct (String.eqb name "xgboost"); [simpl; auto |].
  destruct (String.eqb name "stub"); simpl; auto.
Qed.

Lemma validation_metrics_keys (E : Externals) (series : Series) (k : string) :
  In k (dict_keys (validation_metrics E series)) -> In k metric_keys.
Proof.
  unfold validation_metrics, metric_keys.
  destruct (arima_val E series), (prophet_val E series), (xgb_val E series);
    simpl; intuition.
Qed.

Lemma select_chosen_and_metrics (E : Externals) (series : Series) (dates : list Z)
      (forced : option string) :
  In (snd (fst (_select_model_and_forecast E series dates forced))) known_models /\
  (snd (_select_model_and_forecast E series dates forced) = []
   \/ snd (_select_model_and_forecast E series dates forced)
      = validation_metrics E series).
Proof.
  assert (Hstub : In "stub"%string known_models) by (simpl; auto).
  unfold _select_model_and_forecast.
  destruct (_ || _); [simpl; auto |].
  destruct (is_known_model forced).
  - destruct forced as [name|]; [| simpl; auto].
    pose proof (forecast_with_name_known E series dates name) as Hk.
    destruct (_forecast_with_name E series dates name) as [[fc|] chosen];
      simpl in *; auto.
  - destruct (validation_metrics E series) as [|kv m] eqn:Hm; [simpl; auto |].
    destruct (py_min_key _) as [best|]; [| simpl; auto].
    pose proof (forecast_with_name_known E series dates best) as Hk.
    destruct (_forecast_with_name E series dates best) as [[fc|] chosen];
      simpl in *; auto.
Qed.

(** X8.  Whatever the history, the horizon and the forced model, the
    selector returns a forecast with one value per horizon date, none of
    them negative, under one of the names arima, prophet, xgboost and stub,
    and every key of the metrics it reports is one of the six validation
    keys. *)
Theorem select_result_contract (E : Externals) (series : Series) (dates : list Z)
        (forced : option string) :
  length (fst (fst (_select_model_and_forecast E series dates forced)))
  = length dates /\
  (forall v, In v (fst (fst (_select_model_and_forecast E series dates forced)))
             -> 0 <= v) /\
  In (snd (fst (_select_model_and_forecast E series dates forced))) known_models /\
  (forall k, In k (dict_keys (snd (_select_model_and_forecast E series dates forced)))
             -> In k metric_keys).
Proof.
  destruct (select_shape E series dates forced) as [Hl Hn].
  destruct (select_chosen_and_metrics E series dates forced) as [Hc Hm].
  split; [exact Hl |]. split; [exact Hn |]. split; [exact Hc |].
  intros k. destruct Hm as [-> | ->]; [intros [] | apply validation_metrics_keys].
Qed.

(** X9.  Past the gate (four observations, a non-empty horizon) the
    validation pass runs before the forced model is looked at: the reported
    metrics are the validation metrics for every value of [forced_model],
    and a forced name that is not one of the four known names is ignored,
    the result being the one of auto-selection. *)
Theorem forced_model_does_not_skip_validation
        (E : Externals) (series : Series) (dates : list Z) :
  (4 <= series_len series)%Z ->
  (1 <= Z.of_nat (length dates))%Z ->
  (forall forced,
      snd (_select_model_and_forecast E series dates forced)
      = validation_metrics E series) /\
  (forall forced,
      is_known_model forced = false ->
      _select_model_and_forecast E series dates forced
      = _select_model_and_forecast E series dates None).
Proof.
  intros Hlen Hh. split.
  - intro forced. destruct (is_known_model forced) eqn:Hk.
    + destruct forced as [name|]; [| discriminate].
      assert (Hin : In name known_models).
      { unfold is_known_model in Hk. apply existsb_exists in Hk.
        destruct Hk as (x & Hx & Heq).
        apply String.eqb_eq in Heq. subst x. exact Hx. }
      rewrite (select_forced_eq E series dates name Hin Hlen Hh).
      destruct (_forecast_with_name E series dates name) as [[fc|] chosen];
        reflexivity.
    + rewrite (select_auto_eq E series dates forced Hk Hlen Hh).
      destruct (py_min_key _) as [best|]; [| reflexivity].
      destruct (_forecast_with_name E series dates best) as [[fc|] chosen];
        reflexivity.
  - intros forced Hk.
    rewrite (select_auto_eq E series dates forced Hk Hlen Hh).
    rewrite (select_auto_eq E series dates None eq_refl Hlen Hh). reflexivity.
Qed.

Lemma forced_model_does_not_skip_validation_witness :
  _select_model_and_forecast arima_only_externals history_five [10; 11]%Z
                             (Some "lstm"%string)
  = _select_model_and_forecast arima_only_externals history_five [10; 11]%Z None.
Proof.
  destruct (forced_model_does_not_skip_validation
              arima_only_externals history_five [10; 11]%Z) as [_ H].
  - vm_compute. discriminate.
  - simpl. lia.
  - apply H. reflexivity.
Defined.

(** X10.  Past the gate, a forced arima, prophet or xgboost that gives a
    forecast on the full history is the result, under its own name,
    whatever the validation scores; a forced stub gives the stub forecast;
    the validation metrics are reported in both cases. *)
Theorem forced_model_honoured
        (E : Externals) (series : Series) (dates : list Z) :
  (4 <= series_len series)%Z ->
  (1 <= Z.of_nat (length dates))%Z ->
  (forall name fc,
      In name ["arima"; "prophet"; "xgboost"]%string ->
      fst (_forecast_with_name E series dates name) = Some fc ->
      _select_model_and_forecast E series dates (Some name)
      = (fc, name, validation_metrics E series)) /\
  _select_model_and_forecast E series dates (Some "stub"%string)
  = stub_result E series dates (validation_metrics E series).
Proof.
  intros Hlen Hh. split.
  - intros name fc Hin Hfc.
    assert (Hk : In name known_models).
    { simpl in *. intuition. }
    rewrite (select_forced_eq E series dates name Hk Hlen Hh).
    assert (Hn : snd (_forecast_with_name E series dates name) = name).
    { apply forecast_with_name_chosen. simpl in Hin. intuition. }
    destruct (_forecast_with_name E series dates name) as [[fc'|] chosen];
      simpl in *; [| discriminate].
    congruence.
  - rewrite (select_forced_eq E series dates "stub"); [reflexivity | | exact Hlen | exact Hh].
    simpl. auto.
Qed.

Lemma forced_model_honoured_witness :
  snd (fst (_select_model_and_forecast demo_sales_externals history_seven
                                       [10; 11]%Z (Some "xgboost"%string)))
  = "xgboost"%string.
Proof.
  destruct (forced_model_honoured demo_sales_externals history_seven [10; 11]%Z)
    as [H _].
  - vm_compute. discriminate.
  - simpl. lia.
  - erewrite H; [reflexivity | simpl; auto | reflexivity].
Defined.

Lemma train_of_length_eq (series : Series) :
  length (train_of series) = (length series - n_val_of (length series))%nat.
Proof.
  unfold train_of. rewrite length_firstn. lia.
Qed.

Lemma val_true_of_length (series : Series) :
  (4 <= length series)%nat ->
  length (val_true_of series) = n_val_of (length series).
Proof.
  intro H. unfold val_true_of, series_values.
  rewrite length_map, length_skipn.
  destruct (n_val_bounds (length series)) as (Hb & _ & _). lia.
Qed.

Lemma arima_val_short (E : Externals) (series : Series) :
  (length series <= 4)%nat -> arima_val E series = None.
Proof.
  intro H. unfold arima_val, _forecast_arima.
  assert (G : (series_len (train_of series) <? 4)%Z = true).
  { apply Z.ltb_lt. unfold series_len. rewrite train_of_length_eq.
    destruct (n_val_bounds (length series)) as (Hb & _ & _). lia. }
  rewrite G. reflexivity.
Qed.

Lemma prophet_val_short (E : Externals) (series : Series) :
  (length series <= 4)%nat -> prophet_val E series = None.
Proof.
  intro H. unfold prophet_val, _forecast_prophet.
  assert (G : (series_len (train_of series) <? 4)%Z = true).
  { apply Z.ltb_lt. unfold series_len. rewrite train_of_length_eq.
    destruct (n_val_bounds (length series)) as (Hb & _ & _). lia. }
  rewrite G. reflexivity.
Qed.

Lemma xgb_val_short7 (E : Externals) (series : Series) :
  (length series < 7)%nat -> xgb_val E series = None.
Proof.
  intro H. unfold xgb_val, _forecast_xgb.
  assert (G : (series_len (train_of series) <? 6)%Z = true).
  { apply Z.ltb_lt. unfold series_len. rewrite train_of_length_eq.
    destruct (n_val_bounds (length series)) as (Hb & _ & _). lia. }
  rewrite G. reflexivity.
Qed.

(** X11.  Auto-selection needs more history than the strategies themselves:
    with exactly four observations the training prefix has three, no
    strategy is validated, and the result is the stub with no metrics; with
    fewer than seven observations XGBoost is never validated and so never
    chosen. *)
Theorem auto_selection_history_thresholds
        (E : Externals) (series : Series) (dates : list Z) (forced : option string) :
  is_known_model forced = false ->
  (1 <= Z.of_nat (length dates))%Z ->
  (length series = 4%nat ->
   _select_model_and_forecast E series dates forced = stub_result E series dates []) /\
  ((4 <= length series < 7)%nat ->
   snd (fst (_select_model_and_forecast E series dates forced)) <> "xgboost"%string).
Proof.
  intros Hk Hh. split.
  - intro Hlen.
    assert (Hl : (4 <= series_len series)%Z) by (unfold series_len; lia).
    rewrite (select_auto_eq E series dates forced Hk Hl Hh).
    unfold candidates, validation_metrics.
    rewrite arima_val_short, prophet_val_short, (xgb_val_short7 E series) by lia.
    reflexivity.
  - intro Hlen.
    assert (Hl : (4 <= series_len series)%Z) by (unfold series_len; lia).
    rewrite (select_auto_eq E series dates forced Hk Hl Hh).
    destruct (candidates E series) as [|kv rest] eqn:Hc; [simpl; discriminate |].
    destruct (py_min_key_first_min (kv :: rest)) as (pre & best & v & post & H1 & H2 & _);
      [discriminate |].
    rewrite H2.
    assert (Hin : In (best, v) (candidates E series)).
    { rewrite Hc, H1. apply in_or_app. right. left. reflexivity. }
    assert (Hbest : best = "arima"%string \/ best = "prophet"%string).
    { revert Hin. unfold candidates, candidate_entry.
      rewrite (xgb_val_short7 E series) by lia.
      destruct (arima_val E series), (prophet_val E series); simpl;
        intros H; repeat (destruct H as [H | H]; [inversion H; auto |]);
        contradiction. }
    assert (Hn : snd (_forecast_with_name E series dates best) = best).
    { apply forecast_with_name_chosen. tauto. }
    destruct (_forecast_with_name E series dates best) as [[fc|] chosen];
      simpl in *; [| discriminate].
    subst chosen. destruct Hbest as [-> | ->]; discriminate.
Qed.

Lemma auto_selection_history_thresholds_witness :
  _select_model_and_forecast demo_sales_externals
      [(1%Z, 3); (2%Z, 5); (3%Z, 4); (4%Z, 6)] [10; 11]%Z None
  = stub_result demo_sales_externals
      [(1%Z, 3); (2%Z, 5); (3%Z, 4); (4%Z, 6)] [10; 11]%Z [].
Proof.
  destruct (auto_selection_history_thresholds demo_sales_externals
              [(1%Z, 3); (2%Z, 5); (3%Z, 4); (4%Z, 6)] [10; 11]%Z None) as [H _].
  - reflexivity.
  - simpl. lia.
  - apply H. reflexivity.
Defined.

Lemma validation_forecast_lengths (E : Externals) (series : Series) (fc : list Q) :
  arima_val E series = Some fc \/ prophet_val E series = Some fc
  \/ xgb_val E series = Some fc ->
  length fc = n_val_of (length series).
Proof.
  intros [H | [H | H]].
  - unfold arima_val, _forecast_arima in H.
    destruct (_ || _); [discriminate |].
    destruct (arima_fit E _ _); [| discriminate].
    injection H as <-. unfold np_maximum0.
    rewrite !length_map, length_seq. lia.
  - unfold prophet_val, _forecast_prophet in H.
    destruct (_ || _); [discriminate |].
    destruct (prophet_fit E _ _); [| discriminate].
    injection H as <-. unfold np_maximum0, date_range_periods.
    rewrite !length_map, length_seq. reflexivity.
  - unfold xgb_val, _forecast_xgb in H.
    destruct (_ || _); [discriminate |].
    destruct (xgb_fit E _ _); [| discriminate].
    apply xgb_rollout_shape in H. destruct H as [H _]. lia.
Qed.

Lemma compute_mape_inf (y_true y_pred : list Q) :
  length y_true = length y_pred ->
  (forall t, In t y_true -> t <= 0) ->
  _compute_mape y_true y_pred = Inf.
Proof.
  intros Hlen H. unfold _compute_mape.
  apply (masked_nil_iff y_true y_pred Hlen) in H. rewrite H. reflexivity.
Qed.

Lemma candidates_all_inf (E : Externals) (series : Series) :
  (4 <= length series)%nat ->
  (forall t, In t (val_true_of series) -> t <= 0) ->
  forall kv, In kv (candidates E series) -> snd kv = Inf.
Proof.
  intros Hlen Hv kv. unfold candidates, candidate_entry.
  pose proof (val_true_of_length series Hlen) as Hvl.
  intro Hin.
  assert (Hmape : forall fc,
             arima_val E series = Some fc \/ prophet_val E series = Some fc
             \/ xgb_val E series = Some fc ->
             _compute_mape (val_true_of series) fc = Inf).
  { intros fc Hfc. apply compute_mape_inf; [| exact Hv].
    rewrite (validation_forecast_lengths E series fc Hfc). exact Hvl. }
  destruct (arima_val E series) as [fa|] eqn:Ha;
    destruct (prophet_val E series) as [fp|] eqn:Hp;
    destruct (xgb_val E series) as [fx|] eqn:Hx;
    simpl in Hin;
    repeat (destruct Hin as [<- | Hin]; [simpl; apply Hmape; auto |]);
    contradiction.
Qed.

Lemma py_min_from_all_inf (best : string * metric) (rest : dict metric) :
  (forall kv, In kv rest -> snd kv = Inf) -> py_min_from best rest = fst best.
Proof.
  revert best. induction rest as [|kv rest IH]; intros best H; [reflexivity |].
  simpl. rewrite (H kv (or_introl eq_refl)). simpl.
  apply IH. intros x Hx. apply H. right. exact Hx.
Qed.

(** X12.  When the validation window has no positive actual, every strategy
    that was validated has the MAPE [inf], and auto-selection takes the
    first of them in the order arima, prophet, xgboost: its forecast on the
    full history, or the stub when that gives none. *)
Theorem auto_selection_without_positive_actual
        (E : Externals) (series : Series) (dates : list Z) (forced : option string) :
  is_known_model forced = false ->
  (4 <= length series)%nat ->
  (1 <= Z.of_nat (length dates))%Z ->
  (forall t, In t (val_true_of series) -> t <= 0) ->
  (forall kv, In kv (candidates E series) -> snd kv = Inf) /\
  forall first m rest,
    candidates E series = (first, m) :: rest ->
    _select_model_and_forecast E series dates forced
    = match fst (_forecast_with_name E series dates first) with
      | Some fc => (fc, first, validation_metrics E series)
      | None => stub_result E series dates (validation_metrics E series)
      end.
Proof.
  intros Hk Hlen Hh Hv.
  pose proof (candidates_all_inf E series Hlen Hv) as Hinf.
  split; [exact Hinf |].
  intros first m rest Hc.
  assert (Hl : (4 <= series_len series)%Z) by (unfold series_len; lia).
  rewrite (select_auto_eq E series dates forced Hk Hl Hh), Hc.
  cbn [py_min_key]. rewrite py_min_from_all_inf.
  2:{ intros kv Hin. apply Hinf. rewrite Hc. right. exact Hin. }
  cbn [fst].
  assert (Hn : snd (_forecast_with_name E series dates first) = first).
  { apply forecast_with_name_chosen.
    apply (candidates_names E series first m). rewrite Hc. left. reflexivity. }
  destruct (_forecast_with_name E series dates first) as [[fc|] chosen];
    simpl in *; subst; reflexivity.
Qed.

Lemma auto_selection_without_positive_actual_witness :
  snd (fst (_select_model_and_forecast arima_only_externals history_zero_tail
                                       [10; 11]%Z None)) = "arima"%string.
Proof.
  destruct (auto_selection_without_positive_actual
              arima_only_externals history_zero_tail [10; 11]%Z None) as [_ H].
  - reflexivity.
  - simpl. lia.
  - simpl. lia.
  - intros t Ht. vm_compute in Ht. destruct Ht as [<- | []]. lra.
  - rewrite (H "arima"%string Inf []); reflexivity.
Defined.

(** ** More on the orchestrator *)

Lemma forecast_sku_appends (E : Externals) (request : ForecastRequest)
      (date_index : list Z) (st : EnsembleState) (sku_ : string) :
  points (forecast_sku E request date_index st sku_)
  = points st ++ sku_points E request date_index sku_.
Proof.
  unfold sku_points, forecast_sku.
  destruct (match _prepare_history E sku_ (location request) with
            | [] => _
            | _ => _
            end) as [[mean_values chosen] metrics].
  reflexivity.
Qed.

Lemma forecast_loop_flat_map (E : Externals) (request : ForecastRequest)
      (date_index : list Z) (skus : list string) :
  forall st,
    points (fold_left (forecast_sku E request date_index) skus st)
    = points st ++ flat_map (sku_points E request date_index) skus.
Proof.
  induction skus as [|s skus IH]; intro st; simpl.
  - rewrite app_nil_r. reflexivity.
  - rewrite IH, forecast_sku_appends, <- app_assoc. reflexivity.
Qed.

Lemma date_range_day_length (start end_ : Z) :
  length (date_range start end_ day) = Z.to_nat (end_ - start + 1).
Proof.
  unfold date_range. rewrite length_map, length_seq. reflexivity.
Qed.

Lemma date_range_empty (start end_ : Z) (freq : TimeGranularity) :
  (end_ < start)%Z -> date_range start end_ freq = [].
Proof.
  intro H. unfold date_range.
  replace (Z.to_nat (end_ - start + 1)) with 0%nat by lia.
  destruct freq; reflexivity.
Qed.

(** X13.  A forecast has as many points as the SKU list has entries times
    the date index has dates: with daily granularity and
    [start_date <= end_date] that is the number of SKUs times the number of
    days, and with [end_date < start_date] there is no point at all. *)
Theorem forecast_point_count (E : Externals) (request : ForecastRequest) :
  let pts := fst (fst (generate_ensemble_forecast E request)) in
  length pts
  = (length (sku_list request)
     * length (date_range (start_date request) (end_date request)
                          (granularity request)))%nat /\
  (granularity request = day ->
   (start_date request <= end_date request)%Z ->
   Z.of_nat (length pts)
   = (Z.of_nat (length (sku_list request))
      * (end_date request - start_date request + 1))%Z) /\
  ((end_date request < start_date request)%Z -> pts = []).
Proof.
  intro pts.
  destruct (forecast_loop_points E request
              (date_range (start_date request) (end_date request) (granularity request))
              (sku_list request) empty_ensemble_state) as [Hkeys _].
  assert (Hlen : length pts
                 = (length (sku_list request)
                    * length (date_range (start_date request) (end_date request)
                                         (granularity request)))%nat).
  { rewrite <- length_prod, <- (length_map point_key). f_equal. exact Hkeys. }
  split; [exact Hlen |]. split.
  - intros Hday Hle. rewrite Hlen, Hday, date_range_day_length. lia.
  - intro Hlt. apply length_zero_iff_nil. rewrite Hlen.
    rewrite (date_range_empty _ _ _ Hlt). simpl. lia.
Qed.

Lemma forecast_point_count_witness :
  Z.of_nat (length (fst (fst (generate_ensemble_forecast demo_sales_externals
                                                        request_two_skus))))
  = 14%Z.
Proof.
  destruct (forecast_point_count demo_sales_externals request_two_skus)
    as (_ & H & _).
  rewrite H; [reflexivity | reflexivity | simpl; lia].
Defined.

(** X14.  The SKUs of a request do not interact: the points of a request
    are the points each SKU gets on its own, one SKU after the other, so the
    forecast of a SKU list split in two is the forecast of the first part
    followed by the forecast of the second. *)
Theorem forecast_is_per_sku (E : Externals) (request : ForecastRequest) :
  fst (fst (generate_ensemble_forecast E request))
  = flat_map (fun s => fst (fst (generate_ensemble_forecast E (with_skus request [s]))))
             (sku_list request) /\
  forall l1 l2,
    fst (fst (generate_ensemble_forecast E (with_skus request (l1 ++ l2))))
    = fst (fst (generate_ensemble_forecast E (with_skus request l1)))
      ++ fst (fst (generate_ensemble_forecast E (with_skus request l2))).
Proof.
  assert (Hall : forall l,
             fst (fst (generate_ensemble_forecast E (with_skus request l)))
             = flat_map (sku_points E request
                           (date_range (start_date request) (end_date request)
                                       (granularity request))) l).
  { intro l. unfold generate_ensemble_forecast. cbn [fst].
    cbn [with_skus sku_list start_date end_date granularity].
    rewrite (forecast_loop_flat_map E (with_skus request l)). cbn [points app].
    apply flat_map_ext. intro s. unfold sku_points, forecast_sku. reflexivity. }
  split.
  - transitivity (fst (fst (generate_ensemble_forecast
                              E (with_skus request (sku_list request))))).
    + destruct request; reflexivity.
    + rewrite Hall. apply flat_map_ext. intro s. rewrite Hall. simpl.
      rewrite app_nil_r. reflexivity.
  - intros l1 l2. rewrite !Hall. apply flat_map_app.
Qed.

(** ** Keys of the orchestrator's dictionaries *)

Lemma list_ascii_app (s t : string) :
  list_ascii_of_string (s ++ t)
  = list_ascii_of_string s ++ list_ascii_of_string t.
Proof.
  induction s as [|c s IH]; simpl; [reflexivity | rewrite IH; reflexivity].
Qed.

Lemma append_inj_l (s1 s2 t : string) :
  (s1 ++ t)%string = (s2 ++ t)%string -> s1 = s2.
Proof.
  intro H. apply (f_equal list_ascii_of_string) in H.
  rewrite !list_ascii_app in H. apply app_inv_tail in H.
  rewrite <- (string_of_list_ascii_of_string s1),
          <- (string_of_list_ascii_of_string s2), H.
  reflexivity.
Qed.

(** A key that ends in a validation key is not a [".chosen_model"] key. *)
Lemma metric_key_not_chosen (s s' k : string) :
  In k metric_keys ->
  String.eqb (s' ++ "." ++ k) (s ++ ".chosen_model") = false.
Proof.
  intro Hk. apply String.eqb_neq. intro H.
  apply (f_equal list_ascii_of_string) in H. rewrite !list_ascii_app in H.
  apply (f_equal (@rev _)) in H. rewrite !rev_app_distr in H.
  unfold metric_keys in Hk. simpl in Hk.
  repeat (destruct Hk as [<- | Hk]; [simpl in H; discriminate |]).
  contradiction.
Qed.

Lemma metrics_fold_keeps_chosen (s s' : string) (metrics : dict metric) :
  (forall k, In k (dict_keys metrics) -> In k metric_keys) ->
  forall g,
    dict_get (fold_left (fun g kv => dict_set g (s' ++ "." ++ fst kv)%string (snd kv))
                        metrics g)
             (s ++ ".chosen_model")
    = dict_get g (s ++ ".chosen_model").
Proof.
  induction metrics as [|kv metrics IH]; intros Hk g; [reflexivity |].
  cbn [fold_left]. rewrite IH.
  - rewrite dict_get_set, metric_key_not_chosen; [reflexivity |].
    apply Hk. left. reflexivity.
  - intros k Hin. apply Hk. right. exact Hin.
Qed.

Lemma select_metrics_keys (E : Externals) (series : Series) (dates : list Z)
      (forced : option string) (k : string) :
  In k (dict_keys (snd (_select_model_and_forecast E series dates forced))) ->
  In k metric_keys.
Proof.
  destruct (select_chosen_and_metrics E series dates forced) as [_ [-> | ->]];
    [intros [] | apply validation_metrics_keys].
Qed.

(** What one pass of the loop writes under a SKU's name and under a
    [".chosen_model"] key. *)
Lemma forecast_sku_dicts (E : Externals) (request : ForecastRequest)
      (st : EnsembleState) (s' s : string) :
  let st' := forecast_sku E request
               (date_range (start_date request) (end_date request)
                           (granularity request)) st s' in
  dict_get (st_per_sku_model st') s
  = (if String.eqb s' s then Some (chosen_model_of E request s')
     else dict_get (st_per_sku_model st) s) /\
  dict_get (global_metrics st') (s ++ ".chosen_model")
  = (if String.eqb s' s
     then Some (Fin (chosen_model_code (chosen_model_of E request s')))
     else dict_get (global_metrics st) (s ++ ".chosen_model")).
Proof.
  intro st'. subst st'. unfold forecast_sku, chosen_model_of.
  destruct (_prepare_history E s' (location request)) as [|h hs] eqn:Hh.
  - cbn [st_per_sku_model global_metrics fold_left].
    rewrite !dict_get_set. split; [reflexivity |].
    destruct (String.eqb_spec s' s) as [-> | Hne].
    + rewrite String.eqb_refl. reflexivity.
    + assert (Hk : String.eqb (s' ++ ".chosen_model") (s ++ ".chosen_model") = false).
      { apply String.eqb_neq. intro H. apply append_inj_l in H. contradiction. }
      rewrite Hk. reflexivity.
  - pose proof (select_metrics_keys E (h :: hs)
                  (date_range (start_date request) (end_date request)
                              (granularity request)) (forced_model request)) as Hkeys.
    destruct (_select_model_and_forecast E (h :: hs) _ (forced_model request))
      as [[mean_values chosen] metrics].
    cbn [st_per_sku_model global_metrics fst snd] in *.
    rewrite !dict_get_set. split; [reflexivity |].
    destruct (String.eqb_spec s' s) as [-> | Hne].
    + rewrite String.eqb_refl. reflexivity.
    + assert (Hk : String.eqb (s' ++ ".chosen_model") (s ++ ".chosen_model") = false).
      { apply String.eqb_neq. intro H. apply append_inj_l in H. contradiction. }
      rewrite Hk. apply metrics_fold_keeps_chosen. exact Hkeys.
Qed.

Lemma forecast_loop_dicts (E : Externals) (request : ForecastRequest)
      (skus : list string) (s : string) :
  forall st,
    let st' := fold_left (forecast_sku E request
                            (date_range (start_date request) (end_date request)
                                        (granularity request))) skus st in
    dict_get (st_per_sku_model st') s
    = (if string_in s skus then Some (chosen_model_of E request s)
       else dict_get (st_per_sku_model st) s) /\
    dict_get (global_metrics st') (s ++ ".chosen_model")
    = (if string_in s skus
       then Some (Fin (chosen_model_code (chosen_model_of E request s)))
       else dict_get (global_metrics st) (s ++ ".chosen_model")).
Proof.
  unfold string_in. induction skus as [|s' skus IH]; intro st.
  - simpl. auto.
  - cbn [fold_left existsb].
    destruct (IH (forecast_sku E request
                    (date_range (start_date request) (end_date request)
                                (granularity request)) st s')) as [IH1 IH2].
    destruct (forecast_sku_dicts E request st s' s) as [H1 H2].
    cbv zeta in *. rewrite IH1, IH2, H1, H2.
    rewrite (String.eqb_sym s s').
    destruct (String.eqb_spec s' s) as [-> | Hne];
      destruct (existsb (String.eqb s) skus); auto.
Qed.

Lemma chosen_model_of_known (E : Externals) (request : ForecastRequest) (s : string) :
  In (chosen_model_of E request s) known_models.
Proof.
  unfold chosen_model_of.
  destruct (_prepare_history E s (location request)); [simpl; auto |].
  apply select_chosen_and_metrics.
Qed.

Lemma string_in_iff (s : string) (l : list string) :
  string_in s l = true <-> In s l.
Proof.
  unfold string_in. rewrite existsb_exists. split.
  - intros (x & Hx & Heq). apply String.eqb_eq in Heq. subst. exact Hx.
  - intro H. exists s. split; [exact H | apply String.eqb_refl].
Qed.

(** X15.  The metadata's [per_sku_model] has an entry exactly for the
    requested SKUs, and the entry of a SKU is the model its own history
    selects, one of the four known names ("stub" for a SKU without
    history). *)
Theorem per_sku_model_entries (E : Externals) (request : ForecastRequest) (s : string) :
  let metadata := snd (fst (generate_ensemble_forecast E request)) in
  (In s (sku_list request) ->
   dict_get (per_sku_model metadata) s = Some (chosen_model_of E request s) /\
   In (chosen_model_of E request s) known_models /\
   (_prepare_history E s (location request) = [] ->
    chosen_model_of E request s = "stub"%string)) /\
  (~ In s (sku_list request) -> dict_get (per_sku_model metadata) s = None).
Proof.
  intro metadata. subst metadata. unfold generate_ensemble_forecast.
  cbn [fst snd per_sku_model].
  destruct (forecast_loop_dicts E request (sku_list request) s
              empty_ensemble_state) as [H _].
  cbv zeta in H. fold empty_ensemble_state. rewrite H. split.
  - intro Hin. apply string_in_iff in Hin. rewrite Hin.
    split; [reflexivity |]. split; [apply chosen_model_of_known |].
    intro Hh. unfold chosen_model_of. rewrite Hh. reflexivity.
  - intro Hnin. destruct (string_in s (sku_list request)) eqn:Hs; [| reflexivity].
    apply string_in_iff in Hs. contradiction.
Qed.

Lemma per_sku_model_entries_witness :
  dict_get (per_sku_model (snd (fst (generate_ensemble_forecast
                                       demo_sales_externals request_two_skus))))
           "SKU-002"
  = Some "stub"%string.
Proof.
  destruct (per_sku_model_entries demo_sales_externals request_two_skus "SKU-002")
    as [H _].
  destruct H as (Hget & _ & _); [simpl; auto |].
  rewrite Hget. reflexivity.
Defined.

(** X16.  For every requested SKU the forecast metrics hold, under
    ["<sku>.chosen_model"], the code of the model recorded for that SKU in
    [per_sku_model]: 0 for stub, 1 for arima, 2 for prophet, 3 for xgboost,
    and never the code -1 of an unknown model. *)
Theorem chosen_model_code_entries (E : Externals) (request : ForecastRequest)
        (s : string) :
  In s (sku_list request) ->
  let out := generate_ensemble_forecast E request in
  exists model code,
    dict_get (per_sku_model (snd (fst out))) s = Some model /\
    dict_get (snd out) (s ++ ".chosen_model") = Some (Fin code) /\
    code = chosen_model_code model /\
    In (model, code)
       [("stub", 0); ("arima", 1); ("prophet", 2); ("xgboost", 3)]%string.
Proof.
  intros Hin out. subst out. unfold generate_ensemble_forecast.
  cbn [fst snd per_sku_model].
  destruct (forecast_loop_dicts E request (sku_list request) s
              empty_ensemble_state) as [H1 H2].
  cbv zeta in H1, H2. fold empty_ensemble_state.
  apply string_in_iff in Hin. rewrite Hin in H1, H2.
  exists (chosen_model_of E request s),
         (chosen_model_code (chosen_model_of E request s)).
  split; [exact H1 |]. split; [exact H2 |]. split; [reflexivity |].
  pose proof (chosen_model_of_known E request s) as Hk.
  unfold known_models in Hk. simpl in Hk.
  destruct Hk as [<- | [<- | [<- | [<- | []]]]]; simpl; auto.
Qed.

Lemma chosen_model_code_entries_witness :
  dict_get (snd (generate_ensemble_forecast demo_sales_externals request_two_skus))
           "SKU-001.chosen_model"
  <> Some (Fin (-1)).
Proof.
  destruct (chosen_model_code_entries demo_sales_externals request_two_skus "SKU-001")
    as (model & code & _ & Hget & _ & Hin).
  - simpl. auto.
  - intro Habs.
    assert (Hget' : dict_get (snd (generate_ensemble_forecast
                                     demo_sales_externals request_two_skus))
                             "SKU-001.chosen_model" = Some (Fin code))
      by exact Hget.
    rewrite Hget' in Habs. injection Habs as ->. simpl in Hin.
    destruct Hin as [H | [H | [H | [H | []]]]]; inversion H.
Defined.

(** ** More on the demand summary and the planner *)

Lemma first_seen_in (l : list string) (x : string) :
  In x (first_seen l) <-> In x l.
Proof.
  induction l as [|a l IH]; simpl; [tauto |].
  rewrite filter_In, IH, negb_true_iff, String.eqb_neq.
  destruct (string_dec a x) as [-> | Hne]; [tauto |].
  split; [tauto |]. intros [H | H]; [contradiction |]. right. split; [exact H |].
  intro Heq. subst. contradiction.
Qed.

Lemma first_seen_snoc (l : list string) (x : string) :
  first_seen (l ++ [x])
  = if string_in x l then first_seen l else first_seen l ++ [x].
Proof.
  unfold string_in. induction l as [|a l IH]; [reflexivity |].
  cbn [app first_seen existsb]. rewrite IH.
  destruct (String.eqb_spec x a) as [-> | Hne]; cbn [orb].
  - destruct (existsb (String.eqb a) l); [reflexivity |].
    rewrite filter_app. cbn [filter]. rewrite String.eqb_refl. cbn [negb].
    rewrite app_nil_r. reflexivity.
  - destruct (existsb (String.eqb x) l); [reflexivity |].
    rewrite filter_app. cbn [filter].
    assert (Hxa : String.eqb x a = false) by (apply String.eqb_neq; exact Hne).
    rewrite Hxa. reflexivity.
Qed.

Lemma dict_mem_keys {V : Type} (d : dict V) (k : string) :
  dict_mem d k = string_in k (dict_keys d).
Proof.
  unfold dict_mem. destruct (dict_get d k) eqn:Hg.
  - symmetry. apply string_in_iff. apply dict_get_in in Hg.
    unfold dict_keys. apply in_map_iff. exists (k, v). auto.
  - symmetry. apply not_true_is_false. intro H. apply string_in_iff in H.
    apply dict_get_none_keys in Hg. contradiction.
Qed.

Lemma string_in_ext (x : string) (l l' : list string) :
  (forall y, In y l <-> In y l') -> string_in x l = string_in x l'.
Proof.
  intro H. destruct (string_in x l) eqn:H1; symmetry.
  - apply string_in_iff. apply H. apply string_in_iff. exact H1.
  - apply not_true_is_false. intro H2. apply string_in_iff in H2.
    apply H in H2. apply string_in_iff in H2. congruence.
Qed.

Lemma dict_set_sum (d : dict Q) (k : string) (v : Q) :
  py_sum (dict_values (dict_set d k v))
  == py_sum (dict_values d)
     - match dict_get d k with Some v0 => v0 | None => 0 end + v.
Proof.
  unfold dict_values. induction d as [|[k0 v0] d IH].
  - simpl. rewrite py_sum_single, py_sum_nil. ring.
  - cbn [dict_set dict_get]. destruct (String.eqb k0 k).
    + cbn [map snd]. rewrite !py_sum_cons. ring.
    + cbn [map snd]. rewrite !py_sum_cons, IH. ring.
Qed.

(** X17.  The demand summary has one key per SKU, in the order in which the
    SKUs first occur among the points, and its values add up to the sum of
    all point means: no demand is lost or counted twice. *)
Theorem summarize_demand_conserves (pts : list ForecastPoint) :
  dict_keys (fst (fst (summarize_demand pts))) = first_seen (map sku pts) /\
  py_sum (dict_values (fst (fst (summarize_demand pts))))
  == py_sum (map mean pts).
Proof.
  induction pts as [|p pts IH] using rev_ind.
  - split; reflexivity.
  - rewrite summarize_demand_snoc.
    destruct (summarize_demand pts) as [[dem mn] mx]. simpl in IH.
    destruct IH as [Hk Hs].
    simpl summarize_step. cbv beta iota. simpl fst. unfold demand_add. split.
    + rewrite dict_set_keys, map_app. cbn [map].
      rewrite first_seen_snoc, dict_mem_keys, Hk.
      rewrite (string_in_ext (sku p) (first_seen (map sku pts)) (map sku pts))
        by (intro y; apply first_seen_in).
      reflexivity.
    + rewrite dict_set_sum, map_app, py_sum_app, Hs. cbn [map].
      rewrite py_sum_single. ring.
Qed.

Lemma entry_guards_agree (x : Q) : Qltb 0.0 (x * 0.4) = Qltb 0.0 (x * 0.6).
Proof.
  destruct (Qltb 0.0 (x * 0.4)) eqn:H4; destruct (Qltb 0.0 (x * 0.6)) eqn:H6;
    try reflexivity;
    try apply Qltb_lt in H4; try apply Qltb_ge in H4;
    try apply Qltb_lt in H6; try apply Qltb_ge in H6; lra.
Qed.

Lemma entries_pair_up (constraints : InventoryConstraints)
      (location_ : option string) (m h : Z) (items : dict Q) :
  map order_sku (flat_map (order_entry constraints location_ m h) items)
  = map production_sku (flat_map (production_entry constraints m h) items) /\
  Forall2 (fun o r => production_quantity r == 1.5 * order_quantity o /\
                      production_date r = order_date o)
          (flat_map (order_entry constraints location_ m h) items)
          (flat_map (production_entry constraints m h) items).
Proof.
  induction items as [|it items [IH1 IH2]]; [split; constructor |].
  cbn [flat_map]. unfold order_entry at 1 3, production_entry at 1 3. cbv zeta.
  rewrite <- entry_guards_agree.
  destruct (Qltb 0.0 _); cbn [app map]; split; auto.
  - f_equal. exact IH1.
  - constructor; [| exact IH2]. cbn [production_quantity order_quantity
                                      production_date order_date].
    split; [ring | reflexivity].
Qed.

Lemma order_skus_nodup (constraints : InventoryConstraints)
      (location_ : option string) (m h : Z) (items : dict Q) :
  NoDup (dict_keys items) ->
  NoDup (map order_sku (flat_map (order_entry constraints location_ m h) items)).
Proof.
  unfold dict_keys. induction items as [|it items IH]; intro Hnd; [constructor |].
  cbn [map] in Hnd. inversion Hnd as [|x l Hnin Hnd']; subst.
  cbn [flat_map]. rewrite map_app. unfold order_entry at 1. cbv zeta.
  destruct (Qltb 0.0 _); cbn [map app]; [| apply IH; exact Hnd'].
  constructor; [| apply IH; exact Hnd'].
  cbn [order_sku]. intro Hin. apply in_map_iff in Hin.
  destruct Hin as (o & Ho & Hin). apply order_entry_in in Hin.
  destruct Hin as (s & td & Hitem & _ & ->). cbn [order_sku] in Ho. subst s.
  apply Hnin. apply in_map_iff. exists (fst it, td). auto.
Qed.

(** X18.  Purchase orders and production recommendations come in pairs:
    the plan has them for the same SKUs in the same order, at most one of
    each per SKU and only for SKUs of the forecast; the production quantity
    of a SKU is one and a half times its order quantity, on the same date;
    every order carries the caller's location label and the type
    "purchase", every production recommendation the line "LINE-1". *)
Theorem orders_and_production_pair_up
        (pts : list ForecastPoint) (constraints : InventoryConstraints)
        (location_ : option string) :
  let orders_ := fst (fst (generate_supply_plan pts constraints location_)) in
  let production_ := snd (fst (generate_supply_plan pts constraints location_)) in
  map order_sku orders_ = map production_sku production_ /\
  NoDup (map order_sku orders_) /\
  Forall2 (fun o r => production_quantity r == 1.5 * order_quantity o /\
                      production_date r = order_date o)
          orders_ production_ /\
  (forall o, In o orders_ ->
             order_location o = location_ /\ order_type o = "purchase"%string /\
             exists p, In p pts /\ sku p = order_sku o) /\
  (forall r, In r production_ -> line_id r = Some "LINE-1"%string).
Proof.
  intros orders_ production_. subst orders_ production_.
  destruct pts as [|p0 pts0].
  - simpl. split; [reflexivity |]. split; [constructor |].
    split; [constructor |]. split; intros x [].
  - set (pts := p0 :: pts0).
    assert (Hne : pts <> []) by discriminate.
    destruct (summarize_nonempty pts Hne) as (dem & m & M & Hs & _).
    rewrite (generate_supply_plan_eq pts constraints location_ dem m M Hs).
    cbn [fst snd].
    destruct (entries_pair_up constraints location_ m (M - m + 1) dem) as [H1 H2].
    split; [exact H1 |]. split.
    { apply order_skus_nodup.
      destruct (summarize_demand_dict pts) as (Hnd & _). rewrite Hs in Hnd.
      exact Hnd. }
    split; [exact H2 |]. split.
    + intros o Ho. apply order_entry_in in Ho.
      destruct Ho as (s & td & Hin & _ & ->). cbn [order_location order_type order_sku].
      split; [reflexivity |]. split; [reflexivity |].
      apply (summarize_demand_in pts s td). rewrite Hs. exact Hin.
    + intros r Hr. apply production_entry_in in Hr.
      destruct Hr as (s & td & _ & _ & ->). reflexivity.
Qed.

Lemma entries_sum_bounds (constraints : InventoryConstraints)
      (location_ : option string) (m h : Z) (items : dict Q) :
  py_sum (map (fun it => total_required_of (snd it) h constraints) items)
  <= py_sum (map order_quantity (flat_map (order_entry constraints location_ m h) items))
     + py_sum (map production_quantity
                   (flat_map (production_entry constraints m h) items)) /\
  0 <= py_sum (map order_quantity (flat_map (order_entry constraints location_ m h) items))
       + py_sum (map production_quantity
                     (flat_map (production_entry constraints m h) items)).
Proof.
  induction items as [|it items [IH1 IH2]].
  - simpl. rewrite py_sum_nil. split; lra.
  - cbn [flat_map map]. rewrite !map_app, !py_sum_app, py_sum_cons.
    unfold order_entry at 1 3, production_entry at 1 3. cbv zeta.
    destruct (Qltb 0.0 (_ * 0.4)) eqn:H4;
      destruct (Qltb 0.0 (_ * 0.6)) eqn:H6; cbn [map];
      rewrite ?py_sum_single, ?py_sum_nil;
      try apply Qltb_lt in H4; try apply Qltb_ge in H4;
      try apply Qltb_lt in H6; try apply Qltb_ge in H6;
      cbn [order_quantity production_quantity]; split; lra.
Qed.

(** X19.  For every plan, whatever the signs of the means and of the lead
    time, the "Total Volume" KPI is at most the sum of the order and
    production quantities (SKUs with a non-positive requirement are left out
    of the recommendations but stay in the KPI), and that sum is never
    negative. *)
Theorem total_volume_at_most_recommended
        (pts : list ForecastPoint) (constraints : InventoryConstraints)
        (location_ : option string) :
  let out := generate_supply_plan pts constraints location_ in
  0 <= py_sum (map order_quantity (fst (fst out)))
       + py_sum (map production_quantity (snd (fst out))) /\
  forall k,
    In k (snd out) -> kpi_name k = "Total Volume"%string ->
    kpi_value k <= py_sum (map order_quantity (fst (fst out)))
                   + py_sum (map production_quantity (snd (fst out))).
Proof.
  intro out. subst out. destruct pts as [|p0 pts0].
  - simpl. rewrite py_sum_nil. split; [lra | intros k []].
  - set (pts := p0 :: pts0).
    assert (Hne : pts <> []) by discriminate.
    destruct (summarize_nonempty pts Hne) as (dem & m & M & Hs & _).
    rewrite (generate_supply_plan_eq pts constraints location_ dem m M Hs).
    cbn [fst snd].
    destruct (entries_sum_bounds constraints location_ m (M - m + 1) dem) as [H1 H2].
    split; [exact H2 |].
    intros k [<- | [<- | []]] Hname; [| simpl in Hname; discriminate].
    cbn [kpi_value]. rewrite fold_left_Qplus_acc. lra.
Qed.

(** ** More on the scenario engine *)

Lemma Permutation_filter_compat {A : Type} (f : A -> bool) (l l' : list A) :
  Permutation l l' -> Permutation (filter f l) (filter f l').
Proof.
  induction 1 as [| x l l' _ IH | x y l | l l' l'' _ IH1 _ IH2]; simpl.
  - constructor.
  - destruct (f x); [constructor |]; exact IH.
  - destruct (f x), (f y); try apply Permutation_refl.
    apply perm_swap.
  - eapply Permutation_trans; eassumption.
Qed.

Lemma py_sum_permutation (l l' : list Q) : Permutation l l' -> py_sum l == py_sum l'.
Proof.
  induction 1 as [| x l l' _ IH | x y l | l l' l'' _ IH1 _ IH2].
  - reflexivity.
  - rewrite !py_sum_cons, IH. reflexivity.
  - rewrite !py_sum_cons. ring.
  - rewrite IH1. exact IH2.
Qed.

Lemma Qnat_S (n : nat) : Qnat (S n) == Qnat n + 1.
Proof.
  unfold Qnat. rewrite Nat2Z.inj_succ. unfold Z.succ.
  rewrite inject_Z_plus. reflexivity.
Qed.

Lemma py_sum_constant (l : list Q) (f : Q) :
  (forall x, In x l -> x == f) -> py_sum l == Qnat (length l) * f.
Proof.
  induction l as [|x l IH]; intro H.
  - rewrite py_sum_nil. simpl. unfold Qnat. simpl. ring.
  - pose proof (H x (or_introl eq_refl)) as Hx.
    assert (Hl : py_sum l == Qnat (length l) * f)
      by (apply IH; intros y Hy; apply H; right; exact Hy).
    cbn [length]. rewrite py_sum_cons, Hl, Qnat_S.
    generalize (Qnat (length l)). intro n. rewrite Hx. ring.
Qed.

Lemma average_demand_factor_eq (request : ScenarioRequest) :
  average_demand_factor request
  == match demand_factors_of request with
     | [] => 1
     | _ => py_sum (demand_factors_of request)
            / Qnat (length (demand_factors_of request))
     end.
Proof.
  unfold average_demand_factor. destruct (demand_factors_of request); reflexivity.
Qed.

(** X20.  The scenario KPI does not depend on the order of the shocks:
    two requests whose shock lists are permutations of each other give the
    same base, and equal scenario volume and delta. *)
Theorem scenario_kpi_permutation_invariant
        (plan : PlanResponse) (request request' : ScenarioRequest) :
  Permutation (shocks request) (shocks request') ->
  exists k k',
    compute_scenario_kpis plan request = [k] /\
    compute_scenario_kpis plan request' = [k'] /\
    skpi_base k' = skpi_base k /\
    skpi_scenario k' == skpi_scenario k /\
    skpi_delta k' == skpi_delta k.
Proof.
  intro Hperm. eexists. eexists.
  split; [reflexivity |]. split; [reflexivity |].
  cbn [skpi_base skpi_scenario skpi_delta].
  assert (Hf : average_demand_factor request' == average_demand_factor request).
  { rewrite !average_demand_factor_eq.
    assert (Hp : Permutation (demand_factors_of request') (demand_factors_of request)).
    { unfold demand_factors_of. apply Permutation_map.
      apply Permutation_filter_compat. apply Permutation_sym. exact Hperm. }
    pose proof (Permutation_length Hp) as Hl.
    pose proof (py_sum_permutation _ _ Hp) as Hs.
    destruct (demand_factors_of request') as [|a l];
      destruct (demand_factors_of request) as [|b l']; try discriminate.
    - reflexivity.
    - rewrite Hs, Hl. reflexivity. }
  split; [reflexivity |]. rewrite Hf. split; reflexivity.
Qed.

Lemma scenario_kpi_permutation_invariant_witness :
  exists k k',
    compute_scenario_kpis demo_plan
      {| req_forecast_id := "f1"; req_plan_id := None; req_name := None;
         shocks := [demand_shock 1.2; demand_shock 0.9] |} = [k] /\
    compute_scenario_kpis demo_plan
      {| req_forecast_id := "f1"; req_plan_id := None; req_name := None;
         shocks := [demand_shock 0.9; demand_shock 1.2] |} = [k'] /\
    skpi_delta k' == skpi_delta k.
Proof.
  destruct (scenario_kpi_permutation_invariant demo_plan
      {| req_forecast_id := "f1"; req_plan_id := None; req_name := None;
         shocks := [demand_shock 1.2; demand_shock 0.9] |}
      {| req_forecast_id := "f1"; req_plan_id := None; req_name := None;
         shocks := [demand_shock 0.9; demand_shock 1.2] |})
    as (k & k' & H1 & H2 & _ & _ & H3).
  - apply perm_swap.
  - exists k, k'. auto.
Defined.

(** X21.  When the request has at least one demand shock and every demand
    shock has the factor [f], the scenario volume is [f] times the base
    volume and the delta is [(f - 1)] times the base volume, however many
    shocks there are. *)
Theorem scenario_uniform_factor
        (plan : PlanResponse) (request : ScenarioRequest) (f : Q) :
  demand_shocks request <> [] ->
  (forall shock, In shock (demand_shocks request) -> factor shock == f) ->
  exists k,
    compute_scenario_kpis plan request = [k] /\
    skpi_scenario k == base_volume_of plan * f /\
    skpi_delta k == (f - 1) * base_volume_of plan.
Proof.
  intros Hne Hall. eexists. split; [reflexivity |].
  cbn [skpi_scenario skpi_delta].
  assert (Hf : average_demand_factor request == f).
  { rewrite average_demand_factor_eq.
    assert (Hfs : demand_factors_of request = map factor (demand_shocks request))
      by reflexivity.
    assert (Hsum : py_sum (demand_factors_of request)
                   == Qnat (length (demand_factors_of request)) * f).
    { apply py_sum_constant. intros x Hx. rewrite Hfs in Hx.
      apply in_map_iff in Hx. destruct Hx as (sh & <- & Hsh).
      apply Hall. exact Hsh. }
    destruct (demand_factors_of request) as [|a l] eqn:Hd.
    - destruct (demand_shocks request); [congruence | discriminate].
    - rewrite Hsum.
      assert (Hpos : 0 < Qnat (length (a :: l))) by (apply Qnat_pos; simpl; lia).
      generalize dependent (Qnat (length (a :: l))). intros n _ Hpos.
      field. intro Hz. rewrite Hz in Hpos. revert Hpos. apply Qlt_irrefl. }
  rewrite Hf. split; ring.
Qed.

Lemma scenario_uniform_factor_witness :
  exists k,
    compute_scenario_kpis demo_plan request_plan_p1 = [k] /\
    skpi_delta k == (1.2 - 1) * base_volume_of demo_plan.
Proof.
  destruct (scenario_uniform_factor demo_plan request_plan_p1 1.2)
    as (k & Hk & _ & Hd).
  - discriminate.
  - intros shock [<- | []]. reflexivity.
  - exists k. auto.
Defined.

(** ** The narrative and the scenario store *)

Lemma narrative_of_is_some (plan : PlanResponse) (payload : ScenarioRequest) :
  exists n, narrative_of payload (compute_scenario_kpis plan payload) = Some n.
Proof.
  unfold narrative_of, compute_scenario_kpis. cbn [find skpi_name].
  change (String.eqb "Total Volume" "Total Volume") with true. cbv iota.
  destruct (Qeq_bool (average_demand_factor payload) 1.0); eexists; reflexivity.
Qed.

(** X22.  A scenario that runs always has a narrative.  Its first sentence
    reports an increase exactly for a positive delta, a decrease exactly for
    a negative one and no change for a zero delta, with the percentage
    [delta / base * 100], taken as zero for a zero base; a second sentence
    names the average demand factor exactly when that factor is not 1; the
    narrative starts with the scenario name, or "Scenario" when the name is
    missing or empty. *)
Theorem narrative_reports_direction (plan : PlanResponse) (payload : ScenarioRequest) :
  let base := base_volume_of plan in
  let f := average_demand_factor payload in
  let scenario := base * f in
  let delta_ := scenario - base in
  exists direction pct rest,
    narrative_of payload (compute_scenario_kpis plan payload)
    = Some (narrative_name payload,
            TotalVolumeSentence direction base scenario pct :: rest) /\
    (direction = increase <-> 0 < delta_) /\
    (direction = decrease <-> delta_ < 0) /\
    (direction = no_change <-> delta_ == 0) /\
    (base == 0 -> pct == 0) /\
    (~ base == 0 -> pct == delta_ / base * 100) /\
    (f == 1 -> rest = []) /\
    (~ f == 1 -> rest = [DemandFactorSentence f]).
Proof.
  intros base f scenario delta_.
  unfold narrative_of, compute_scenario_kpis. cbn [find skpi_name String.eqb].
  change (String.eqb "Total Volume" "Total Volume") with true. cbv iota.
  cbn [skpi_base skpi_delta skpi_scenario].
  fold base. fold f. fold scenario. fold delta_.
  exists (if Qltb 0 delta_ then increase
          else if Qltb delta_ 0 then decrease else no_change),
         (if Qeq_bool base 0 then 0.0 else delta_ / base * 100.0),
         (if Qeq_bool f 1.0 then [] else [DemandFactorSentence f]).
  split.
  { fold (narrative_name payload). destruct (Qeq_bool f 1.0); reflexivity. }
  assert (Hdir : forall d, (d = increase <-> increase = d)
                           /\ (d = decrease <-> decrease = d)
                           /\ (d = no_change <-> no_change = d))
    by (intro d; repeat split; intro; congruence).
  split; [| split; [| split]].
  - destruct (Qltb 0 delta_) eqn:H1.
    + apply Qltb_lt in H1. tauto.
    + apply Qltb_ge in H1. destruct (Qltb delta_ 0); split;
        try discriminate; intro H; lra.
  - destruct (Qltb 0 delta_) eqn:H1.
    + apply Qltb_lt in H1. split; [discriminate | intro H; lra].
    + destruct (Qltb delta_ 0) eqn:H2.
      * apply Qltb_lt in H2. tauto.
      * apply Qltb_ge in H2. split; [discriminate | intro H; lra].
  - destruct (Qltb 0 delta_) eqn:H1.
    + apply Qltb_lt in H1. split; [discriminate | intro H; lra].
    + apply Qltb_ge in H1. destruct (Qltb delta_ 0) eqn:H2.
      * apply Qltb_lt in H2. split; [discriminate | intro H; lra].
      * apply Qltb_ge in H2. split; [intros _; lra | reflexivity].
  - split; [| split; [| split]].
    + intro Hb. apply Qeq_bool_iff in Hb. rewrite Hb. reflexivity.
    + intro Hb. destruct (Qeq_bool base 0) eqn:He.
      * apply Qeq_bool_iff in He. contradiction.
      * assert (H100 : 100.0 == 100) by reflexivity. rewrite H100. reflexivity.
    + intro Hf. assert (Hf' : f == 1.0) by (rewrite Hf; reflexivity).
      apply Qeq_bool_iff in Hf'. rewrite Hf'. reflexivity.
    + intro Hf. destruct (Qeq_bool f 1.0) eqn:He; [| reflexivity].
      apply Qeq_bool_iff in He. exfalso. apply Hf. rewrite He. reflexivity.
Qed.

Lemma narrative_reports_direction_witness :
  exists pct rest,
    narrative_of request_plan_p1 (compute_scenario_kpis demo_plan request_plan_p1)
    = Some ("Demand x1.2"%string,
            TotalVolumeSentence increase (base_volume_of demo_plan)
              (base_volume_of demo_plan * average_demand_factor request_plan_p1)
              pct :: rest).
Proof.
  destruct (narrative_reports_direction demo_plan request_plan_p1)
    as (direction & pct & rest & Hn & Hinc & _).
  assert (Hd : direction = increase).
  { apply Hinc. vm_compute. reflexivity. }
  subst direction. exists pct, rest. exact Hn.
Defined.

Lemma dict_set_values_in {V : Type} (d : dict V) (k : string) (v : V) :
  In v (dict_values (dict_set d k v)).
Proof.
  unfold dict_values. induction d as [|[k0 v0] d IH]; simpl; [auto |].
  destruct (String.eqb k0 k); simpl; auto.
Qed.

Lemma run_scenario_cases (store : InMemoryStore) (uuid4 : string)
      (payload : ScenarioRequest) :
  (exists e, run_scenario store uuid4 payload = (Raise e, store)) \/
  (exists plan,
      run_scenario store uuid4 payload
      = (Return {| scenario_id := uuid4;
                   resp_forecast_id := req_forecast_id payload;
                   resp_plan_id := Some (plan_id plan);
                   resp_name := req_name payload;
                   resp_kpis := compute_scenario_kpis plan payload;
                   narrative := narrative_of payload
                                  (compute_scenario_kpis plan payload) |},
         {| plans := plans store;
            scenarios :=
              dict_set (scenarios store) uuid4
                {| scenario_id := uuid4;
                   resp_forecast_id := req_forecast_id payload;
                   resp_plan_id := Some (plan_id plan);
                   resp_name := req_name payload;
                   resp_kpis := compute_scenario_kpis plan payload;
                   narrative := narrative_of payload
                                  (compute_scenario_kpis plan payload) |} |})).
Proof.
  unfold run_scenario. destruct (truthy (req_plan_id payload)).
  - destruct (dict_get (plans store) _) as [plan|]; [right | left]; eauto.
  - destruct (first_plan_for (plans store) (req_forecast_id payload)) as [plan|];
      [right | left]; eauto.
Qed.

(** X23.  A scenario that runs is stored under its identifier and can be
    read back: [get_scenario] on the new store returns the very response,
    which carries the request's forecast id and name and has a narrative;
    the plans and the scenarios under other identifiers are untouched.  A
    call that fails leaves the store as it was, and [get_scenario] on an
    identifier that is not stored fails with 404. *)
Theorem run_scenario_then_get_scenario
        (store : InMemoryStore) (uuid4 : string) (payload : ScenarioRequest) :
  (forall response,
      fst (run_scenario store uuid4 payload) = Return response ->
      let store' := snd (run_scenario store uuid4 payload) in
      get_scenario store' uuid4 = Return response /\
      scenario_id response = uuid4 /\
      resp_forecast_id response = req_forecast_id payload /\
      resp_name response = req_name payload /\
      narrative response <> None /\
      plans store' = plans store /\
      forall other, other <> uuid4 ->
                    get_scenario store' other = get_scenario store other) /\
  (forall e, fst (run_scenario store uuid4 payload) = Raise e ->
             snd (run_scenario store uuid4 payload) = store) /\
  (forall other, dict_get (scenarios store) other = None ->
                 get_scenario store other
                 = Raise (HTTP_404_NOT_FOUND "Scenario not found")).
Proof.
  split; [| split].
  - intros response Hr store'. subst store'.
    destruct (run_scenario_cases store uuid4 payload) as [(e & He) | (plan & Hp)].
    + rewrite He in Hr. discriminate.
    + rewrite Hp in *. cbn [fst snd] in *. injection Hr as <-.
      cbn [scenario_id resp_forecast_id resp_name narrative plans].
      unfold get_scenario. cbn [scenarios].
      split; [rewrite dict_get_set, String.eqb_refl; reflexivity |].
      split; [reflexivity |]. split; [reflexivity |]. split; [reflexivity |].
      split.
      { destruct (narrative_of_is_some plan payload) as (n & Hn).
        rewrite Hn. discriminate. }
      split; [reflexivity |].
      intros other Hne. rewrite dict_get_set.
      assert (Hk : String.eqb uuid4 other = false)
        by (apply String.eqb_neq; congruence).
      rewrite Hk. reflexivity.
  - intros e He.
    destruct (run_scenario_cases store uuid4 payload) as [(e' & He') | (plan & Hp)].
    + rewrite He'. reflexivity.
    + rewrite Hp in He. discriminate.
  - intros other Hnone. unfold get_scenario. rewrite Hnone. reflexivity.
Qed.

Lemma option_string_eqb_eq (a b : option string) :
  option_string_eqb a b = true <-> a = b.
Proof.
  destruct a as [x|], b as [y|]; simpl; try (split; congruence).
  rewrite String.eqb_eq. split; congruence.
Qed.

Lemma scenario_matches_iff (forecast_id_ plan_id_ : option string)
      (scenario : ScenarioResponse) :
  scenario_matches forecast_id_ plan_id_ scenario = true
  <-> (forall fid, forecast_id_ = Some fid -> resp_forecast_id scenario = fid) /\
      (forall pid, plan_id_ = Some pid -> resp_plan_id scenario = Some pid).
Proof.
  unfold scenario_matches. rewrite andb_true_iff.
  destruct forecast_id_ as [f|], plan_id_ as [p|];
    rewrite ?String.eqb_eq, ?option_string_eqb_eq; split.
  - intros [H1 H2]. split; intros x Hx; congruence.
  - intros [H1 H2]. split; [apply H1 | apply H2]; reflexivity.
  - intros [H1 _]. split; intros x Hx; congruence.
  - intros [H1 _]. split; [apply H1 |]; reflexivity.
  - intros [_ H2]. split; intros x Hx; congruence.
  - intros [_ H2]. split; [| apply H2]; reflexivity.
  - intros _. split; intros x Hx; discriminate.
  - intros _. split; reflexivity.
Qed.

(** X24.  [list_scenarios] lists, in insertion order, the summary of every
    stored scenario that has the given forecast id and the given plan id,
    a filter that is not given excluding nothing: without filters it lists
    every stored scenario, and a scenario that has just run is listed under
    its request's forecast id. *)
Theorem list_scenarios_filters
        (store : InMemoryStore) (forecast_id_ plan_id_ : option string) :
  (forall s,
      In s (list_scenarios store forecast_id_ plan_id_) <->
      exists scenario,
        In scenario (dict_values (scenarios store)) /\ s = summary_of scenario /\
        (forall fid, forecast_id_ = Some fid -> resp_forecast_id scenario = fid) /\
        (forall pid, plan_id_ = Some pid -> resp_plan_id scenario = Some pid)) /\
  list_scenarios store None None = map summary_of (dict_values (scenarios store)) /\
  (forall uuid4 payload response,
      fst (run_scenario store uuid4 payload) = Return response ->
      In (summary_of response)
         (list_scenarios (snd (run_scenario store uuid4 payload))
                         (Some (req_forecast_id payload)) None)).
Proof.
  split; [| split].
  - intro s. unfold list_scenarios. fold summary_of. rewrite in_map_iff. split.
    + intros (scenario & <- & Hin). apply filter_In in Hin. destruct Hin as [Hin Hm].
      apply scenario_matches_iff in Hm. exists scenario. tauto.
    + intros (scenario & Hin & -> & Hf & Hp). exists scenario.
      split; [reflexivity |]. apply filter_In. split; [exact Hin |].
      apply scenario_matches_iff. auto.
  - unfold list_scenarios. fold summary_of. f_equal.
    induction (dict_values (scenarios store)) as [|x l IH]; simpl; congruence.
  - intros uuid4 payload response Hr.
    destruct (run_scenario_cases store uuid4 payload) as [(e & He) | (plan & Hp)].
    + rewrite He in Hr. discriminate.
    + rewrite Hp in *. cbn [fst snd] in *. injection Hr as <-.
      unfold list_scenarios. fold summary_of. apply in_map. apply filter_In.
      split; [apply dict_set_values_in |].
      apply scenario_matches_iff. cbn [resp_forecast_id]. split.
      * intros fid H. congruence.
      * intros pid H. discriminate.
Qed.

(** ** The planning service *)

Lemma generate_plan_cases (st : StoreState) (uuid4 : string)
      (payload : PlanGenerateRequest) :
  match dict_get (forecasts st) (pg_forecast_id payload) with
  | None =>
      generate_plan st uuid4 payload
      = (Raise (HTTP_404_NOT_FOUND "Forecast not found"), st)
  | Some forecast =>
      let out := generate_supply_plan (fr_points forecast) (pg_constraints payload)
                                      (pg_location payload) in
      let plan := plan_response_of uuid4 (pg_forecast_id payload) out in
      generate_plan st uuid4 payload
      = (Return plan,
         {| forecasts := forecasts st;
            artifacts := {| plans := dict_set (plans (artifacts st)) uuid4 plan;
                            scenarios := scenarios (artifacts st) |} |})
  end.
Proof.
  unfold generate_plan.
  destruct (dict_get (forecasts st) (pg_forecast_id payload)) as [forecast|];
    [| reflexivity].
  cbv zeta.
  destruct (generate_supply_plan _ _ _) as [[o p] k]. reflexivity.
Qed.

(** X25.  [generate_plan] fails with 404 "Forecast not found", leaving the
    store as it was, exactly when no forecast is stored under the request's
    forecast id.  Otherwise it returns the supply plan of that forecast's
    points under the new plan id and the request's forecast id, stores it
    under the plan id, and changes neither the forecasts nor the scenarios
    nor the plans stored under other ids. *)
Theorem generate_plan_stores_plan
        (st : StoreState) (uuid4 : string) (payload : PlanGenerateRequest) :
  (dict_get (forecasts st) (pg_forecast_id payload) = None ->
   generate_plan st uuid4 payload
   = (Raise (HTTP_404_NOT_FOUND "Forecast not found"), st)) /\
  (forall forecast,
      dict_get (forecasts st) (pg_forecast_id payload) = Some forecast ->
      exists plan,
        fst (generate_plan st uuid4 payload) = Return plan /\
        plan = plan_response_of uuid4 (pg_forecast_id payload)
                 (generate_supply_plan (fr_points forecast) (pg_constraints payload)
                                       (pg_location payload)) /\
        let st' := snd (generate_plan st uuid4 payload) in
        dict_get (plans (artifacts st')) uuid4 = Some plan /\
        (forall other, other <> uuid4 ->
                       dict_get (plans (artifacts st')) other
                       = dict_get (plans (artifacts st)) other) /\
        forecasts st' = forecasts st /\
        scenarios (artifacts st') = scenarios (artifacts st)).
Proof.
  pose proof (generate_plan_cases st uuid4 payload) as H. split.
  - intro Hnone. rewrite Hnone in H. exact H.
  - intros forecast Hsome. rewrite Hsome in H. cbv zeta in H.
    eexists. rewrite H. cbn [fst snd]. split; [reflexivity |].
    split; [reflexivity |]. cbn [artifacts plans forecasts scenarios].
    split; [rewrite dict_get_set, String.eqb_refl; reflexivity |].
    split; [| split; reflexivity].
    intros other Hne. rewrite dict_get_set.
    assert (Hk : String.eqb uuid4 other = false)
      by (apply String.eqb_neq; congruence).
    rewrite Hk. reflexivity.
Qed.

Lemma generate_plan_stores_plan_witness :
  generate_plan demo_store_state "p1"
                (plan_request "f0" demo_constraints None)
  = (Raise (HTTP_404_NOT_FOUND "Forecast not found"), demo_store_state).
Proof.
  destruct (generate_plan_stores_plan demo_store_state "p1"
              (plan_request "f0" demo_constraints None)) as [H _].
  apply H. reflexivity.
Defined.

Lemma dict_set_fresh_values {V : Type} (d : dict V) (k : string) (v : V) :
  dict_get d k = None -> dict_values (dict_set d k v) = dict_values d ++ [v].
Proof.
  unfold dict_values. induction d as [|[k0 v0] d IH]; simpl; [reflexivity |].
  destruct (String.eqb k0 k); [discriminate |].
  intro H. simpl. rewrite IH by exact H. reflexivity.
Qed.

Lemma find_app_some {A : Type} (f : A -> bool) (l l' : list A) (x : A) :
  find f l = Some x -> find f (l ++ l') = Some x.
Proof.
  induction l as [|a l IH]; simpl; [discriminate |].
  destruct (f a); auto.
Qed.

Lemma first_plan_for_some (ps : dict PlanResponse) (forecast_id_ : string)
      (plan : PlanResponse) :
  In plan (dict_values ps) -> plan_forecast_id plan = forecast_id_ ->
  exists found, first_plan_for ps forecast_id_ = Some found /\
                plan_forecast_id found = forecast_id_.
Proof.
  intros Hin Hf. unfold first_plan_for.
  destruct (find _ (dict_values ps)) as [found|] eqn:Hfind.
  - exists found. split; [reflexivity |].
    apply find_some in Hfind. destruct Hfind as [_ H].
    apply String.eqb_eq in H. exact H.
  - exfalso. pose proof (find_none _ _ Hfind plan Hin) as H.
    cbv beta in H. rewrite Hf, String.eqb_refl in H. discriminate.
Qed.

(** X26.  After a plan was generated for a forecast, a scenario for that
    forecast that names no plan never fails for want of a base plan.  The
    plan it runs on is the first one stored for the forecast: when the store
    already held a plan for it, the scenario runs on that older plan and not
    on the one generated last (the new plan id being a fresh one). *)
Theorem scenario_after_generate_plan
        (st : StoreState) (uuid4 : string) (payload : PlanGenerateRequest)
        (scenario_uuid : string) (request : ScenarioRequest) :
  dict_get (forecasts st) (pg_forecast_id payload) <> None ->
  req_plan_id request = None ->
  req_forecast_id request = pg_forecast_id payload ->
  let store' := artifacts (snd (generate_plan st uuid4 payload)) in
  (exists response found,
      fst (run_scenario store' scenario_uuid request) = Return response /\
      resp_plan_id response = Some (plan_id found) /\
      first_plan_for (plans store') (req_forecast_id request) = Some found) /\
  (forall older,
      dict_get (plans (artifacts st)) uuid4 = None ->
      first_plan_for (plans (artifacts st)) (req_forecast_id request) = Some older ->
      exists response,
        fst (run_scenario store' scenario_uuid request) = Return response /\
        resp_plan_id response = Some (plan_id older) /\
        resp_kpis response = compute_scenario_kpis older request).
Proof.
  intros Hsome Hnone Hfid store'. subst store'.
  pose proof (generate_plan_cases st uuid4 payload) as H.
  destruct (dict_get (forecasts st) (pg_forecast_id payload)) as [forecast|];
    [| congruence].
  cbv zeta in H. rewrite H. cbn [snd artifacts plans].
  set (plan := plan_response_of uuid4 (pg_forecast_id payload) _) in *.
  split.
  - destruct (first_plan_for_some (dict_set (plans (artifacts st)) uuid4 plan)
                (req_forecast_id request) plan) as (found & Hfound & _).
    + apply dict_set_values_in.
    + rewrite Hfid. reflexivity.
    + unfold run_scenario. rewrite Hnone. cbn [truthy plans]. rewrite Hfound.
      eexists. exists found. cbn [fst resp_plan_id]. repeat split.
  - intros older Hfresh Hold. unfold run_scenario. rewrite Hnone.
    cbn [truthy plans]. unfold first_plan_for in *.
    rewrite (dict_set_fresh_values _ _ _ Hfresh), (find_app_some _ _ _ _ Hold).
    eexists. cbn [fst resp_plan_id resp_kpis]. repeat split.
Qed.

Lemma scenario_after_generate_plan_witness :
  exists response found,
    fst (run_scenario
           (artifacts (snd (generate_plan
              {| forecasts := [("f1"%string,
                                {| forecast_id := "f1"; fr_points := demo_points;
                                   fr_metadata :=
                                     {| model_name := "m"; model_version := "1";
                                        components := []; notes := None;
                                        per_sku_model := [] |};
                                   fr_metrics := None |})];
                 artifacts := {| plans := []; scenarios := [] |} |}
              "p1" (plan_request "f1" demo_constraints None))))
           "s1"
           {| req_forecast_id := "f1"; req_plan_id := None; req_name := None;
              shocks := [] |})
    = Return response /\
    resp_plan_id response = Some (plan_id found).
Proof.
  destruct (scenario_after_generate_plan
              {| forecasts := [("f1"%string,
                                {| forecast_id := "f1"; fr_points := demo_points;
                                   fr_metadata :=
                                     {| model_name := "m"; model_version := "1";
                                        components := []; notes := None;
                                        per_sku_model := [] |};
                                   fr_metrics := None |})];
                 artifacts := {| plans := []; scenarios := [] |} |}
              "p1" (plan_request "f1" demo_constraints None) "s1"
              {| req_forecast_id := "f1"; req_plan_id := None; req_name := None;
                 shocks := [] |})
    as [(response & found & Hr & Hp & _) _].
  - simpl. discriminate.
  - reflexivity.
  - reflexivity.
  - exists response, found. auto.
Defined.

(** ** Forecast, plan and scenario in a row *)

Lemma total_volume_kpi_is_recommended
      (pts : list ForecastPoint) (constraints : InventoryConstraints)
      (location_ : option string) (k : PlanKPI) :
  (forall p, In p pts -> 0 <= mean p) ->
  (0 <= lead_time_days constraints)%Z ->
  In k (snd (generate_supply_plan pts constraints location_)) ->
  kpi_name k = "Total Volume"%string ->
  kpi_value k
  == py_sum (map order_quantity
                 (fst (fst (generate_supply_plan pts constraints location_))))
     + py_sum (map production_quantity
                   (snd (fst (generate_supply_plan pts constraints location_)))).
Proof.
  intros Hmean Hlead. destruct pts as [|p0 pts0]; [intros [] |].
  set (pts := p0 :: pts0) in *.
  assert (Hne : pts <> []) by discriminate.
  destruct (summarize_nonempty pts Hne) as (dem & m & M & Hs & _ & _ & _ & Hh).
  rewrite (generate_supply_plan_eq pts constraints location_ dem m M Hs).
  cbn [fst snd]. intros [<- | [<- | []]] Hname; [| simpl in Hname; discriminate].
  cbn [kpi_value]. rewrite fold_left_Qplus_acc, entries_sum; [ring |].
  intros [s td] Hin. simpl snd.
  apply total_required_nonneg; [exact Hh | exact Hlead |].
  destruct (summarize_demand_in pts s td) as [Htd _]; [rewrite Hs; exact Hin |].
  rewrite Htd. apply sku_demand_nonneg. exact Hmean.
Qed.

Lemma base_volume_nonneg
      (pts : list ForecastPoint) (constraints : InventoryConstraints)
      (location_ : option string) (pid fid : string) :
  0 <= base_volume_of
         (plan_response_of pid fid (generate_supply_plan pts constraints location_)).
Proof.
  unfold base_volume_of, plan_response_of. cbn [orders production].
  destruct pts as [|p0 pts0].
  - simpl. rewrite py_sum_nil. lra.
  - set (pts := p0 :: pts0).
    assert (Hne : pts <> []) by discriminate.
    destruct (summarize_nonempty pts Hne) as (dem & m & M & Hs & _).
    rewrite (generate_supply_plan_eq pts constraints location_ dem m M Hs).
    cbn [fst snd]. apply entries_sum_bounds.
Qed.

(** X27.  When a forecast is stored under the plan request's forecast id,
    [generate_plan] returns a plan under the new plan id, and a scenario
    that names that plan id (not the empty string) then runs on that very
    plan: it reports the plan's id and its own request's forecast id, its
    base volume is non-negative and, when the stored points have
    non-negative means and the lead time is non-negative, equal to the
    plan's "Total Volume" KPI. *)
Theorem plan_then_scenario_on_stored_forecast
        (st : StoreState) (plan_uuid scenario_uuid forecast_id_ : string)
        (forecast : ForecastResponse) (constraints : InventoryConstraints)
        (location_ : option string) (scenario_request : ScenarioRequest) :
  dict_get (forecasts st) forecast_id_ = Some forecast ->
  plan_uuid <> ""%string ->
  req_plan_id scenario_request = Some plan_uuid ->
  let planned := generate_plan st plan_uuid
                   (plan_request forecast_id_ constraints location_) in
  exists plan response sk,
    fst planned = Return plan /\
    plan_id plan = plan_uuid /\ plan_forecast_id plan = forecast_id_ /\
    fst (run_scenario (artifacts (snd planned)) scenario_uuid scenario_request)
    = Return response /\
    resp_plan_id response = Some plan_uuid /\
    resp_forecast_id response = req_forecast_id scenario_request /\
    resp_kpis response = [sk] /\
    skpi_base sk = base_volume_of plan /\
    0 <= skpi_base sk /\
    ((forall p, In p (fr_points forecast) -> 0 <= mean p) ->
     (0 <= lead_time_days constraints)%Z ->
     forall k, In k (kpis plan) -> kpi_name k = "Total Volume"%string ->
               kpi_value k == skpi_base sk).
Proof.
  intros Hget Hne Hpid planned. subst planned.
  pose proof (generate_plan_cases st plan_uuid
                (plan_request forecast_id_ constraints location_)) as Hplan.
  cbn [plan_request pg_forecast_id pg_constraints pg_location] in Hplan.
  rewrite Hget in Hplan. cbv zeta in Hplan. rewrite Hplan.
  cbn [fst snd artifacts].
  set (pts := fr_points forecast).
  set (plan := plan_response_of plan_uuid forecast_id_
                 (generate_supply_plan pts constraints location_)).
  exists plan. unfold run_scenario. rewrite Hpid, (truthy_some plan_uuid Hne).
  cbn [plans]. rewrite dict_get_set, String.eqb_refl. cbn [fst].
  eexists. eexists.
  split; [reflexivity |]. split; [reflexivity |]. split; [reflexivity |].
  split; [reflexivity |]. split; [reflexivity |]. split; [reflexivity |].
  split; [reflexivity |]. split; [reflexivity |].
  cbn [skpi_base]. split; [apply base_volume_nonneg |].
  intros Hmean Hlead k Hk Hname. unfold plan, plan_response_of in Hk. cbn [kpis] in Hk.
  unfold base_volume_of, plan, plan_response_of. cbn [orders production].
  apply total_volume_kpi_is_recommended; auto.
Qed.

Lemma plan_then_scenario_on_stored_forecast_witness :
  exists response,
    fst (run_scenario
           (artifacts
              (snd (generate_plan demo_forecast_store "p1"
                                  (plan_request "f1" demo_constraints None))))
           "s1" request_plan_p1)
    = Return response /\
    resp_plan_id response = Some "p1"%string.
Proof.
  destruct (plan_then_scenario_on_stored_forecast
              demo_forecast_store "p1" "s1" "f1" demo_forecast
              demo_constraints None request_plan_p1)
    as (plan & response & sk & _ & _ & _ & Hr & Hp & _).
  - reflexivity.
  - discriminate.
  - reflexivity.
  - exists response. auto.
Defined.

(** ** Authentication and roles *)

Lemma get_current_user_shape (settings : Settings) (x_api_key x_role : option string)
      (user : UserContext) :
  get_current_user settings x_api_key x_role = Authenticated user ->
  x_api_key = Some (api_key settings) /\ In (role user) (allowed_roles settings).
Proof.
  unfold get_current_user. destruct x_api_key as [key|]; [| discriminate].
  destruct (String.eqb_spec key (api_key settings)) as [-> | Hne];
    cbn [negb]; [| discriminate].
  destruct (string_in _ (allowed_roles settings)) eqn:Hin; cbn [negb];
    [| discriminate].
  intro H. injection H as <-. cbn [role].
  apply string_in_iff in Hin. auto.
Qed.

(** X28.  [get_current_user] authenticates only a request whose key header
    is the configured key, and only with an allowed role: the role header
    when it is given and not empty, the default role otherwise.  A missing
    or different key is refused with 401 whatever the role header says. *)
Theorem get_current_user_checks
        (settings : Settings) (x_api_key x_role : option string) :
  (forall user,
      get_current_user settings x_api_key x_role = Authenticated user ->
      x_api_key = Some (api_key settings) /\
      user_api_key user = api_key settings /\
      In (role user) (allowed_roles settings) /\
      (forall r, x_role = Some r -> r <> ""%string -> role user = r) /\
      (x_role = None \/ x_role = Some ""%string ->
       role user = default_role settings)) /\
  (x_api_key <> Some (api_key settings) ->
   get_current_user settings x_api_key x_role
   = HTTP_401_UNAUTHORIZED "Invalid or missing API key").
Proof.
  unfold get_current_user. split.
  - intros user. destruct x_api_key as [key|]; [| discriminate].
    destruct (String.eqb_spec key (api_key settings)) as [-> | Hne];
      cbn [negb]; [| discriminate].
    destruct (string_in _ (allowed_roles settings)) eqn:Hin; cbn [negb];
      [| discriminate].
    intro H. injection H as <-. cbn [user_api_key role].
    apply string_in_iff in Hin.
    split; [reflexivity |]. split; [reflexivity |]. split; [exact Hin |]. split.
    + intros r -> Hr. rewrite (truthy_some r Hr). reflexivity.
    + intros [-> | ->]; reflexivity.
  - intro Hne. destruct x_api_key as [key|]; [| reflexivity].
    destruct (String.eqb_spec key (api_key settings)) as [-> | Hk];
      [congruence | reflexivity].
Qed.

Lemma get_current_user_checks_witness :
  get_current_user default_settings (Some "guess"%string) (Some "admin"%string)
  = HTTP_401_UNAUTHORIZED "Invalid or missing API key".
Proof.
  destruct (get_current_user_checks default_settings
              (Some "guess"%string) (Some "admin"%string)) as [_ H].
  apply H. discriminate.
Defined.

(** X29.  A route guarded by [require_role] lets a request through only
    with the configured key and a role that is both allowed by the settings
    and required by the route.  So the role "viewer" never passes a route
    that asks for a planner or an admin, under any settings, while under
    the default settings it passes the read routes, and a request without
    a role header passes the write routes as a planner. *)
Theorem require_role_checks
        (required_roles : list string) (settings : Settings)
        (x_api_key x_role : option string) :
  (forall user,
      require_role required_roles settings x_api_key x_role = Authenticated user ->
      x_api_key = Some (api_key settings) /\
      In (role user) required_roles /\ In (role user) (allowed_roles settings)) /\
  (forall user,
      require_role roles_to_write settings x_api_key (Some "viewer"%string)
      <> Authenticated user) /\
  (exists user,
      require_role roles_to_read default_settings
                   (Some (api_key default_settings)) (Some "viewer"%string)
      = Authenticated user /\ role user = "viewer"%string) /\
  (exists user,
      require_role roles_to_write default_settings
                   (Some (api_key default_settings)) None
      = Authenticated user /\ role user = "planner"%string).
Proof.
  split; [| split; [| split]].
  - intros user. unfold require_role.
    destruct (get_current_user settings x_api_key x_role) as [u | d | d] eqn:Hu;
      try discriminate.
    destruct (string_in (role u) required_roles) eqn:Hin; cbn [negb];
      [| discriminate].
    intro H. injection H as <-.
    destruct (get_current_user_shape settings x_api_key x_role u Hu) as [Hk Ha].
    apply string_in_iff in Hin. auto.
  - intros user. unfold require_role.
    destruct (get_current_user settings x_api_key (Some "viewer"%string))
      as [u | d | d] eqn:Hu; try discriminate.
    assert (Hr : role u = "viewer"%string).
    { unfold get_current_user in Hu. destruct x_api_key as [key|]; [| discriminate].
      destruct (negb (String.eqb key (api_key settings))); [discriminate |].
      cbn [truthy String.eqb negb] in Hu.
      destruct (negb (string_in "viewer" (allowed_roles settings)));
        [discriminate |].
      injection Hu as <-. reflexivity. }
    rewrite Hr. cbn. discriminate.
  - eexists. split; reflexivity.
  - eexists. split; reflexivity.
Qed.

(** ** The plan's KPIs *)

Lemma summarize_demand_keys (pts : list ForecastPoint) :
  dict_keys (fst (fst (summarize_demand pts))) = first_seen (map sku pts).
Proof.
  induction pts as [|p pts IH] using rev_ind; [reflexivity |].
  rewrite summarize_demand_snoc.
  destruct (summarize_demand pts) as [[dem mn] mx]. simpl in IH.
  simpl summarize_step. cbv beta iota. simpl fst. unfold demand_add.
  rewrite dict_set_keys, map_app. cbn [map].
  rewrite first_seen_snoc, dict_mem_keys, IH.
  rewrite (string_in_ext (sku p) (first_seen (map sku pts)) (map sku pts))
    by (intro y; apply first_seen_in).
  reflexivity.
Qed.

Lemma total_required_of_compat (td td' : Q) (h : Z) (constraints : InventoryConstraints) :
  td == td' ->
  total_required_of td h constraints == total_required_of td' h constraints.
Proof.
  intro H. unfold total_required_of, compute_safety_stock_for_sku.
  destruct (h <=? 0)%Z; rewrite H; reflexivity.
Qed.

Lemma py_sum_map_eq {A : Type} (f g : A -> Q) (l : list A) :
  (forall x, In x l -> f x == g x) -> py_sum (map f l) == py_sum (map g l).
Proof.
  induction l as [|a l IH]; intro H; [reflexivity |].
  cbn [map]. rewrite !py_sum_cons, (H a (or_introl eq_refl)), IH.
  - reflexivity.
  - intros x Hx. apply H. right. exact Hx.
Qed.

(** The sum of [total_required] over the demand summary is its sum over the
    SKUs of the points, each with the demand the points give it. *)
Lemma total_required_sum_over_skus (pts : list ForecastPoint) (h : Z)
      (constraints : InventoryConstraints) :
  py_sum (map (fun it => total_required_of (snd it) h constraints)
              (fst (fst (summarize_demand pts))))
  == py_sum (map (fun s => total_required_of (sku_demand pts s) h constraints)
                 (first_seen (map sku pts))).
Proof.
  rewrite <- summarize_demand_keys. unfold dict_keys. rewrite map_map.
  apply py_sum_map_eq. intros [s td] Hin. cbn [fst snd].
  apply total_required_of_compat.
  apply (summarize_demand_in pts s td Hin).
Qed.

(** C7.  Without forecast points the plan has no order, no production
    recommendation and no KPI.  Otherwise it has exactly two KPIs: "Total
    Volume", the sum over the SKUs of the forecast (each once, in the order
    of first occurrence) of [total_required], that is of the SKU's demand,
    the sum of its point means, plus its safety stock over the horizon from
    the least to the greatest point date; and "Target Service Level", the
    constraints' target service level.  Every order and every production
    recommendation has a strictly positive quantity. *)
Theorem supply_plan_kpis_and_positive_quantities
        (pts : list ForecastPoint) (constraints : InventoryConstraints)
        (location_ : option string) :
  generate_supply_plan [] constraints location_ = ([], [], []) /\
  (pts <> [] ->
   exists dem min_date max_date total,
     summarize_demand pts = (dem, Some min_date, Some max_date) /\
     In min_date (map date pts) /\ In max_date (map date pts) /\
     (forall p, In p pts -> (min_date <= date p <= max_date)%Z) /\
     dict_keys dem = first_seen (map sku pts) /\
     (forall s td, In (s, td) dem -> td == sku_demand pts s) /\
     snd (generate_supply_plan pts constraints location_)
     = [ {| kpi_name := "Total Volume"; kpi_value := total;
            kpi_unit := Some "units"%string |};
         {| kpi_name := "Target Service Level";
            kpi_value := target_service_level constraints;
            kpi_unit := Some ""%string |} ] /\
     total == py_sum (map (fun it => total_required_of
                                       (snd it) (max_date - min_date + 1) constraints)
                          dem) /\
     total == py_sum (map (fun s => total_required_of
                                      (sku_demand pts s)
                                      (max_date - min_date + 1) constraints)
                          (first_seen (map sku pts))) /\
     forall s,
       total_required_of (sku_demand pts s) (max_date - min_date + 1) constraints
       == sku_demand pts s
          + sku_demand pts s / inject_Z (max_date - min_date + 1)
            * inject_Z (lead_time_days constraints)
            * spec_z (target_service_level constraints)) /\
  (forall o, In o (fst (fst (generate_supply_plan pts constraints location_))) ->
             0 < order_quantity o) /\
  (forall r, In r (snd (fst (generate_supply_plan pts constraints location_))) ->
             0 < production_quantity r).
Proof.
  split; [reflexivity |].
  destruct pts as [|p0 pts0].
  - split; [congruence |]. split; intros x [].
  - set (pts := p0 :: pts0).
    assert (Hne : pts <> []) by discriminate.
    destruct (summarize_nonempty pts Hne) as (dem & m & M & Hs & Hm & HM & Hb & Hh).
    rewrite (generate_supply_plan_eq pts constraints location_ dem m M Hs).
    cbn [fst snd]. split; [| split].
    + intros _. exists dem, m, M. eexists.
      assert (Hdem : dem = fst (fst (summarize_demand pts))) by (rewrite Hs; reflexivity).
      split; [exact Hs |]. split; [exact Hm |]. split; [exact HM |].
      split; [exact Hb |].
      split; [rewrite Hdem; apply summarize_demand_keys |].
      split; [intros s td Hin; apply (summarize_demand_in pts s td);
              rewrite <- Hdem; exact Hin |].
      split; [reflexivity |].
      split; [rewrite fold_left_Qplus_acc; ring |].
      split.
      * rewrite fold_left_Qplus_acc, Hdem, total_required_sum_over_skus. ring.
      * intro s. unfold total_required_of.
        rewrite (safety_stock_formula _ _ constraints Hh). reflexivity.
    + intros o Ho. apply order_entry_in in Ho.
      destruct Ho as (s & td & _ & Hpos & ->). exact Hpos.
    + intros r Hr. apply production_entry_in in Hr.
      destruct Hr as (s & td & _ & Hpos & ->). exact Hpos.
Qed.

Lemma supply_plan_kpis_and_positive_quantities_witness :
  exists total,
    snd (generate_supply_plan demo_points demo_constraints None)
    = [ {| kpi_name := "Total Volume"; kpi_value := total;
           kpi_unit := Some "units"%string |};
        {| kpi_name := "Target Service Level"; kpi_value := 0.95;
           kpi_unit := Some ""%string |} ] /\
    total == py_sum (map (fun s => total_required_of (sku_demand demo_points s)
                                                     3 demo_constraints)
                         ["SKU-001"; "SKU-002"]%string).
Proof.
  destruct (supply_plan_kpis_and_positive_quantities demo_points demo_constraints None)
    as (_ & H & _).
  destruct H as (dem & m & M & total & Hs & _ & _ & _ & _ & _ & Hk & _ & Ht & _).
  - discriminate.
  - exists total. split; [exact Hk |].
    assert (HmM : m = 739252%Z /\ M = 739254%Z).
    { vm_compute in Hs. injection Hs as _ Hm HM. auto. }
    destruct HmM as [-> ->]. exact Ht.
Defined.
